(** * Journal Pattern Reflection Engine: a shallow embedding

    The development follows two source files of the repository:
    the pattern generator (the module imported as
    [@/utils/ai/journal-patterns]) and the HTTP route that caches its
    results; two small modules beside them, the mapping of user names to
    e-mail addresses and the choice of the prompts of the day, come
    after.  JavaScript strings are sequences of UTF-16 code units,
    numbers that count or index are [nat] or [Z], the result cache is a
    finite map, and the calls to the model provider are recorded in an
    explicit state that is threaded through the code.  What the host and
    the services outside the repository do (collation, case mapping, the
    provider, the database, the clock) enters as variables of the
    sections that need it. *)

From Stdlib Require Import ZArith NArith List Bool Lia String Ascii.
From Stdlib Require Import DecimalString.
From stdpp Require Import gmap list option.

(** * JavaScript strings *)

Module JS.

(** A string is the list of its UTF-16 code units. *)
Abbreviation jstring := (list N).

Definition ch (a : ascii) : N := N_of_ascii a.

(** An ASCII literal as a JavaScript string. *)
Definition js (s : string) : jstring := List.map ch (list_ascii_of_string s).

Definition dquote : N := 34.
Definition squote : N := 39.
Definition backslash : N := 92.
Definition newline : N := 10.

(** An ASCII literal in which a backquote stands for a double quote. *)
Definition jsq (s : string) : jstring :=
  List.map (fun c => if N.eqb c 96 then dquote else c) (js s).

(** [WhiteSpace] and [LineTerminator] of ECMAScript: what [trim] strips and
    what [\s] matches. *)
Definition isWhite (c : N) : bool :=
  (N.leb 9 c && N.leb c 13) || N.eqb c 32 || N.eqb c 160 || N.eqb c 5760
  || (N.leb 8192 c && N.leb c 8202) || N.eqb c 8232 || N.eqb c 8233
  || N.eqb c 8239 || N.eqb c 8287 || N.eqb c 12288 || N.eqb c 65279.

Fixpoint trimStart (s : jstring) : jstring :=
  match s with
  | c :: tl => if isWhite c then trimStart tl else s
  | [] => []
  end.

Definition trimEnd (s : jstring) : jstring := rev (trimStart (rev s)).

Definition trim (s : jstring) : jstring := trimEnd (trimStart s).

(** [s.slice(a, b)] for non-negative [a] and [b]. *)
Definition slice {A} (s : list A) (a b : nat) : list A :=
  firstn (b - a) (skipn a s).

Fixpoint startsWith (s p : jstring) : bool :=
  match p, s with
  | [], _ => true
  | x :: p', y :: s' => N.eqb x y && startsWith s' p'
  | _ :: _, [] => false
  end.

Fixpoint indexOf_go (s needle : jstring) (i : nat) : option nat :=
  if startsWith s needle then Some i
  else match s with
       | [] => None
       | _ :: tl => indexOf_go tl needle (S i)
       end.

(** [s.indexOf(needle, from)], [-1] when there is no occurrence. *)
Definition indexOf (s needle : jstring) (from : nat) : Z :=
  let from' := Nat.min from (length s) in
  match indexOf_go (skipn from' s) needle from' with
  | Some i => Z.of_nat i
  | None => (-1)%Z
  end.

Definition includes (s needle : jstring) : bool :=
  match indexOf_go s needle 0 with Some _ => true | None => false end.

Fixpoint join (sep : jstring) (l : list jstring) : jstring :=
  match l with
  | [] => []
  | [x] => x
  | x :: tl => x ++ sep ++ join sep tl
  end.

(** Truthiness of a string: non-empty. *)
Definition truthy (s : jstring) : bool :=
  match s with [] => false | _ => true end.

(** [String(n)] for a non-negative integer. *)
Definition ofNat (n : nat) : jstring :=
  js (NilEmpty.string_of_uint (Nat.to_uint n)).

(** Code-unit order, the order of [<] on strings; on dates in ISO form it
    agrees with [localeCompare]. *)
Fixpoint codeUnitCompare (a b : jstring) : Z :=
  match a, b with
  | [], [] => 0
  | [], _ :: _ => -1
  | _ :: _, [] => 1
  | x :: a', y :: b' =>
      if N.ltb x y then -1 else if N.ltb y x then 1 else codeUnitCompare a' b'
  end%Z.

(** Lower-casing of the letters A to Z; other code units are kept. *)
Definition asciiLower (s : jstring) : jstring :=
  List.map (fun c => if N.leb 65 c && N.leb c 90 then (c + 32)%N else c) s.

End JS.
Import JS.

(** * Regular expressions

    A backtracking matcher for the fragment of ECMAScript regular
    expressions that the source uses: classes, sequence, greedy star,
    capture groups, word boundary and the two anchors. *)

Module Regex.

Inductive re :=
| Eps
| Cls (p : N -> bool)
| Seq (a b : re)
| Star (a : re)
| Group (i : nat) (a : re)
| WordB
| Bol
| Eol.

Record mstate := MState {
  m_prev : option N;          (* the code unit before the position *)
  m_pos : nat;                (* the position in the subject *)
  m_rest : jstring;           (* the subject from the position on *)
  m_caps : list (nat * jstring)
}.

Definition isWordChar (c : N) : bool :=
  (N.leb 48 c && N.leb c 57) || (N.leb 65 c && N.leb c 90)
  || (N.leb 97 c && N.leb c 122) || N.eqb c 95.

Definition isDigit (c : N) : bool := N.leb 48 c && N.leb c 57.

Definition wordAt (o : option N) : bool :=
  match o with Some c => isWordChar c | None => false end.

(** The greedy star over [step], the matcher of the starred expression:
    another round if that consumes something and the rest then matches,
    else the rest at once. *)
Fixpoint star_loop (step : (mstate -> option mstate) -> mstate -> option mstate)
    (k : mstate -> option mstate) (fuel : nat) (st : mstate) : option mstate :=
  match fuel with
  | O => k st
  | S fuel' =>
      match step (fun st' => if Nat.ltb (m_pos st) (m_pos st')
                             then star_loop step k fuel' st' else None) st with
      | Some out => Some out
      | None => k st
      end
  end.

Fixpoint run (r : re) (k : mstate -> option mstate) (st : mstate)
  : option mstate :=
  match r with
  | Eps => k st
  | Cls p =>
      match m_rest st with
      | c :: tl =>
          if p c then k (MState (Some c) (S (m_pos st)) tl (m_caps st))
          else None
      | [] => None
      end
  | Seq a b => run a (run b k) st
  | Star a => star_loop (run a) k (S (length (m_rest st))) st
  | Group i a =>
      run a (fun st' =>
               k (MState (m_prev st') (m_pos st') (m_rest st')
                    ((i, firstn (m_pos st' - m_pos st) (m_rest st))
                       :: m_caps st'))) st
  | WordB =>
      if xorb (wordAt (m_prev st)) (wordAt (head (m_rest st))) then k st
      else None
  | Bol => if Nat.eqb (m_pos st) 0 then k st else None
  | Eol => match m_rest st with [] => k st | _ => None end
  end.

(** One attempt at a fixed position. *)
Definition exec_at (r : re) (prev : option N) (pos : nat) (s : jstring)
  : option mstate :=
  run r Some (MState prev pos s []).

Fixpoint cap (i : nat) (caps : list (nat * jstring)) : jstring :=
  match caps with
  | [] => []
  | (j, v) :: tl => if Nat.eqb i j then v else cap i tl
  end.

(** The first match at or after the position, as [exec] finds it. *)
Fixpoint search (r : re) (prev : option N) (pos : nat) (s : jstring)
  : option (nat * mstate) :=
  match exec_at r prev pos s with
  | Some m => Some (pos, m)
  | None =>
      match s with
      | [] => None
      | c :: tl => search r (Some c) (S pos) tl
      end
  end.

(** [s.replace(r, f)] for a regular expression with the [g] flag; [f]
    receives the matched text and the captures. *)
Fixpoint replaceAll_go (fuel : nat) (r : re)
    (f : jstring -> list (nat * jstring) -> jstring)
    (prev : option N) (pos : nat) (s : jstring) : jstring :=
  match fuel with
  | O => s
  | S fuel' =>
      match exec_at r prev pos s with
      | Some m =>
          let n := m_pos m - pos in
          let out := f (firstn n s) (m_caps m) in
          if Nat.eqb n 0 then
            match s with
            | [] => out
            | c :: tl => out ++ c :: replaceAll_go fuel' r f (Some c) (S pos) tl
            end
          else out ++ replaceAll_go fuel' r f (m_prev m) (m_pos m) (m_rest m)
      | None =>
          match s with
          | [] => []
          | c :: tl => c :: replaceAll_go fuel' r f (Some c) (S pos) tl
          end
      end
  end.

Definition replaceAll (r : re) (f : jstring -> list (nat * jstring) -> jstring)
    (s : jstring) : jstring :=
  replaceAll_go (S (length s)) r f None 0 s.

(** [s.replace(r, f)] without the [g] flag: the first match only. *)
Definition replaceFirst (r : re)
    (f : jstring -> list (nat * jstring) -> jstring) (s : jstring) : jstring :=
  match search r None 0 s with
  | Some (start, m) =>
      firstn start s ++ f (slice s start (m_pos m)) (m_caps m) ++ m_rest m
  | None => s
  end.

(** [s.match(r)] without the [g] flag: the captures of the first match. *)
Definition match_ (r : re) (s : jstring) : option (list (nat * jstring)) :=
  match search r None 0 s with
  | Some (_, m) => Some (m_caps m)
  | None => None
  end.

(** Builders. *)
Definition chr (a : ascii) : re := Cls (N.eqb (ch a)).
Definition chrI (a : ascii) : re :=
  Cls (fun c => match asciiLower [c] with
                | [c'] => N.eqb c' (ch a)
                | _ => false
                end).
Definition ws : re := Cls isWhite.
Definition digit : re := Cls isDigit.
Fixpoint seqs (l : list re) : re :=
  match l with
  | [] => Eps
  | [r] => r
  | r :: tl => Seq r (seqs tl)
  end.
Definition lit (s : string) : re := seqs (List.map chr (list_ascii_of_string s)).
Definition litI (s : string) : re := seqs (List.map chrI (list_ascii_of_string s)).
Definition plus (r : re) : re := Seq r (Star r).
Fixpoint times (n : nat) (r : re) : re :=
  match n with
  | O => Eps
  | S O => r
  | S n' => Seq r (times n' r)
  end.

End Regex.

(** * JSON values and [JSON.parse] *)

Module Json.

(** A number is kept as the exact decimal [m * 10^e] that its text denotes,
    with no factor ten left in [m]; the rounding to a double is not
    modelled.  An object keeps its members in the order of first
    insertion, a repeated key overwrites in place. *)
#[warnings="-register-all"] Inductive json :=
| JNull
| JBool (b : bool)
| JNumber (m e : Z)
| JString (s : jstring)
| JArray (l : list json)
| JObject (kv : list (jstring * json)).

Definition jstring_eqb (a b : jstring) : bool :=
  Nat.eqb (length a) (length b) && startsWith a b.

Fixpoint obj_set (k : jstring) (v : json) (kv : list (jstring * json))
  : list (jstring * json) :=
  match kv with
  | [] => [(k, v)]
  | (k', v') :: tl =>
      if jstring_eqb k k' then (k, v) :: tl else (k', v') :: obj_set k v tl
  end.

Fixpoint obj_get (k : jstring) (kv : list (jstring * json)) : option json :=
  match kv with
  | [] => None
  | (k', v) :: tl => if jstring_eqb k k' then Some v else obj_get k tl
  end.

Definition isJsonWs (c : N) : bool :=
  N.eqb c 32 || N.eqb c 9 || N.eqb c 10 || N.eqb c 13.

Fixpoint skip_ws (s : jstring) : jstring :=
  match s with
  | c :: tl => if isJsonWs c then skip_ws tl else s
  | [] => []
  end.

Definition hexVal (c : N) : option N :=
  if N.leb 48 c && N.leb c 57 then Some (c - 48)%N
  else if N.leb 65 c && N.leb c 70 then Some (c - 55)%N
  else if N.leb 97 c && N.leb c 102 then Some (c - 87)%N
  else None.

Definition unescape (c : N) : option N :=
  if N.eqb c dquote then Some dquote
  else if N.eqb c backslash then Some backslash
  else if N.eqb c (ch "/") then Some (ch "/")
  else if N.eqb c (ch "b") then Some 8%N
  else if N.eqb c (ch "f") then Some 12%N
  else if N.eqb c (ch "n") then Some 10%N
  else if N.eqb c (ch "r") then Some 13%N
  else if N.eqb c (ch "t") then Some 9%N
  else None.

(** The characters of a string literal after its opening quote. *)
Fixpoint parse_chars (s : jstring) (acc : jstring) : option (jstring * jstring) :=
  match s with
  | [] => None
  | c :: tl =>
      if N.eqb c dquote then Some (rev acc, tl)
      else if N.eqb c backslash then
        match tl with
        | [] => None
        | e :: tl' =>
            if N.eqb e (ch "u") then
              match tl' with
              | h1 :: h2 :: h3 :: h4 :: tl'' =>
                  match hexVal h1, hexVal h2, hexVal h3, hexVal h4 with
                  | Some a, Some b, Some c', Some d =>
                      parse_chars tl'' ((((a * 16 + b) * 16 + c') * 16 + d)%N :: acc)
                  | _, _, _, _ => None
                  end
              | _ => None
              end
            else match unescape e with
                 | Some x => parse_chars tl' (x :: acc)
                 | None => None
                 end
        end
      else if N.ltb c 32 then None
      else parse_chars tl (c :: acc)
  end.

Fixpoint span_digits (s : jstring) : jstring * jstring :=
  match s with
  | c :: tl =>
      if Regex.isDigit c then let (d, r) := span_digits tl in (c :: d, r)
      else ([], s)
  | [] => ([], [])
  end.

Definition digitsVal (ds : jstring) : Z :=
  fold_left (fun a d => a * 10 + (Z.of_N d - 48))%Z ds 0%Z.

Fixpoint normalise (fuel : nat) (m e : Z) : Z * Z :=
  match fuel with
  | O => (m, e)
  | S f =>
      if Z.eqb m 0 then (0, 0)%Z
      else if Z.eqb (m mod 10) 0 then normalise f (m / 10)%Z (e + 1)%Z
      else (m, e)
  end.

(** [-? int frac? exp?] of the JSON grammar. *)
Definition parse_number (s : jstring) : option (json * jstring) :=
  let (neg, s1) := match s with
                   | c :: tl => if N.eqb c (ch "-") then (true, tl) else (false, s)
                   | [] => (false, s)
                   end in
  let (ip, s2) := span_digits s1 in
  match ip with
  | [] => None
  | d0 :: more =>
      if N.eqb d0 (ch "0") && truthy more then None
      else
        let fracPart :=
          match s2 with
          | c :: tl =>
              if N.eqb c (ch ".") then
                let (fp, r) := span_digits tl in
                if truthy fp then Some (fp, r) else None
              else Some ([], s2)
          | [] => Some ([], s2)
          end in
        match fracPart with
        | None => None
        | Some (fp, s3) =>
            let expPart :=
              match s3 with
              | c :: tl =>
                  if N.eqb c (ch "e") || N.eqb c (ch "E") then
                    let (eneg, tl') :=
                      match tl with
                      | sg :: r =>
                          if N.eqb sg (ch "-") then (true, r)
                          else if N.eqb sg (ch "+") then (false, r)
                          else (false, tl)
                      | [] => (false, tl)
                      end in
                    let (ep, r) := span_digits tl' in
                    if truthy ep
                    then Some (if eneg then (- digitsVal ep)%Z else digitsVal ep, r)
                    else None
                  else Some (0%Z, s3)
              | [] => Some (0%Z, s3)
              end in
            match expPart with
            | None => None
            | Some (ex, s4) =>
                let m := digitsVal (ip ++ fp) in
                let m' := if neg then (- m)%Z else m in
                let (mn, en) := normalise (length (ip ++ fp)) m'
                                  (ex - Z.of_nat (length fp))%Z in
                Some (JNumber mn en, s4)
            end
        end
  end.

(** The members of an object after its first non-blank character;
    [pv] parses one value. *)
Fixpoint members (pv : jstring -> option (json * jstring)) (fuel : nat)
    (acc : list (jstring * json)) (s : jstring) : option (json * jstring) :=
  match fuel with
  | O => None
  | S f =>
      match skip_ws s with
      | q :: r =>
          if N.eqb q dquote then
            match parse_chars r [] with
            | Some (key, r1) =>
                match skip_ws r1 with
                | col :: r2 =>
                    if N.eqb col (ch ":") then
                      match pv r2 with
                      | Some (v, r3) =>
                          match skip_ws r3 with
                          | d :: r4 =>
                              if N.eqb d (ch ",")
                              then members pv f (obj_set key v acc) r4
                              else if N.eqb d (ch "}")
                              then Some (JObject (obj_set key v acc), r4)
                              else None
                          | [] => None
                          end
                      | None => None
                      end
                    else None
                | [] => None
                end
            | None => None
            end
          else None
      | [] => None
      end
  end.

(** The elements of a non-empty array. *)
Fixpoint elements (pv : jstring -> option (json * jstring)) (fuel : nat)
    (acc : list json) (s : jstring) : option (json * jstring) :=
  match fuel with
  | O => None
  | S f =>
      match pv s with
      | Some (v, r) =>
          match skip_ws r with
          | d :: r' =>
              if N.eqb d (ch ",") then elements pv f (v :: acc) r'
              else if N.eqb d (ch "]") then Some (JArray (rev (v :: acc)), r')
              else None
          | [] => None
          end
      | None => None
      end
  end.

Fixpoint parse_value (fuel : nat) (s : jstring) : option (json * jstring) :=
  match fuel with
  | O => None
  | S f =>
      match skip_ws s with
      | [] => None
      | c :: r =>
          if N.eqb c (ch "{") then
            match skip_ws r with
            | c2 :: r2 =>
                if N.eqb c2 (ch "}") then Some (JObject [], r2)
                else members (parse_value f) f [] r
            | [] => None
            end
          else if N.eqb c (ch "[") then
            match skip_ws r with
            | c2 :: r2 =>
                if N.eqb c2 (ch "]") then Some (JArray [], r2)
                else elements (parse_value f) f [] r
            | [] => None
            end
          else if N.eqb c dquote then
            match parse_chars r [] with
            | Some (str, r') => Some (JString str, r')
            | None => None
            end
          else if startsWith (c :: r) (js "true") then Some (JBool true, skipn 4 (c :: r))
          else if startsWith (c :: r) (js "false") then Some (JBool false, skipn 5 (c :: r))
          else if startsWith (c :: r) (js "null") then Some (JNull, skipn 4 (c :: r))
          else parse_number (c :: r)
      end
  end.

(** [JSON.parse]: [None] where the source throws [SyntaxError]. *)
Definition JSON_parse (s : jstring) : option json :=
  match parse_value (S (length s)) s with
  | Some (v, r) => match skip_ws r with [] => Some v | _ => None end
  | None => None
  end.

End Json.
Import Json.

(** * The pattern generator *)

Module Patterns.

Import Regex.

(** ** The expected shape of the model's reply *)

Record ModelResponse := {
  mr_shouldSpeak : bool;
  mr_timeRange : option jstring;
  mr_reflection : option jstring;
  mr_themes : list jstring;
  mr_invitation : option jstring
}.

(** [z.boolean()] on a member that may be absent. *)
Definition zBoolean (o : option json) : option bool :=
  match o with
  | Some (JBool b) => Some b
  | _ => None
  end.

(** [z.string().nullable()]. *)
Definition zStringNullable (o : option json) : option (option jstring) :=
  match o with
  | Some JNull => Some None
  | Some (JString s) => Some (Some s)
  | _ => None
  end.

Fixpoint zStrings (l : list json) : option (list jstring) :=
  match l with
  | [] => Some []
  | JString s :: tl =>
      match zStrings tl with
      | Some r => Some (s :: r)
      | None => None
      end
  | _ :: _ => None
  end.

(** [z.array(z.string()).default([])]. *)
Definition zStringArrayDefault (o : option json) : option (list jstring) :=
  match o with
  | None => Some []
  | Some (JArray l) => zStrings l
  | Some _ => None
  end.

(** [modelResponseSchema.safeParse]: [Some data] on success. *)
Definition modelResponseSchema_safeParse (j : json) : option ModelResponse :=
  match j with
  | JObject kv =>
      match zBoolean (obj_get (js "shouldSpeak") kv),
            zStringNullable (obj_get (js "timeRange") kv),
            zStringNullable (obj_get (js "reflection") kv),
            zStringArrayDefault (obj_get (js "themes") kv),
            zStringNullable (obj_get (js "invitation") kv) with
      | Some sp, Some tr, Some rf, Some th, Some inv =>
          Some {| mr_shouldSpeak := sp; mr_timeRange := tr; mr_reflection := rf;
                  mr_themes := th; mr_invitation := inv |}
      | _, _, _, _, _ => None
      end
  | _ => None
  end.

(** ** Loose parsing *)

Definition closer : re := Cls (fun c => N.eqb c (ch "}") || N.eqb c (ch "]")).
Definition isAlpha_ (c : N) : bool :=
  (N.leb 65 c && N.leb c 90) || (N.leb 97 c && N.leb c 122) || N.eqb c 95.
Definition notQuoteOrBackslash (c : N) : bool :=
  negb (N.eqb c squote) && negb (N.eqb c backslash).

(** A comma, blanks, and a captured closing brace or bracket (flag g). *)
Definition reTrailingComma : re := seqs [chr ","; Star ws; Group 1 closer].
(** A whole word between two word boundaries (flag g). *)
Definition reWord (w : string) : re := seqs [WordB; lit w; WordB].
(** Three groups (flag g): an opening brace, bracket or comma with the
    blanks after it; an identifier; blanks and a colon. *)
Definition reBareKey : re :=
  seqs [Group 1 (Seq (Cls (fun c => N.eqb c (ch "{") || N.eqb c (ch "[")
                                    || N.eqb c (ch ","))) (Star ws));
        Group 2 (Seq (Cls isAlpha_) (Star (Cls isWordChar)));
        Group 3 (Seq (Star ws) (chr ":"))].
(** A colon, blanks, and a single-quoted run free of single quotes and
    backslashes, captured without its quotes (flag g). *)
Definition reSingleQuotedValue : re :=
  seqs [chr ":"; Star ws; Cls (N.eqb squote);
        Group 1 (Star (Cls notQuoteOrBackslash)); Cls (N.eqb squote)].
(** The same after a comma, followed by blanks and a captured closing
    brace or bracket (flag g). *)
Definition reSingleQuotedLast : re :=
  seqs [chr ","; Star ws; Cls (N.eqb squote);
        Group 1 (Star (Cls notQuoteOrBackslash)); Cls (N.eqb squote);
        Star ws; Group 2 closer].

(** Every double quote of a captured run gets a backslash before it. *)
Definition escapeQuotes (s : jstring) : jstring :=
  replaceAll (Cls (N.eqb dquote)) (fun _ _ => [backslash; dquote]) s.

(** The chain of textual repairs of [tryParseJsonLoose]. *)
Definition repair (input : jstring) : jstring :=
  let s1 := replaceAll reTrailingComma (fun _ c => cap 1 c) input in
  let s2 := replaceAll (reWord "True") (fun _ _ => js "true") s1 in
  let s3 := replaceAll (reWord "False") (fun _ _ => js "false") s2 in
  let s4 := replaceAll (reWord "None") (fun _ _ => js "null") s3 in
  let s5 := replaceAll reBareKey
              (fun _ c => cap 1 c ++ [dquote] ++ cap 2 c ++ [dquote] ++ cap 3 c) s4 in
  let s6 := replaceAll reSingleQuotedValue
              (fun _ c => js ": " ++ [dquote] ++ escapeQuotes (cap 1 c) ++ [dquote]) s5 in
  replaceAll reSingleQuotedLast
    (fun _ c => js ", " ++ [dquote] ++ escapeQuotes (cap 1 c) ++ [dquote] ++ cap 2 c) s6.

(** [None] is the [null] that the source returns when both parses throw;
    a text that parses to the literal [null] gives [Some JNull]. *)
Definition tryParseJsonLoose (input : jstring) : option json :=
  match JSON_parse input with
  | Some v => Some v
  | None => JSON_parse (repair input)
  end.

(** [x == null] on the result of a parse. *)
Definition isNullish (o : option json) : bool :=
  match o with
  | None | Some JNull => true
  | Some _ => false
  end.

(** ** Fences and object candidates *)

Definition fence : jstring := js "```".

(** At the start: blanks, the word json in any case, blanks, a newline. *)
Definition reJsonTag : re :=
  seqs [Bol; Star ws; litI "json"; Star ws; Cls (N.eqb newline)].

Definition stripCodeFences (text : jstring) : jstring :=
  let fenceStart := indexOf text fence 0 in
  if Z.eqb fenceStart (-1) then trim text
  else
    let fenceEnd := indexOf text fence (Z.to_nat (fenceStart + 3)) in
    if Z.eqb fenceEnd (-1) then trim text
    else
      let inside := slice text (Z.to_nat (fenceStart + 3)) (Z.to_nat fenceEnd) in
      trim (replaceFirst reJsonTag (fun _ _ => []) inside).

(** The inner loop of [extractJsonObjects]: [s] is the text from index [i]
    on; the result is the index of the brace that brings the depth back to
    zero. *)
Fixpoint scan (s : jstring) (i : nat) (depth : Z) (inString escaping : bool)
  : option nat :=
  match s with
  | [] => None
  | c :: tl =>
      if inString then
        if escaping then scan tl (S i) depth inString false
        else if N.eqb c backslash then scan tl (S i) depth inString true
        else if N.eqb c dquote then scan tl (S i) depth false escaping
        else scan tl (S i) depth inString escaping
      else if N.eqb c dquote then scan tl (S i) depth true escaping
      else if N.eqb c (ch "{") then scan tl (S i) (depth + 1) inString escaping
      else if N.eqb c (ch "}") then
        if Z.eqb (depth - 1) 0 then Some i
        else scan tl (S i) (depth - 1) inString escaping
      else scan tl (S i) depth inString escaping
  end.

(** The outer loop, at index [start] with [suffix] the text from there on. *)
Fixpoint extract_from (text : jstring) (start : nat) (suffix : jstring)
  : list jstring :=
  match suffix with
  | [] => []
  | c :: tl =>
      (if N.eqb c (ch "{") then
         match scan suffix start 0 false false with
         | Some i => [trim (slice text start (i + 1))]
         | None => []
         end
       else [])
      ++ extract_from text (S start) tl
  end.

Definition extractJsonObjects (text : jstring) : list jstring :=
  extract_from text 0 text.

(** The loop of [parseBestJsonFromModelText] over the candidates in the
    order in which it visits them, the last one first. *)
Fixpoint parseBest_loop (visit : list jstring) (anyParsed : option json)
  : option json :=
  match visit with
  | [] => anyParsed
  | candidate :: more =>
      if negb (truthy candidate) then parseBest_loop more anyParsed
      else
        let parsed := tryParseJsonLoose candidate in
        if isNullish parsed then parseBest_loop more anyParsed
        else
          match parsed with
          | Some v =>
              match modelResponseSchema_safeParse v with
              | Some _ => parsed
              | None => parseBest_loop more parsed
              end
          | None => parseBest_loop more anyParsed
          end
  end.

Definition parseBestJsonFromModelText (text : jstring) : option json :=
  let normalized := stripCodeFences text in
  let candidates := extractJsonObjects normalized in
  parseBest_loop (rev candidates) None.

(** ** Banned language *)

Definition BANNED_SUBSTRINGS : list jstring :=
  List.map js
    ["postpartum depression"; "ppd"; "depression"; "anxiety"; "diagnos";
     "you should"; "try "; "it might help"; "you need to";
     "everything will be okay"; "you're doing great"; "at least";
     "the good news is"; "progress"; "growth"; "resilience"]%string.

(** ** Calendar dates *)

Definition msPerDay : Z := (24 * 60 * 60 * 1000)%Z.

(** Days from the epoch to a day of the proleptic Gregorian calendar;
    [m] is a month number from 1 to 12. *)
Definition daysFromCivil (y m d : Z) : Z :=
  (let y' := if m <=? 2 then y - 1 else y in
   let era := y' / 400 in
   let yoe := y' - era * 400 in
   let mp := (m + 9) mod 12 in
   let doy := (153 * mp + 2) / 5 + d - 1 in
   let doe := yoe * 365 + yoe / 4 - yoe / 100 + doy in
   era * 146097 + doe - 719468)%Z.

(** [Date.UTC(y, month, d)] for a zero-based [month] that may be out of
    range, in milliseconds: years 0 to 99 count from 1900, the month
    carries into the year, the day counts on from the first of the month. *)
Definition Date_UTC (y month d : Z) : Z :=
  (let yr := if (0 <=? y) && (y <=? 99) then 1900 + y else y in
   let ym := yr + month / 12 in
   let mn := month mod 12 in
   (daysFromCivil ym (mn + 1) 1 + d - 1) * msPerDay)%Z.

(** Four digits, a dash, two digits, a dash, two digits, and nothing else. *)
Definition reIsoDate : re :=
  seqs [Bol; Group 1 (times 4 digit); chr "-"; Group 2 (times 2 digit);
        chr "-"; Group 3 (times 2 digit); Eol].

(** The time value of the parsed date. *)
Definition parseIsoDate (iso : jstring) : option Z :=
  match match_ reIsoDate iso with
  | None => None
  | Some m =>
      let y := digitsVal (cap 1 m) in
      let mo := digitsVal (cap 2 m) in
      let d := digitsVal (cap 3 m) in
      Some (Date_UTC y (mo - 1)%Z d)
  end.

(** ** Entries *)

Record JournalPatternInputEntry := {
  entryDate : jstring;
  body : jstring;
  prompt1 : jstring;
  prompt2 : jstring;
  p1Answer : jstring;
  p2Answer : jstring;
  ventEntry : bool
}.

Definition nonVentOf (entries : list JournalPatternInputEntry)
  : list JournalPatternInputEntry :=
  List.filter (fun e => negb (ventEntry e)) entries.

Definition ventOf (entries : list JournalPatternInputEntry)
  : list JournalPatternInputEntry :=
  List.filter (fun e => ventEntry e) entries.

Definition computeSpanDays (entries : list JournalPatternInputEntry) : option Z :=
  match head entries, list.last entries with
  | Some f, Some l =>
      let first := entryDate f in
      let last := entryDate l in
      if negb (truthy first) || negb (truthy last) then None
      else
        match parseIsoDate first, parseIsoDate last with
        | Some a, Some b => Some ((b - a) / msPerDay)%Z
        | _, _ => None
        end
  | _, _ => None
  end.

Definition describeTimeRange (spanDays : option Z) : jstring :=
  match spanDays with
  | None => js "over the past week"
  | Some n =>
      if (20 <=? n)%Z then js "over the past few weeks"
      else if (13 <=? n)%Z then js "over the past two weeks"
      else js "over the past week"
  end.

Definition shouldAttemptLongitudinalAnalysis
    (entries : list JournalPatternInputEntry) : bool :=
  let nonVent := nonVentOf entries in
  if Nat.ltb (length nonVent) 4 then false
  else
    match computeSpanDays nonVent with
    | None => false
    | Some spanDays => if (spanDays <? 6)%Z then false else true
    end.

(** ** Selection of the entries sent to the model *)

Definition ellipsis : N := 8230.

Definition labelled (label : string) (field : jstring) : jstring :=
  if truthy (trim field) then js label ++ trim field else [].

Definition compactEntryText (entry : JournalPatternInputEntry) : jstring :=
  let parts :=
    List.filter truthy
      [trim (body entry);
       labelled "P1: " (prompt1 entry);
       labelled "A1: " (p1Answer entry);
       labelled "P2: " (prompt2 entry);
       labelled "A2: " (p2Answer entry)] in
  let combined := join [newline] parts in
  if Nat.ltb 900 (length combined) then slice combined 0 900 ++ [ellipsis]
  else combined.

Definition MAX_ENTRIES : nat := 30.
Definition MAX_CHARS_TOTAL : nat := 8 * 1000.

Definition bound (e : JournalPatternInputEntry) : JournalPatternInputEntry :=
  {| entryDate := entryDate e;
     body := slice (body e) 0 500;
     prompt1 := slice (prompt1 e) 0 140;
     prompt2 := slice (prompt2 e) 0 140;
     p1Answer := slice (p1Answer e) 0 260;
     p2Answer := slice (p2Answer e) 0 260;
     ventEntry := ventEntry e |}.

Definition entryCost (bounded : JournalPatternInputEntry) : nat :=
  40 + length (compactEntryText bounded).

(** The [for] loop of [selectEntriesForModel]; [picked] is
    [pickedNewestFirst], to which [push] appends. *)
Fixpoint select_loop (candidates picked : list JournalPatternInputEntry)
    (usedChars : nat) : list JournalPatternInputEntry :=
  match candidates with
  | [] => picked
  | e :: more =>
      if Nat.leb MAX_ENTRIES (length picked) then picked
      else
        let bounded := bound e in
        let cost := entryCost bounded in
        if Nat.ltb 0 (length picked) && Nat.ltb MAX_CHARS_TOTAL (usedChars + cost)
        then picked
        else select_loop more (picked ++ [bounded]) (usedChars + cost)
  end.

Definition candidatesNewestFirst (entries : list JournalPatternInputEntry)
  : list JournalPatternInputEntry :=
  rev (nonVentOf entries) ++ slice (rev (ventOf entries)) 0 6.

Definition selectEntriesForModel (entries : list JournalPatternInputEntry)
  : list JournalPatternInputEntry :=
  rev (select_loop (candidatesNewestFirst entries) [] 0).

(** ** The request *)

Record PromptRequest := {
  systemInstruction : jstring;
  userText : jstring
}.

Definition apostrophe : N := 8217.

Definition systemInstructionLines : list jstring :=
  [js "You are a journaling pattern observer. Reflect sustained patterns across time; do not advise.";
   [];
   js "Scope & safety:";
   js "- Do NOT diagnose, label conditions, assess risk, or provide therapy.";
   js "- Do NOT give directives/suggestions.";
   js "- Do NOT react to a single day/entry.";
   [];
   js "Temporal reasoning:";
   js "- Only speak about persistence/direction over days or weeks.";
   js "- Use cautious, descriptive language.";
   [];
   js "Venting rule:";
   js "- Each entry has ventEntry:true|false.";
   js "- Vent entries may be intense; use them only as background after repeated signals exist across non-vent entries.";
   js "- A vent entry may never be the primary justification for speaking.";
   [];
   js "Forbidden language (must not appear):";
   js "- clinical labels (depression, anxiety, PPD, etc.)";
   js "- directives (you should, try, you need to, it might help)";
   js "- platitudes (everything will be okay, you" ++ [apostrophe]
     ++ js "re doing great, at least, the good news is)";
   [];
   js "Output contract:";
   js "- Output ONLY a single-line minified JSON object.";
   js "- It MUST be valid JSON (no trailing commas; all quotes/brace closed).";
   js "- Before responding, verify your JSON parses.";
   [];
   js "JSON shape:";
   jsq "{`shouldSpeak`:true,`timeRange`:`string|null`,`reflection`:`string|null`,`themes`:[`string`],`invitation`:`string|null`}";
   [];
   js "Field rules:";
   jsq "- timeRange: `over the past week` | `over the past two weeks` | `over the past few weeks` | null";
   js "- reflection: time-based, <= 240 characters, no advice.";
   js "- themes: 0-3 short, concrete, non-clinical strings (<= 20 chars each).";
   js "- invitation: ALWAYS null.";
   [];
   js "If evidence is thin/unclear:";
   jsq "- still set shouldSpeak=true and write: `Over the past week, I" ++ [apostrophe]
     ++ jsq "m not seeing a clear repeating pattern yet.`";
   js "- themes=[] and invitation=null."].

Definition hexDigit (n : N) : N :=
  if N.ltb n 10 then (48 + n)%N else (87 + n)%N.

(** [\uXXXX] with lower-case digits, as [JSON.stringify] writes it. *)
Definition uEscape (c : N) : jstring :=
  [backslash; ch "u"; hexDigit (c / 4096 mod 16); hexDigit (c / 256 mod 16);
   hexDigit (c / 16 mod 16); hexDigit (c mod 16)]%N.

Definition isHighSurrogate (c : N) : bool := N.leb 55296 c && N.leb c 56319.
Definition isLowSurrogate (c : N) : bool := N.leb 56320 c && N.leb c 57343.

(** The body of a string as [JSON.stringify] quotes it: the short escapes,
    [\u] escapes for the other control characters and for surrogates that
    have no partner. *)
Fixpoint quoteChars (s : jstring) : jstring :=
  match s with
  | [] => []
  | c :: tl =>
      if N.eqb c 8 then backslash :: ch "b" :: quoteChars tl
      else if N.eqb c 9 then backslash :: ch "t" :: quoteChars tl
      else if N.eqb c 10 then backslash :: ch "n" :: quoteChars tl
      else if N.eqb c 12 then backslash :: ch "f" :: quoteChars tl
      else if N.eqb c 13 then backslash :: ch "r" :: quoteChars tl
      else if N.eqb c dquote then backslash :: dquote :: quoteChars tl
      else if N.eqb c backslash then backslash :: backslash :: quoteChars tl
      else if N.ltb c 32 then uEscape c ++ quoteChars tl
      else if isHighSurrogate c then
        match tl with
        | c2 :: tl2 =>
            if isLowSurrogate c2 then c :: c2 :: quoteChars tl2
            else uEscape c ++ quoteChars tl
        | [] => uEscape c
        end
      else if isLowSurrogate c then uEscape c ++ quoteChars tl
      else c :: quoteChars tl
  end.

Definition quoteJSONString (s : jstring) : jstring :=
  [dquote] ++ quoteChars s ++ [dquote].

(** [JSON.stringify] of one element of [entriesCompact]. *)
Definition stringifyCompact (e : JournalPatternInputEntry) : jstring :=
  jsq "{`entryDate`:" ++ quoteJSONString (entryDate e)
  ++ jsq ",`ventEntry`:" ++ (if ventEntry e then js "true" else js "false")
  ++ jsq ",`text`:" ++ quoteJSONString (compactEntryText e) ++ js "}".

Definition buildGeminiRequest (entries : list JournalPatternInputEntry)
  : PromptRequest :=
  let entriesSelected := selectEntriesForModel entries in
  {| systemInstruction := join [newline] systemInstructionLines;
     userText :=
       join [newline]
         [js "Entries (oldest to newest) as JSON. Each entry has a compact text field:";
          js "[" ++ join (js ",") (List.map stringifyCompact entriesSelected)
          ++ js "]"] |}.

(** ** Results *)

Inductive Reason :=
| not_enough_entries | not_enough_span | model_silence | rate_limited
| model_error | banned_language | invalid_json | invalid_shape
| empty_reflection | spoke.

(** The [debug] member.  A member that is absent and a member that is
    [null] are both [None]. *)
Record DebugInfo := {
  attempted : bool;
  reason : Reason;
  entriesCount : nat;
  spanDays : option Z;
  modelName : option jstring;
  finishReason : option jstring;
  outputLength : option nat;
  outputPreview : option jstring;
  errorStatus : option Z;
  errorMessage : option jstring;
  retryAfterSeconds : option Z
}.

Record PatternValue := {
  shouldSpeak : bool;
  reflection : option jstring;
  themes : list jstring;
  invitation : option jstring;
  timeRange : option jstring;
  debug : option DebugInfo
}.

Inductive JournalPatternsResult :=
| Ok (value : PatternValue)
| Err (message : jstring).

(** ** The model client *)

(** What one streaming call to the provider yields: the chunks of the
    stream and the aggregated response, or the error that is thrown. *)
Inductive ProviderOutcome :=
| Responded (chunks : list (option jstring)) (parts : option (list (option jstring)))
    (responseText : jstring) (candidateFinishReason : option jstring)
| Threw (status : option Z) (message : option jstring) (retryDelay : option jstring).

Inductive ModelAttempt :=
| AttemptOk (name text : jstring) (finish : option jstring) (partsCount : option nat)
| AttemptFailed (name : jstring) (status : option Z) (message : jstring)
    (retryAfter : option Z).

(** One or more digits and the letter s, and nothing else. *)
Definition reRetryDelay : re := seqs [Bol; Group 1 (plus digit); chr "s"; Eol].

(** [Number(s)] for a run of decimal digits that denotes [n]: the double
    nearest to [n], a tie going to the even significand; [None] stands for
    [Infinity], which is what the numbers from two to the 1024 minus two
    to the 970 on round to. *)
Definition Number_ofNat (n : Z) : option Z :=
  (if n <? 2 ^ 53 then Some n
   else
     let e := Z.log2 n - 52 in
     let q := n / 2 ^ e in
     let r := n mod 2 ^ e in
     let half := 2 ^ (e - 1) in
     let q' := if (half <? r) || ((r =? half) && Z.odd q) then q + 1 else q in
     let v := q' * 2 ^ e in
     if 2 ^ 1024 <=? v then None else Some v)%Z.

Arguments Number_ofNat : simpl never.

(** The number is kept when it is finite. *)
Definition extractRetryAfterSeconds (retryDelay : option jstring) : option Z :=
  match retryDelay with
  | None => None
  | Some d =>
      match match_ reRetryDelay d with
      | Some m => Number_ofNat (digitsVal (cap 1 m))
      | None => None
      end
  end.

Definition orEmpty (o : option jstring) : jstring :=
  match o with Some s => s | None => [] end.

Definition truthy_opt (o : option jstring) : bool :=
  match o with Some _ => true | None => false end.

(** The text of a reply: the longer of what was streamed and what the
    response aggregates (its parts joined, or its own text). *)
Definition replyText (chunks : list (option jstring))
    (parts : option (list (option jstring))) (responseText : jstring) : jstring :=
  let streamedText := concat (List.map orEmpty chunks) in
  let joinedText :=
    match parts with
    | Some (p :: ps) => Some (concat (List.map orEmpty (p :: ps)))
    | _ => None
    end in
  let aggregatedText :=
    match joinedText with Some t => t | None => responseText end in
  if Nat.leb (length aggregatedText) (length streamedText)
  then streamedText else aggregatedText.

(** The requests that go to the provider: the listing of its models and
    the generation of content. *)
Inductive Call :=
| ListModels
| GenerateContent (name : jstring) (req : PromptRequest).

(** What the module keeps and does on the network: the calls made so far,
    in order, and the module-level [cachedModelName]. *)
Record Net := {
  calls : list Call;
  cachedModelName : option jstring
}.

(** A computation that may call the provider. *)
Definition M (A : Type) : Type := Net -> A * Net.
Definition ret {A} (a : A) : M A := fun net => (a, net).
Definition bind {A B} (m : M A) (f : A -> M B) : M B :=
  fun net => let (a, net') := m net in f a net'.
Notation "'let*' x ':=' m 'in' k" := (bind m (fun x => k))
  (at level 10, x name, m at level 200, k at level 200).

(** ** The choice of the model *)

Definition normalizeModelName (name : jstring) : jstring :=
  let trimmed := trim name in
  if negb (truthy trimmed) then trimmed
  else if startsWith trimmed (js "models/") then trimmed
  else js "models/" ++ trimmed.

Definition defaultModel : jstring := js "models/gemini-2.0-flash".

(** An element of the listing: its name when that is a string, and whether
    its generation methods are an array that includes [generateContent]. *)
Record ListedModel := {
  lm_name : option jstring;
  lm_generateContent : bool
}.

(** The outcome of the request that lists the models; a body without an
    array of models lists none. *)
Inductive ListOutcome :=
| ListThrew
| ListNotOk
| Listed (models : list ListedModel).

Definition preferredPrefixes : list jstring :=
  List.map js
    ["models/gemini-2.5-flash"; "models/gemini-2.5-flash-lite";
     "models/gemini-2.0-flash"; "models/gemini-2.0-flash-lite";
     "models/gemini-1.5-flash"; "models/gemini-1.5-pro";
     "models/gemini-1.0-pro"]%string.

Fixpoint firstPreferred (prefixes : list jstring) (models : list ListedModel)
  : option jstring :=
  match prefixes with
  | [] => None
  | prefix :: more =>
      match List.find (fun m => startsWith (orEmpty (lm_name m)) prefix) models with
      | Some hit =>
          if truthy (orEmpty (lm_name hit)) then Some (orEmpty (lm_name hit))
          else firstPreferred more models
      | None => firstPreferred more models
      end
  end.

Definition chooseModel (models : list ListedModel) : jstring :=
  let supportsGenerateContent :=
    List.filter (fun m => lm_generateContent m && truthy_opt (lm_name m)) models in
  match firstPreferred preferredPrefixes supportsGenerateContent with
  | Some name => name
  | None =>
      match head supportsGenerateContent with
      | Some m => if truthy (orEmpty (lm_name m)) then orEmpty (lm_name m)
                  else defaultModel
      | None => defaultModel
      end
  end.

Section Generator.

(** The collaborators of the generator: the collation of the host, its case
    mapping, the two settings of the environment, the outcome of the
    request that lists the models, and the provider of content. *)
Variable localeCompare : jstring -> jstring -> Z.
Variable toLowerCase : jstring -> jstring.
Variable GEMINI_MODEL : option jstring.
Variable GEMINI_API_KEY : option jstring.
Variable listModels : ListOutcome.
Variable provider : jstring -> PromptRequest -> ProviderOutcome.

Definition resolveModelName : M jstring :=
  fun net =>
    if truthy (orEmpty GEMINI_MODEL)
    then (normalizeModelName (orEmpty GEMINI_MODEL), net)
    else if truthy (orEmpty (cachedModelName net))
    then (orEmpty (cachedModelName net), net)
    else if negb (truthy (orEmpty GEMINI_API_KEY)) then (defaultModel, net)
    else
      let name := match listModels with
                  | Listed models => chooseModel models
                  | ListNotOk | ListThrew => defaultModel
                  end in
      (name, {| calls := calls net ++ [ListModels];
                cachedModelName := Some name |}).

Definition includesBannedLanguage (text : jstring) : bool :=
  let lower := toLowerCase text in
  existsb (fun s => includes lower s) BANNED_SUBSTRINGS.

(** [None] is [{ ok: false }]; [Some] carries the value back. *)
Definition sanitizeOutput (refl : option jstring) (thms : list jstring)
  : option (option jstring * list jstring) :=
  let combined := join [newline] (orEmpty refl :: thms) in
  if negb (truthy (trim combined)) then Some (refl, thms)
  else if includesBannedLanguage combined then None
  else Some (refl, thms).

(** [entries.slice().sort(...)]: the sort is stable, an entry is put before
    the first entry that does not compare below it. *)
Fixpoint insertByDate (x : JournalPatternInputEntry)
    (l : list JournalPatternInputEntry) : list JournalPatternInputEntry :=
  match l with
  | [] => [x]
  | y :: tl =>
      if (0 <? localeCompare (entryDate x) (entryDate y))%Z
      then y :: insertByDate x tl
      else x :: l
  end.

Fixpoint sortByDate (l : list JournalPatternInputEntry)
  : list JournalPatternInputEntry :=
  match l with
  | [] => []
  | x :: tl => insertByDate x (sortByDate tl)
  end.

Definition callProvider (name : jstring) (req : PromptRequest) : M ProviderOutcome :=
  fun net => (provider name req,
              {| calls := calls net ++ [GenerateContent name req];
                 cachedModelName := cachedModelName net |}).

Definition runOnce (entries : list JournalPatternInputEntry) (name : jstring)
  : M ModelAttempt :=
  let req := buildGeminiRequest entries in
  let* out := callProvider name req in
  match out with
  | Responded chunks parts responseText candidateFinishReason =>
      ret (AttemptOk name (replyText chunks parts responseText)
             candidateFinishReason (option_map (@length _) parts))
  | Threw status message retryDelay =>
      ret (AttemptFailed name status
             (match message with
              | Some m => m
              | None => js "Gemini request failed."
              end)
             (extractRetryAfterSeconds retryDelay))
  end.

Definition silent (dbg : option DebugInfo) : PatternValue :=
  {| shouldSpeak := false; reflection := None; themes := []; invitation := None;
     timeRange := None; debug := dbg |}.

Definition whenDebug (dbgFlag : bool) (d : DebugInfo) : option DebugInfo :=
  if dbgFlag then Some d else None.

(** The debug record of the paths that received some text from the model. *)
Definition outputDebug (why : Reason) (entries : list JournalPatternInputEntry)
    (name text : jstring) (finish : option jstring) : DebugInfo :=
  {| attempted := true; reason := why;
     entriesCount := length (nonVentOf entries);
     spanDays := computeSpanDays (nonVentOf entries);
     modelName := Some name; finishReason := finish;
     outputLength := Some (length text);
     outputPreview := Some (slice (stripCodeFences text) 0 600);
     errorStatus := None; errorMessage := None; retryAfterSeconds := None |}.

Definition bannedTemplate (range : jstring) : jstring :=
  range ++ js ", I" ++ [apostrophe]
  ++ js "m noticing some repeating threads, but I can" ++ [apostrophe]
  ++ js "t put them into words cleanly right now.".

Definition silenceTemplate (range : jstring) : jstring :=
  range ++ js ", I" ++ [apostrophe]
  ++ js "m not seeing a clear repeating pattern yet.".

Definition generateJournalPatterns (entriesAll : list JournalPatternInputEntry)
    (dbgFlag : bool) : M JournalPatternsResult :=
  let entries := sortByDate entriesAll in
  if negb (shouldAttemptLongitudinalAnalysis entries) then
    let nonVent := nonVentOf entries in
    let span := computeSpanDays nonVent in
    ret (Ok (silent (whenDebug dbgFlag
      {| attempted := false;
         reason := if Nat.ltb (length nonVent) 4 then not_enough_entries
                   else not_enough_span;
         entriesCount := length nonVent; spanDays := span; modelName := None;
         finishReason := None; outputLength := None; outputPreview := None;
         errorStatus := None; errorMessage := None;
         retryAfterSeconds := None |})))
  else if negb (truthy (orEmpty GEMINI_API_KEY)) then
    ret (Err (js "Gemini is not configured."))
  else
    let* resolvedModelName := resolveModelName in
    let* attempt1 := runOnce entries resolvedModelName in
    match attempt1 with
    | AttemptFailed name status message retryAfter =>
        ret (Ok (silent (whenDebug dbgFlag
          {| attempted := true;
             reason := match status with
                       | Some 429%Z => rate_limited
                       | _ => model_error
                       end;
             entriesCount := length (nonVentOf entries);
             spanDays := computeSpanDays (nonVentOf entries);
             modelName := Some name; finishReason := None;
             outputLength := None; outputPreview := None;
             errorStatus := status; errorMessage := Some message;
             retryAfterSeconds := retryAfter |})))
    | AttemptOk name text finish _ =>
        let parsedJson := parseBestJsonFromModelText text in
        match parsedJson with
        | None | Some JNull =>
            ret (Ok (silent (whenDebug dbgFlag
                   (outputDebug invalid_json entries name text finish))))
        | Some j =>
            match modelResponseSchema_safeParse j with
            | None =>
                ret (Ok (silent (whenDebug dbgFlag
                       (outputDebug invalid_shape entries name text finish))))
            | Some data =>
                match sanitizeOutput (mr_reflection data) (mr_themes data) with
                | None =>
                    let range := describeTimeRange
                                   (computeSpanDays (nonVentOf entries)) in
                    ret (Ok {| shouldSpeak := true;
                               timeRange := Some range;
                               reflection := Some (bannedTemplate range);
                               themes := [];
                               invitation := None;
                               debug := whenDebug dbgFlag
                                 (outputDebug banned_language entries name text finish) |})
                | Some (sanRefl, sanThemes) =>
                    if negb (mr_shouldSpeak data) then
                      let range := describeTimeRange
                                     (computeSpanDays (nonVentOf entries)) in
                      ret (Ok {| shouldSpeak := true;
                                 timeRange := Some range;
                                 reflection := Some (silenceTemplate range);
                                 themes := [];
                                 invitation := None;
                                 debug := whenDebug dbgFlag
                                   (outputDebug model_silence entries name text finish) |})
                    else
                      let refl := trim (orEmpty sanRefl) in
                      if negb (truthy refl) then
                        ret (Ok (silent (whenDebug dbgFlag
                               (outputDebug empty_reflection entries name text finish))))
                      else
                        ret (Ok {| shouldSpeak := true;
                                   reflection := Some refl;
                                   themes := List.filter truthy
                                               (List.map trim sanThemes);
                                   invitation := None;
                                   timeRange :=
                                     match mr_timeRange data with
                                     | Some t => if truthy (trim t)
                                                 then Some (trim t) else None
                                     | None => None
                                     end;
                                   debug := whenDebug dbgFlag
                                     (outputDebug spoke entries name text finish) |})
                end
            end
        end
    end.

End Generator.

End Patterns.

(** * The route that serves and caches the patterns *)

Module Route.

Import Regex Patterns.

Record CachedPatterns := {
  atMs : Z;
  fingerprint : jstring;
  value : PatternValue
}.

Definition CACHE_TTL_MS : Z := (5 * 60 * 1000)%Z.

Definition isNull {A} (o : option A) : bool :=
  match o with None => true | Some _ => false end.

(** The cached values are the values of the generator, so the test that
    the value is an object always passes. *)
Definition isEmptySilence (v : PatternValue) : bool :=
  negb (shouldSpeak v)
  && isNull (reflection v)
  && isNull (invitation v)
  && isNull (timeRange v)
  && Nat.eqb (length (themes v)) 0.

(** ** Fingerprints *)

Definition toInt32 (z : Z) : Z :=
  (let m := z mod 2 ^ 32 in if 2 ^ 31 <=? m then m - 2 ^ 32 else m)%Z.

Fixpoint toHex_go (fuel : nat) (z : Z) (acc : jstring) : jstring :=
  match fuel with
  | O => acc
  | S f =>
      let acc' := hexDigit (Z.to_N (z mod 16)) :: acc in
      if (z / 16 =? 0)%Z then acc' else toHex_go f (z / 16)%Z acc'
  end.

(** [(h >>> 0).toString(16)] *)
Definition toHexUint32 (h : Z) : jstring := toHex_go 8 (h mod 2 ^ 32)%Z [].

(** The operands of the exclusive or are 32-bit integers; the product is
    exact before it is wrapped. *)
Definition stableHash (input : jstring) : jstring :=
  toHexUint32
    (fold_left (fun h c => Z.lxor (toInt32 (h * 33)) (Z.of_N c)) input 5381%Z).

Record DbJournalRow := {
  entry_date : jstring;
  row_body : jstring;
  vent_entry : option bool;
  prompt_1 : option jstring;
  prompt_2 : option jstring;
  p1_answer : option jstring;
  p2_answer : option jstring
}.

Definition computeEntriesFingerprint (rows : list DbJournalRow) : jstring :=
  let newestDate := match head rows with Some r => entry_date r | None => [] end in
  let newestBody := match head rows with Some r => row_body r | None => [] end in
  let sample := slice newestBody 0 120 in
  stableHash (ofNat (length rows) ++ js "|" ++ newestDate ++ js "|" ++ sample).

(** ** Requests and responses *)

Record Request := {
  authorization : option jstring;   (* the header *)
  q_debug : option jstring;         (* the query parameter debug *)
  q_refresh : option jstring        (* the query parameter refresh *)
}.

Definition notLineTerminator (c : N) : bool :=
  negb (N.eqb c 10 || N.eqb c 13 || N.eqb c 8232 || N.eqb c 8233).

(** At the start the word Bearer in any case, one or more blanks, then a
    captured non-empty run up to the end that has no line terminator. *)
Definition reBearer : re :=
  seqs [Bol; litI "bearer"; plus ws; Group 1 (plus (Cls notLineTerminator)); Eol].

Definition getBearerToken (req : Request) : option jstring :=
  match authorization req with
  | None => None
  | Some auth =>
      if negb (truthy auth) then None
      else match match_ reBearer auth with
           | Some m => let t := trim (cap 1 m) in
                       if truthy t then Some t else None
           | None => None
           end
  end.

Record DebugMeta := {
  totalCount : nat;
  ventCount : nat;
  nonVentCount : nat
}.

Record CacheMeta := {
  servedFromCache : bool;
  ageSeconds : Z;
  entriesFingerprint : option jstring
}.

(** The JSON body of a response: an error object, or the members of a
    pattern value, to which a debug request adds [debugMeta] and, when the
    value comes from the cache, [cacheMeta]. *)
Inductive Body :=
| ErrorBody (message : jstring)
| PatternsBody (v : PatternValue) (dm : option DebugMeta) (cm : option CacheMeta).

Record Response := {
  httpStatus : Z;
  payload : Body
}.

Definition NextResponse_json (b : Body) : Response :=
  {| httpStatus := 200; payload := b |}.
Definition jsonStatus (b : Body) (st : Z) : Response :=
  {| httpStatus := st; payload := b |}.

Inductive AuthOutcome :=
| AuthError
| AuthUser (user : option jstring).

Inductive DbOutcome :=
| DbError (message : jstring)
| DbRows (data : option (list DbJournalRow)).

(** The state of the process as the route sees it: the cache, the state
    of the generator's module with the calls to the provider, and how often
    the clock was read. *)
Record World := {
  patternsCacheByUser : gmap jstring CachedPatterns;
  net : Net;
  clockReads : nat
}.

Definition isOne (o : option jstring) : bool :=
  match o with Some s => bool_decide (s = js "1") | None => false end.

(** The three counts of [debugMeta]. *)
Definition countsOf (rows : list DbJournalRow) : DebugMeta :=
  let total := length rows in
  let vents := length (List.filter (fun r => default false (vent_entry r)) rows) in
  {| totalCount := total; ventCount := vents; nonVentCount := total - vents |}.

Definition toEntry (r : DbJournalRow) : JournalPatternInputEntry :=
  {| entryDate := entry_date r;
     body := row_body r;
     prompt1 := orEmpty (prompt_1 r);
     prompt2 := orEmpty (prompt_2 r);
     p1Answer := orEmpty (p1_answer r);
     p2Answer := orEmpty (p2_answer r);
     ventEntry := default false (vent_entry r) |}.

Section Handler.

Variable localeCompare : jstring -> jstring -> Z.
Variable toLowerCase : jstring -> jstring.
Variable GEMINI_MODEL : option jstring.
Variable GEMINI_API_KEY : option jstring.
Variable listModels : ListOutcome.
Variable provider : jstring -> PromptRequest -> ProviderOutcome.

(** Whether [NODE_ENV] is [production]; the successive readings of
    [Date.now()]; the two calls to the database service. *)
Variable production : bool.
Variable clock : nat -> Z.
Variable getUser : jstring -> AuthOutcome.
Variable selectEntries : jstring -> jstring -> DbOutcome.

Definition Date_now (w : World) : Z * World :=
  (clock (clockReads w),
   {| patternsCacheByUser := patternsCacheByUser w;
      net := net w;
      clockReads := S (clockReads w) |}).

Definition fresh (ageMs : Z) : bool :=
  (0 <=? ageMs)%Z && (ageMs <=? CACHE_TTL_MS)%Z.

Definition serveCached (dbgFlag : bool) (cached : CachedPatterns) (ageMs : Z)
    (dm : DebugMeta) (fp : option jstring) : Response :=
  if negb dbgFlag then NextResponse_json (PatternsBody (value cached) None None)
  else NextResponse_json (PatternsBody (value cached) (Some dm)
               (Some {| servedFromCache := true;
                        ageSeconds := (ageMs / 1000)%Z;
                        entriesFingerprint := fp |})).

(** The fast path: [Some] response when the cache answers. *)
Definition fastPath (refresh dbgFlag : bool) (uid fp : jstring) (dm : DebugMeta)
    (w : World) : option Response * World :=
  if negb refresh then
    match patternsCacheByUser w !! uid with
    | Some cached =>
        let (now, w1) := Date_now w in
        let ageMs := (now - atMs cached)%Z in
        if bool_decide (fingerprint cached = fp) && fresh ageMs
        then (Some (serveCached dbgFlag cached ageMs dm (Some fp)), w1)
        else (None, w1)
    | None => (None, w)
    end
  else (None, w).

(** The fallback when the generator went silent. *)
Definition silenceFallback (dbgFlag : bool) (uid : jstring) (patterns : PatternValue)
    (dm : DebugMeta) (w : World) : option Response * World :=
  if isEmptySilence patterns then
    match patternsCacheByUser w !! uid with
    | Some cached =>
        let (now, w1) := Date_now w in
        let ageMs := (now - atMs cached)%Z in
        if fresh ageMs
        then (Some (serveCached dbgFlag cached ageMs dm None), w1)
        else (None, w1)
    | None => (None, w)
    end
  else (None, w).

Definition GET (req : Request) (w : World) : Response * World :=
  let dbgFlag := negb production && isOne (q_debug req) in
  let refresh := isOne (q_refresh req) in
  match getBearerToken req with
  | None => (jsonStatus (ErrorBody (js "Missing auth token.")) 401, w)
  | Some token =>
      match getUser token with
      | AuthError => (jsonStatus (ErrorBody (js "Invalid auth token.")) 401, w)
      | AuthUser None => (jsonStatus (ErrorBody (js "Not signed in.")) 401, w)
      | AuthUser (Some uid) =>
          match selectEntries token uid with
          | DbError message => (jsonStatus (ErrorBody message) 500, w)
          | DbRows data =>
              let rows := default [] data in
              let dm := countsOf rows in
              let fp := computeEntriesFingerprint rows in
              match fastPath refresh dbgFlag uid fp dm w with
              | (Some response, w1) => (response, w1)
              | (None, w1) =>
                  let entriesAll := rev (List.map toEntry rows) in
                  let (patterns, net') :=
                    generateJournalPatterns localeCompare toLowerCase
                      GEMINI_MODEL GEMINI_API_KEY listModels provider
                      entriesAll dbgFlag (net w1) in
                  let w2 := {| patternsCacheByUser := patternsCacheByUser w1;
                               net := net';
                               clockReads := clockReads w1 |} in
                  match patterns with
                  | Err message =>
                      (jsonStatus (ErrorBody message)
                         (if bool_decide (message = js "Gemini is not configured.")
                          then 503 else 500), w2)
                  | Ok v =>
                      match silenceFallback dbgFlag uid v dm w2 with
                      | (Some response, w3) => (response, w3)
                      | (None, w3) =>
                          let (now, w4) := Date_now w3 in
                          let w5 :=
                            {| patternsCacheByUser :=
                                 <[uid := {| atMs := now; fingerprint := fp;
                                             value := v |}]>
                                   (patternsCacheByUser w4);
                               net := net w4;
                               clockReads := clockReads w4 |} in
                          (NextResponse_json (PatternsBody v
                                   (if dbgFlag then Some dm else None) None), w5)
                      end
                  end
              end
          end
      end
  end.

End Handler.

End Route.

(** * The e-mail address of a user name *)

Module Username.

Import Regex.

Definition HACKATHON_DOMAIN : jstring := js "hack.local".

(** The class of a lower-case letter or a digit, and the class that adds
    the dot, the underscore and the dash. *)
Definition isLowerAlnum (c : N) : bool :=
  (N.leb 97 c && N.leb c 122) || (N.leb 48 c && N.leb c 57).
Definition isNameChar (c : N) : bool :=
  isLowerAlnum c || N.eqb c (ch ".") || N.eqb c (ch "_") || N.eqb c (ch "-").

(** The greedy repetition of a class between [lo] and [hi] times: another
    round while rounds are left and the rest then matches, else the rest
    at once when enough rounds were made. *)
Fixpoint rep_loop (p : N -> bool) (k : mstate -> option mstate) (lo hi : nat)
    (st : mstate) : option mstate :=
  match hi with
  | O => if Nat.eqb lo 0 then k st else None
  | S hi' =>
      match run (Cls p) (rep_loop p k (lo - 1) hi') st with
      | Some out => Some out
      | None => if Nat.eqb lo 0 then k st else None
      end
  end.

(** The expression of [usernameToEmail]: at the start a letter or digit,
    one to thirty name characters, a letter or digit, the end. *)
Definition reUsername (st : mstate) : option mstate :=
  run Bol
    (run (Cls isLowerAlnum)
       (rep_loop isNameChar (run (Seq (Cls isLowerAlnum) Eol) Some) 1 30)) st.

(** [r.test(s)]: whether there is a match at some position. *)
Fixpoint test_from (r : mstate -> option mstate) (prev : option N) (pos : nat)
    (s : jstring) : bool :=
  match r (MState prev pos s []) with
  | Some _ => true
  | None =>
      match s with
      | [] => false
      | c :: tl => test_from r (Some c) (S pos) tl
      end
  end.

Definition test (r : mstate -> option mstate) (s : jstring) : bool :=
  test_from r None 0 s.

Section WithHost.

(** The case mapping of the host. *)
Variable toLowerCase : jstring -> jstring.

(** [None] stands for the error that is thrown. *)
Definition usernameToEmail (rawUsername : jstring) : option jstring :=
  let username := toLowerCase (trim rawUsername) in
  if negb (test reUsername username) then None
  else Some (username ++ js "@" ++ HACKATHON_DOMAIN).

End WithHost.

End Username.

(** * The prompts of the day *)

Module PromptPicker.

Import Patterns Route.

Definition emDash : N := 8212.
Definition leftQuote : N := 8220.
Definition rightQuote : N := 8221.

Definition PROMPT_BANK : list jstring :=
  [
   js "What feels loud in your head right now?";
   js "If you didn" ++ [apostrophe] ++ js "t have to filter yourself, what would you say today?";
   js "What" ++ [apostrophe] ++ js "s the thought you keep circling back to?";
   js "What feels hardest to put into words today?";
   js "What did you love today " ++ [emDash] ++ js " if anything " ++ [emDash] ++ js " and what did you hate?";
   js "What feels true today, even if it feels contradictory?";
   js "What part of today felt meaningful, and what part felt unbearable?";
   js "What do you feel guilty for feeling right now?";
   js "What are you most tired of carrying right now?";
   js "What feels like too much today?";
   js "What would feel relieving to stop trying to do right now?";
   js "Where did your energy go today?";
   js "What made you feel snapped, irritated, or on edge today?";
   js "What felt unfair today?";
   js "If your anger could talk, what would it say?";
   js "Who or what drained you the most today?";
   js "What felt distant or muted today?";
   js "Did anything feel harder to care about than it " ++ [leftQuote] ++ js "should" ++ [rightQuote] ++ js "?";
   js "What part of you feels far away right now?";
   js "What did you go through today that no one saw?"  ].

(** The operators on 32-bit integers: both operands are wrapped to signed
    32 bits, for the unsigned shift the left one to unsigned 32 bits. *)
Definition xor32 (a b : Z) : Z := Z.lxor (toInt32 a) (toInt32 b).
Definition or32 (a b : Z) : Z := Z.lor (toInt32 a) (toInt32 b).
Definition ushr (a n : Z) : Z := Z.shiftr (a mod 2 ^ 32) n.
(** [Math.imul] *)
Definition imul (a b : Z) : Z := toInt32 (a * b).

(** FNV-1a on the code units. *)
Definition hashStringToUint32 (input : jstring) : Z :=
  ushr (fold_left (fun hash c => imul (xor32 hash (Z.of_N c)) 16777619) input
          2166136261%Z) 0.

(** One call of the generator that [mulberry32] returns: the new value of
    its [seed], which grows without wrapping, and the numerator of the
    result, which is that numerator over 4294967296. *)
Definition mulberry32_next (seed : Z) : Z * Z :=
  (let seed' := seed + 1831565813 in
   let t := seed' in
   let t := imul (xor32 t (ushr t 15)) (or32 t 1) in
   let t := xor32 t (t + imul (xor32 t (ushr t 7)) (or32 t 61)) in
   (seed', ushr (xor32 t (ushr t 14)) 0))%Z.

(** [Math.floor(x * n)] for [x] the quotient of [u] by 4294967296: the
    quotient and the product are exact in double precision for [u] below
    that power of two and the [n] of the bank. *)
Definition floorScaled (u n : Z) : Z := (u * n / 2 ^ 32)%Z.

(** An index outside the bank gives [None], the [undefined] of the source. *)
Definition pickDailyPrompts (userId entryDate : jstring)
  : option jstring * option jstring :=
  let seed := hashStringToUint32 (userId ++ js ":" ++ entryDate) in
  let (seed1, u1) := mulberry32_next seed in
  let (_, u2) := mulberry32_next seed1 in
  let n := Z.of_nat (length PROMPT_BANK) in
  let a := floorScaled u1 n in
  let b := floorScaled u2 n in
  let b := if Z.eqb b a then ((b + 1) mod n)%Z else b in
  (PROMPT_BANK !! Z.to_nat a, PROMPT_BANK !! Z.to_nat b).

End PromptPicker.

Import Patterns Route.

(** * Notions used to state the properties *)

Module Spec.

(** ** The scanner as a three-state machine *)

Inductive smode := Normal | InString | Escaped.

(** One step on a code unit: the mode and the brace depth after it. *)
Definition sstep (st : smode * Z) (c : N) : smode * Z :=
  match st with
  | (Normal, d) =>
      if N.eqb c dquote then (InString, d)
      else if N.eqb c (ch "{") then (Normal, d + 1)%Z
      else if N.eqb c (ch "}") then (Normal, d - 1)%Z
      else (Normal, d)
  | (InString, d) =>
      if N.eqb c backslash then (Escaped, d)
      else if N.eqb c dquote then (Normal, d)
      else (InString, d)
  | (Escaped, d) => (InString, d)
  end.

(** The two flags of the source's scanner in each mode. *)
Definition inStringOf (m : smode) : bool :=
  match m with Normal => false | _ => true end.
Definition escapingOf (m : smode) : bool :=
  match m with Escaped => true | _ => false end.

Definition depthAfter (st : smode * Z) (p : jstring) : Z :=
  snd (fold_left sstep p st).

(** The least [k] such that the depth is zero after the first [k + 1] code
    units of [s], the machine starting in [st]. *)
Definition firstZero (st : smode * Z) (s : jstring) : option nat :=
  List.find (fun k => Z.eqb (depthAfter st (take (S k) s)) 0) (seq 0 (length s)).

(** The brace group that opens at index [start]: the shortest non-empty
    prefix of the text from there on that begins with an opening brace and
    after which the depth is back to zero. *)
Definition groupAt (text : jstring) (start : nat) : option jstring :=
  let s := drop start text in
  match s with
  | c :: _ =>
      if N.eqb c (ch "{") then
        match firstZero (Normal, 0%Z) s with
        | Some k => Some (take (S k) s)
        | None => None
        end
      else None
  | [] => None
  end.




(** ** Candidates *)

(** The value of a candidate that parses; a text that parses to [null]
    counts as one that does not, as in the loop. *)
Definition parsesTo (c : jstring) : option json :=
  match tryParseJsonLoose c with
  | Some JNull => None
  | r => r
  end.

Definition parses (c : jstring) : bool :=
  match parsesTo c with Some _ => true | None => false end.

Definition parsesAndMatches (c : jstring) : bool :=
  match parsesTo c with
  | Some v => match modelResponseSchema_safeParse v with
              | Some _ => true
              | None => false
              end
  | None => false
  end.

(** What the loop settles on when it visits [visit] in order: the first
    candidate that parses and has the shape, else the candidate that
    parses and is visited last, else the fallback. *)
Definition chosen (visit : list jstring) (fallback : option json) : option json :=
  match List.find parsesAndMatches visit with
  | Some c => parsesTo c
  | None =>
      match List.find parses (rev visit) with
      | Some c => parsesTo c
      | None => fallback
      end
  end.

(** Whether a candidate parses, and whether it parses to a value of the
    expected shape. *)
Definition parsesLoose (c : jstring) : bool :=
  match tryParseJsonLoose c with Some _ => true | None => false end.

Definition matchesSchema (c : jstring) : bool :=
  match tryParseJsonLoose c with
  | Some v => match modelResponseSchema_safeParse v with
              | Some _ => true
              | None => false
              end
  | None => false
  end.

(** ** Regular expressions *)

(** The groups of an expression and the least number of code units that a
    match of it consumes. *)
Fixpoint groupsOf (r : Regex.re) : list nat :=
  match r with
  | Regex.Seq a b => groupsOf a ++ groupsOf b
  | Regex.Star a => groupsOf a
  | Regex.Group i a => i :: groupsOf a
  | _ => []
  end.

Fixpoint minLen (r : Regex.re) : nat :=
  match r with
  | Regex.Cls _ => 1
  | Regex.Seq a b => minLen a + minLen b
  | Regex.Group _ a => minLen a
  | _ => 0
  end.

(** ** Entries in the order of their dates *)

(** Oldest first, by the order of the code units of the dates. *)
Fixpoint ascendingByDate (l : list JournalPatternInputEntry) : bool :=
  match l with
  | x :: (y :: _) as tl =>
      (codeUnitCompare (entryDate x) (entryDate y) <=? 0)%Z && ascendingByDate tl
  | _ => true
  end.

(** ** Blank strings *)

Definition isBlank (s : jstring) : bool := forallb isWhite s.

(** ** The selection *)

(** The characters that the selection charges for a list of entries. *)
Definition totalCost (l : list JournalPatternInputEntry) : nat :=
  list_sum (List.map entryCost l).

(** The caps on the fields of an entry. *)
Definition capped (e : JournalPatternInputEntry) : Prop :=
  length (body e) <= 500
  /\ length (prompt1 e) <= 140 /\ length (prompt2 e) <= 140
  /\ length (p1Answer e) <= 260 /\ length (p2Answer e) <= 260.

(** ** The fixed texts *)

(** The phrase for a span of [d] days: the week below thirteen days, two
    weeks below twenty, a few weeks from twenty on. *)
Definition phraseOfSpan (d : Z) : jstring :=
  if (d <? 13)%Z then js "over the past week"
  else if (d <? 20)%Z then js "over the past two weeks"
  else js "over the past few weeks".

(** A text, already in lower case, has one of the banned phrases in it. *)
Definition containsBanned (lower : jstring) : Prop :=
  exists b pre post, In b BANNED_SUBSTRINGS /\ lower = pre ++ b ++ post.

(** What follows the phrase when the reply had a banned phrase in it, and
    when the reply declined to speak. *)
Definition sentenceWhenBanned : jstring :=
  js ", I" ++ [8217%N]
  ++ js "m noticing some repeating threads, but I can" ++ [8217%N]
  ++ js "t put them into words cleanly right now.".
Definition sentenceWhenSilent : jstring :=
  js ", I" ++ [8217%N] ++ js "m not seeing a clear repeating pattern yet.".

(** A nullable string trimmed, [null] when nothing is left. *)
Definition trimmedOrNull (o : option jstring) : option jstring :=
  match o with
  | Some t => match trim t with [] => None | t' => Some t' end
  | None => None
  end.

(** The number that a run of decimal digits denotes, the last digit
    counting once. *)
Fixpoint decimalRev (ds : jstring) : Z :=
  match ds with
  | [] => 0
  | d :: tl => (Z.of_N d - 48) + 10 * decimalRev tl
  end%Z.
Definition decimal (ds : jstring) : Z := decimalRev (rev ds).

(** ** The calls to the provider *)

Definition isContentCall (c : Call) : bool :=
  match c with GenerateContent _ _ => true | ListModels => false end.

(** How many of the calls request content, and how many list the models. *)
Definition contentCalls (l : list Call) : nat :=
  length (List.filter isContentCall l).
Definition listingCalls (l : list Call) : nat :=
  length (List.filter (fun c => negb (isContentCall c)) l).

(** ** The cache *)

(** No cached value carries a debug record. *)
Definition debugFree (w : World) : Prop :=
  forall uid c, patternsCacheByUser w !! uid = Some c -> debug (value c) = None.

(** ** Hexadecimal numerals *)

Definition isHexLower (c : N) : bool :=
  (N.leb 48 c && N.leb c 57) || (N.leb 97 c && N.leb c 102).

(** The number that a string of hexadecimal digits denotes. *)
Definition hexValue (s : jstring) : Z :=
  fold_left (fun acc c => (acc * 16 + Z.of_N (default 0%N (hexVal c)))%Z) s 0%Z.

(** ** Fences *)

Definition backtick : N := 96.

(** ** Dates *)

(** The three fields of a string of ten code units that has four digits,
    a dash, two digits, a dash and two digits. *)
Definition isoDateFields (iso : jstring) : option (jstring * jstring * jstring) :=
  match iso with
  | [y1; y2; y3; y4; s1; m1; m2; s2; d1; d2] =>
      if forallb Regex.isDigit [y1; y2; y3; y4; m1; m2; d1; d2]
         && N.eqb (ch "-") s1 && N.eqb (ch "-") s2
      then Some ([y1; y2; y3; y4], [m1; m2], [d1; d2])
      else None
  | _ => None
  end.

(** ** User names *)

(** Three to thirty-two name characters, the first and the last a letter
    or a digit, as the message of the error words the rule. *)
Definition validUsername (s : jstring) : bool :=
  Nat.leb 3 (length s) && Nat.leb (length s) 32
  && forallb Username.isNameChar s
  && match head s, list.last s with
     | Some a, Some z => Username.isLowerAlnum a && Username.isLowerAlnum z
     | _, _ => false
     end.

End Spec.
Import Spec.

(** * Sample data *)

Module Sample.

Definition entry (date text : string) (vent : bool) : JournalPatternInputEntry :=
  {| entryDate := js date; body := js text; prompt1 := []; prompt2 := [];
     p1Answer := []; p2Answer := []; ventEntry := vent |}.

(** Four entries that are not vents, over seven days. *)
Definition week : list JournalPatternInputEntry :=
  [entry "2024-01-01" "slept badly" false;
   entry "2024-01-03" "tired again" false;
   entry "2024-01-05" "long day" false;
   entry "2024-01-08" "a little better" false].

(** Two entries that are not vents. *)
Definition thin : list JournalPatternInputEntry :=
  [entry "2024-01-01" "slept badly" false;
   entry "2024-01-08" "a little better" false].

(** The four entries of [week] and a vent on the second day. *)
Definition weekAndVent : list JournalPatternInputEntry :=
  [entry "2024-01-01" "slept badly" false;
   entry "2024-01-02" "everything at once" true;
   entry "2024-01-03" "tired again" false;
   entry "2024-01-05" "long day" false;
   entry "2024-01-08" "a little better" false].

(** No model is configured, a key is, and the provider lists two models,
    one of which generates content. *)
Definition noModel : option jstring := None.
Definition apiKey : option jstring := Some (js "key").
Definition model : jstring := js "models/gemini-2.5-flash".
Definition listing : ListOutcome :=
  Listed [{| lm_name := Some (js "models/embedding-001");
             lm_generateContent := false |};
          {| lm_name := Some model; lm_generateContent := true |}].

(** Nothing called yet, no model name remembered. *)
Definition idle : Net := {| calls := []; cachedModelName := None |}.

(** A provider that answers every request with the same text. *)
Definition answering (text : jstring) (_ : jstring) (_ : PromptRequest)
  : ProviderOutcome :=
  Responded [Some text] None text (Some (js "STOP")).

(** A reply that speaks and leaves the time range out. *)
Definition replyNoRange : jstring :=
  jsq "{`shouldSpeak`:true,`timeRange`:null,`reflection`:`Over the past week, mornings keep coming up.`,`themes`:[],`invitation`:null}".

(** A reply with a repeated theme and five themes in all. *)
Definition replyFiveThemes : jstring :=
  jsq "{`shouldSpeak`:true,`timeRange`:`over the past week`,`reflection`:`Over the past week, mornings keep coming up.`,`themes`:[`tired`,`tired`,` sleep `,`work`,`night`],`invitation`:null}".

(** A reply that uses a banned phrase. *)
Definition replyBanned : jstring :=
  jsq "{`shouldSpeak`:true,`timeRange`:`over the past week`,`reflection`:`You should rest more.`,`themes`:[`tired`],`invitation`:null}".

(** The state after the generator has run for [week]: the models were
    listed, the content was requested once. *)
Definition weekNet : Net :=
  {| calls := [ListModels; GenerateContent model (buildGeminiRequest week)];
     cachedModelName := Some model |}.

Definition reflectionText : jstring :=
  js "Over the past week, mornings keep coming up.".

(** What the generator returns for the first two replies. *)
Definition spokenNoRange : PatternValue :=
  {| shouldSpeak := true; reflection := Some reflectionText; themes := [];
     invitation := None; timeRange := None; debug := None |}.

Definition fiveThemes : list jstring :=
  [js "tired"; js "tired"; js "sleep"; js "work"; js "night"].

Definition spokenFive : PatternValue :=
  {| shouldSpeak := true; reflection := Some reflectionText;
     themes := fiveThemes; invitation := None;
     timeRange := Some (js "over the past week"); debug := None |}.

(** An object with an object inside. *)
Definition nested : jstring := jsq "{`a`:{`b`:1}}".
Definition nestedInner : jstring := jsq "{`b`:1}".

(** The loose text of the parser's example. *)
Definition looseText : jstring := js "{label: 'x', score: 1,}".

Definition row (date text : string) : DbJournalRow :=
  {| entry_date := js date; row_body := js text; vent_entry := Some false;
     prompt_1 := None; prompt_2 := None; p1_answer := None; p2_answer := None |}.

(** The rows of a user, newest first, as the database returns them. *)
Definition rows : list DbJournalRow :=
  [row "2024-01-08" "a little better"; row "2024-01-01" "slept badly"].

Definition user : jstring := js "user-1".
Definition request (dbg : option jstring) : Request :=
  {| authorization := Some (js "Bearer token-1"); q_debug := dbg;
     q_refresh := None |}.
Definition getUser (_ : jstring) : AuthOutcome := AuthUser (Some user).
Definition selectEntries (_ _ : jstring) : DbOutcome := DbRows (Some rows).
Definition clock (_ : nat) : Z := 1000000%Z.

Definition goodValue : PatternValue :=
  {| shouldSpeak := true;
     reflection := Some (js "Over the past week, mornings keep coming up.");
     themes := [js "tired"]; invitation := None;
     timeRange := Some (js "over the past week"); debug := None |}.

Definition emptyWorld : World :=
  {| patternsCacheByUser := ∅; net := idle; clockReads := 0 |}.

(** A cache entry for these rows, one second old on [clock]. *)
Definition cachedEntry : CachedPatterns :=
  {| atMs := 999000%Z;
     fingerprint := computeEntriesFingerprint rows;
     value := goodValue |}.

(** A world in which the user has that entry. *)
Definition cachedWorld : World :=
  {| patternsCacheByUser := {[ user := cachedEntry ]};
     net := idle; clockReads := 0 |}.

(** A good entry for these rows that is far older than five minutes, and
    a world in which the user has it. *)
Definition staleEntry : CachedPatterns :=
  {| atMs := 0%Z;
     fingerprint := computeEntriesFingerprint rows;
     value := goodValue |}.

Definition staleWorld : World :=
  {| patternsCacheByUser := {[ user := staleEntry ]};
     net := idle; clockReads := 0 |}.

(** Four entries that are not vents, within three days. *)
Definition crowded : list JournalPatternInputEntry :=
  [entry "2024-01-01" "slept badly" false;
   entry "2024-01-02" "tired again" false;
   entry "2024-01-02" "long day" false;
   entry "2024-01-03" "a little better" false].

Definition noKey : option jstring := None.

(** A provider that refuses every request as a rate limit does. *)
Definition limited (_ : jstring) (_ : PromptRequest) : ProviderOutcome :=
  Threw (Some 429%Z) (Some (js "Too many requests")) (Some (js "30s")).

(** A reply without any object, a reply that declines to speak, and a
    reply that speaks with a blank reflection. *)
Definition replyProse : jstring := js "I cannot answer that.".
Definition replySilent : jstring :=
  jsq "{`shouldSpeak`:false,`timeRange`:null,`reflection`:`Nothing stands out.`,`themes`:[`tired`],`invitation`:null}".
Definition replyBlank : jstring :=
  jsq "{`shouldSpeak`:true,`timeRange`:null,`reflection`:`  `,`themes`:[`tired`],`invitation`:null}".

(** A reply that speaks, with blanks around its time range. *)
Definition replyPadded : jstring :=
  jsq "{`shouldSpeak`:true,`timeRange`:` over the past two weeks `,`reflection`:`Over the past week, mornings keep coming up.`,`themes`:[],`invitation`:null}".

Definition spokenPadded : PatternValue :=
  {| shouldSpeak := true; reflection := Some reflectionText; themes := [];
     invitation := None; timeRange := Some (js "over the past two weeks");
     debug := None |}.

(** A reply that is cut off inside the object. *)
Definition replyCut : jstring := jsq "{`shouldSpeak`:true,`reflection`:`Over the pa".

(** A fenced block between two pieces of prose. *)
Definition fencedIntro : jstring := js "Here it is: ".
Definition fencedInside : jstring := js "json" ++ [newline] ++ js "{a} " ++ [newline].
Definition fencedOutro : jstring := js " and that is all.".

(** The rows of a user with four entries over seven days, newest first,
    and the database that returns them. *)
Definition weekRows : list DbJournalRow :=
  [row "2024-01-08" "a little better"; row "2024-01-05" "long day";
   row "2024-01-03" "tired again"; row "2024-01-01" "slept badly"].
Definition selectWeek (_ _ : jstring) : DbOutcome := DbRows (Some weekRows).

(** A request that forces a refresh, and a request without credentials. *)
Definition refreshRequest : Request :=
  {| authorization := Some (js "Bearer token-1"); q_debug := None;
     q_refresh := Some (js "1") |}.
Definition anonymousRequest : Request :=
  {| authorization := None; q_debug := None; q_refresh := None |}.

Definition otherUser : jstring := js "user-2".

(** The rows of [weekRows] with the oldest body rewritten, and the
    database that returns them. *)
Definition editedRows : list DbJournalRow :=
  [row "2024-01-08" "a little better"; row "2024-01-05" "long day";
   row "2024-01-03" "tired again"; row "2024-01-01" "slept badly, twice"].
Definition selectEdited (_ _ : jstring) : DbOutcome := DbRows (Some editedRows).

(** The rows of [weekRows] and one more day, and the database that
    returns them. *)
Definition laterRows : list DbJournalRow :=
  row "2024-01-09" "a new day" :: weekRows.
Definition selectLater (_ _ : jstring) : DbOutcome := DbRows (Some laterRows).

End Sample.

Import Regex.

(** * The embedding on concrete inputs *)

(** The hash of the fingerprint wraps to 32 bits and prints in hexadecimal
    without leading zeros. *)
Example stableHash_no_rows : computeEntriesFingerprint [] = js "b867115".
Proof. vm_compute. reflexivity. Qed.

Example stableHash_sample :
  stableHash (js "2|2024-01-08|a little better") = js "373016a7".
Proof. vm_compute. reflexivity. Qed.

(** Dates are time values at midnight UTC; a month or a day out of range
    carries over, and a date that is not of the form is no date. *)
Example parseIsoDate_samples :
  List.map parseIsoDate
    [js "1970-01-01"; js "2024-03-01"; js "2024-13-01"; js "2024-00-10";
     js "2024-3-01"]
  = [Some 0; Some 1709251200000; Some 1735689600000; Some 1702166400000;
     None]%Z.
Proof. vm_compute. reflexivity. Qed.

Example computeSpanDays_week : computeSpanDays Sample.week = Some 7%Z.
Proof. vm_compute. reflexivity. Qed.

(** The first fenced block is taken and its language tag dropped. *)
Example stripCodeFences_sample :
  stripCodeFences (js "Here: ```json" ++ [newline] ++ js "{a} " ++ [newline]
                   ++ js "``` and ```{b}```")
  = js "{a}".
Proof. vm_compute. reflexivity. Qed.

(** A brace inside a string does not close a group. *)
Example extractJsonObjects_sample :
  extractJsonObjects (jsq "say {`a`:`}`} and {b")
  = [jsq "{`a`:`}`}"].
Proof. vm_compute. reflexivity. Qed.

Example getBearerToken_sample :
  getBearerToken (Sample.request None) = Some (js "token-1").
Proof. vm_compute. reflexivity. Qed.

(** * Properties of the parsing of replies *)

(** ** Blank strings *)

Lemma trimStart_nil_blank (s : jstring) : trimStart s = [] -> isBlank s = true.
Proof.
  induction s as [|c tl IH]; simpl; [reflexivity|].
  destruct (isWhite c); [exact IH | discriminate].
Qed.

Lemma trimStart_head (s : jstring) c tl :
  trimStart s = c :: tl -> isWhite c = false.
Proof.
  induction s as [|x s IH]; simpl; [discriminate|].
  destruct (isWhite x) eqn:W; [exact IH|].
  intros [= -> _]. exact W.
Qed.

Lemma isBlank_rev (s : jstring) : isBlank (rev s) = isBlank s.
Proof.
  unfold isBlank. induction s as [|c tl IH]; simpl; [reflexivity|].
  rewrite forallb_app, IH. simpl. rewrite andb_true_r. apply andb_comm.
Qed.

Lemma trim_nil_blank (s : jstring) : trim s = [] -> isBlank s = true.
Proof.
  unfold trim, trimEnd. intros H.
  assert (E : trimStart (rev (trimStart s)) = []).
  { destruct (trimStart (rev (trimStart s))); [reflexivity|].
    simpl in H. destruct (rev l); discriminate H. }
  apply trimStart_nil_blank in E. rewrite isBlank_rev in E.
  destruct (trimStart s) as [|c tl] eqn:T.
  - apply trimStart_nil_blank, T.
  - apply trimStart_head in T. simpl in E. rewrite T in E. discriminate.
Qed.

Lemma startsWith_blank (s p : jstring) :
  startsWith s p = true -> isBlank s = true -> isBlank p = true.
Proof.
  revert s. induction p as [|x p IH]; intros [|y s]; simpl; try easy.
  intros [E S]%andb_true_iff [W B]%andb_true_iff.
  apply N.eqb_eq in E. subst y. rewrite W. simpl. eauto.
Qed.

Lemma indexOf_go_blank (s p : jstring) i j :
  indexOf_go s p i = Some j -> isBlank s = true -> isBlank p = true.
Proof.
  revert i. induction s as [|c tl IH]; intros i.
  - destruct p; [reflexivity | discriminate].
  - cbn [indexOf_go]. destruct (startsWith (c :: tl) p) eqn:S.
    + intros _ B. now apply (startsWith_blank (c :: tl) p).
    + intros H [_ B]%andb_true_iff. eapply IH; eauto.
Qed.

Lemma includes_blank (s p : jstring) :
  includes s p = true -> isBlank s = true -> isBlank p = true.
Proof.
  unfold includes. destruct (indexOf_go s p 0) eqn:E; [|discriminate].
  intros _. eapply indexOf_go_blank; eauto.
Qed.

Lemma banned_never_blank :
  forallb (fun b => negb (isBlank b)) BANNED_SUBSTRINGS = true.
Proof. vm_compute. reflexivity. Qed.

Lemma asciiLower_blank (s : jstring) :
  isBlank s = true -> isBlank (asciiLower s) = true.
Proof.
  unfold isBlank, asciiLower. induction s as [|c tl IH]; simpl; [reflexivity|].
  intros [W B]%andb_true_iff. rewrite (IH B), andb_true_r.
  destruct (N.leb 65 c && N.leb c 90) eqn:U; [|exact W].
  apply andb_true_iff in U as [L1%N.leb_le L2%N.leb_le].
  unfold isWhite in W.
  repeat (apply orb_true_iff in W as [W|W]);
    try (apply andb_true_iff in W as [?%N.leb_le ?%N.leb_le]);
    try apply N.eqb_eq in W; lia.
Qed.

(** ** The brace groups of a text *)

Lemma find_seq_S (f : nat -> bool) a n :
  List.find f (seq (S a) n) = option_map S (List.find (fun k => f (S k)) (seq a n)).
Proof.
  revert a. induction n as [|n IH]; intros a; [reflexivity|].
  simpl. destruct (f (S a)); [reflexivity | apply IH].
Qed.

Lemma find_seq_least (f : nat -> bool) n k :
  List.find f (seq 0 n) = Some k ->
  k < n /\ f k = true /\ forall j, j < k -> f j = false.
Proof.
  revert f k. induction n as [|n IH]; intros f k; [discriminate|].
  simpl. destruct (f 0) eqn:F0.
  - intros [= <-]. repeat split; [lia | exact F0 | lia].
  - rewrite find_seq_S.
    destruct (List.find _ (seq 0 n)) as [k'|] eqn:E; [|discriminate].
    intros [= <-]. apply IH in E as (L & T & M).
    repeat split; [lia | exact T |].
    intros [|j] Hj; [exact F0 | apply M; lia].
Qed.

Lemma firstZero_cons st c tl :
  firstZero st (c :: tl)
  = if Z.eqb (snd (sstep st c)) 0 then Some 0
    else option_map S (firstZero (sstep st c) tl).
Proof.
  unfold firstZero. cbn [length seq List.find].
  unfold depthAfter at 1. cbn [take fold_left].
  destruct (Z.eqb _ 0); [reflexivity|].
  rewrite find_seq_S. reflexivity.
Qed.

(** The first zero is the least one: the depth is zero after [k + 1] code
    units and after no shorter non-empty prefix. *)
Lemma firstZero_least st s k :
  firstZero st s = Some k ->
  k < length s
  /\ depthAfter st (take (S k) s) = 0%Z
  /\ forall j, j < k -> depthAfter st (take (S j) s) <> 0%Z.
Proof.
  unfold firstZero. intros (L & T & M)%find_seq_least.
  repeat split; [exact L | now apply Z.eqb_eq |].
  intros j Hj. apply Z.eqb_neq, M, Hj.
Qed.

(** The inner loop of the source is the machine: from a positive depth it
    stops at the first index after which the depth is zero. *)
Lemma scan_firstZero s i m d :
  (1 <= d)%Z ->
  scan s i d (inStringOf m) (escapingOf m)
  = option_map (fun k => i + k) (firstZero (m, d) s).
Proof.
  revert i m d. induction s as [|c tl IH]; intros i m d Hd; [reflexivity|].
  rewrite firstZero_cons. cbn [scan].
  assert (Next : forall m' d', (1 <= d')%Z ->
            scan tl (S i) d' (inStringOf m') (escapingOf m')
            = option_map (fun k => i + k) (option_map S (firstZero (m', d') tl))).
  { intros m' d' Hd'. rewrite (IH (S i) m' d' Hd').
    destruct (firstZero _ tl); cbn; [f_equal; lia | reflexivity]. }
  pose proof (Next Normal) as NextN.
  pose proof (Next InString) as NextS.
  pose proof (Next Escaped) as NextE.
  cbn [inStringOf escapingOf] in NextN, NextS, NextE. clear Next IH.
  destruct m; cbn [inStringOf escapingOf sstep].
  - destruct (N.eqb c dquote).
    { cbn [snd]. destruct (Z.eqb_spec d 0); [lia | now apply NextS]. }
    destruct (N.eqb c (ch "{")).
    { cbn [snd]. destruct (Z.eqb_spec (d + 1) 0); [lia | apply NextN; lia]. }
    destruct (N.eqb c (ch "}")).
    { cbn [snd]. destruct (Z.eqb_spec (d - 1) 0).
      - cbn. f_equal. lia.
      - apply NextN. lia. }
    cbn [snd]. destruct (Z.eqb_spec d 0); [lia | now apply NextN].
  - destruct (N.eqb c backslash).
    { cbn [snd]. destruct (Z.eqb_spec d 0); [lia | now apply NextE]. }
    destruct (N.eqb c dquote).
    { cbn [snd]. destruct (Z.eqb_spec d 0); [lia | now apply NextN]. }
    cbn [snd]. destruct (Z.eqb_spec d 0); [lia | now apply NextS].
  - cbn [snd]. destruct (Z.eqb_spec d 0); [lia | now apply NextS].
Qed.

(** From a positive depth, the code unit that brings the depth to zero is
    a closing brace. *)
Lemma firstZero_closes s m d k :
  (1 <= d)%Z -> firstZero (m, d) s = Some k ->
  exists pre, take (S k) s = pre ++ [ch "}"].
Proof.
  revert m d k. induction s as [|c tl IH]; intros m d k Hd; [discriminate|].
  rewrite firstZero_cons.
  destruct (Z.eqb_spec (snd (sstep (m, d) c)) 0) as [E|E].
  - intros [= <-]. exists []. cbn [take app]. f_equal.
    destruct m; cbn [sstep] in E.
    + destruct (N.eqb c dquote); cbn [snd] in E; [lia|].
      destruct (N.eqb c (ch "{")); cbn [snd] in E; [lia|].
      destruct (N.eqb_spec c (ch "}")); [assumption | cbn [snd] in E; lia].
    + destruct (N.eqb c backslash); [cbn [snd] in E; lia|].
      destruct (N.eqb c dquote); cbn [snd] in E; lia.
    + cbn [snd] in E. lia.
  - destruct (sstep (m, d) c) as [m' d'] eqn:St.
    destruct (firstZero (m', d') tl) as [k'|] eqn:F; [|discriminate].
    intros [= <-]. cbn [snd] in E.
    assert (Hd' : (1 <= d')%Z).
    { destruct m; cbn [sstep] in St;
        repeat match type of St with
               | (if ?b then _ else _) = _ => destruct b
               end; injection St as <- <-; lia. }
    destruct (IH m' d' k' Hd' F) as [pre Hpre].
    exists (c :: pre). cbn [take] in *. rewrite Hpre. reflexivity.
Qed.

Lemma trimStart_keep c tl : isWhite c = false -> trimStart (c :: tl) = c :: tl.
Proof. intros H. simpl. now rewrite H. Qed.

(** A text between braces has nothing to trim. *)
Lemma trim_braced (mid : jstring) :
  trim (ch "{" :: mid ++ [ch "}"]) = ch "{" :: mid ++ [ch "}"].
Proof.
  unfold trim, trimEnd. rewrite trimStart_keep by reflexivity.
  change (ch "{" :: mid ++ [ch "}"]) with ((ch "{" :: mid) ++ [ch "}"]).
  rewrite rev_app_distr. cbn [rev app].
  rewrite trimStart_keep by reflexivity.
  change (ch "}" :: rev mid ++ [ch "{"]) with ([ch "}"] ++ rev (ch "{" :: mid)).
  rewrite rev_app_distr, rev_involutive. reflexivity.
Qed.

Lemma drop_next {A} (text : list A) start c tl :
  drop start text = c :: tl -> drop (S start) text = tl.
Proof.
  intros H. change (S start) with (1 + start).
  rewrite <- skipn_skipn, H. reflexivity.
Qed.

(** What the source pushes for one index is the group at that index. *)
Lemma extract_step text start c tl :
  drop start text = c :: tl ->
  (if N.eqb c (ch "{") then
     match scan (c :: tl) start 0 false false with
     | Some i => [trim (slice text start (i + 1))]
     | None => []
     end
   else [])
  = match groupAt text start with Some p => [p] | None => [] end.
Proof.
  intros Hd. unfold groupAt. rewrite Hd.
  destruct (N.eqb_spec c (ch "{")) as [->|]; [|reflexivity].
  rewrite firstZero_cons.
  change (scan (ch "{" :: tl) start 0 false false)
    with (scan tl (S start) 1 (inStringOf Normal) (escapingOf Normal)).
  rewrite scan_firstZero by lia.
  change (sstep (Normal, 0%Z) (ch "{")) with (Normal, 1%Z).
  cbn [snd Z.eqb].
  destruct (firstZero (Normal, 1%Z) tl) as [k|] eqn:F; [|reflexivity].
  cbn [option_map]. f_equal. unfold slice.
  replace (S start + k + 1 - start) with (S (S k)) by lia.
  rewrite Hd. cbn [take].
  destruct (firstZero_closes tl Normal 1 k ltac:(lia) F) as [pre ->].
  apply trim_braced.
Qed.

Lemma extract_from_groups text start suffix :
  drop start text = suffix ->
  extract_from text start suffix
  = omap (groupAt text) (seq start (length suffix)).
Proof.
  revert start. induction suffix as [|c tl IH]; intros start Hd; [reflexivity|].
  cbn [extract_from length seq].
  rewrite (extract_step text start c tl Hd).
  rewrite (IH (S start) (drop_next text start c tl Hd)).
  change (omap (groupAt text) (start :: seq (S start) (length tl)))
    with (match groupAt text start with
          | Some p => p :: omap (groupAt text) (seq (S start) (length tl))
          | None => omap (groupAt text) (seq (S start) (length tl))
          end).
  destruct (groupAt text start); reflexivity.
Qed.



(** A group is the shortest stretch of its kind: it begins with an opening
    brace, the depth is zero after it, and not after any shorter non-empty
    prefix of it. *)
Lemma groupAt_shortest text start p :
  groupAt text start = Some p ->
  p = take (length p) (drop start text)
  /\ head p = Some (ch "{")
  /\ depthAfter (Normal, 0%Z) p = 0%Z
  /\ forall n, 0 < n < length p -> depthAfter (Normal, 0%Z) (take n p) <> 0%Z.
Proof.
  unfold groupAt. destruct (drop start text) as [|c tl] eqn:Hd; [discriminate|].
  destruct (N.eqb_spec c (ch "{")) as [->|]; [|discriminate].
  destruct (firstZero _ _) as [k|] eqn:F; [|discriminate].
  intros Hp.
  assert (Hp' : p = take (S k) (ch "{" :: tl)) by congruence.
  clear Hp. subst p. apply firstZero_least in F as (L & Z0 & M).
  assert (Len : length (take (S k) (ch "{" :: tl)) = S k)
    by (rewrite length_take; lia).
  rewrite Len. repeat split; [exact Z0|].
  intros [|n] Hn; [lia|]. rewrite take_take.
  replace (S n `min` S k) with (S n) by lia. apply M. lia.
Qed.

(** ** Loose parsing *)

Lemma members_object pv fuel acc s v r :
  members pv fuel acc s = Some (v, r) -> exists kv, v = JObject kv.
Proof.
  revert acc s. induction fuel as [|f IH]; intros acc s; [discriminate|].
  cbn [members]. intros H.
  repeat match type of H with
         | match ?x with _ => _ end = _ => destruct x eqn:?; try discriminate
         | (if ?x then _ else _) = _ => destruct x eqn:?; try discriminate
         | (let (_, _) := ?x in _) = _ => destruct x eqn:?
         end.
  - eapply IH; eauto.
  - injection H as <- _. eauto.
Qed.

Lemma parse_value_brace fuel tl v r :
  parse_value fuel (ch "{" :: tl) = Some (v, r) -> exists kv, v = JObject kv.
Proof.
  destruct fuel as [|f]; [discriminate|].
  cbn [parse_value].
  change (skip_ws (ch "{" :: tl)) with (ch "{" :: tl).
  change (N.eqb (ch "{") (ch "{")) with true. cbn iota.
  destruct (skip_ws tl) as [|c2 r2]; [discriminate|].
  destruct (N.eqb c2 (ch "}")).
  - intros [= <- _]. eauto.
  - apply members_object.
Qed.

Lemma JSON_parse_brace tl v :
  JSON_parse (ch "{" :: tl) = Some v -> exists kv, v = JObject kv.
Proof.
  unfold JSON_parse.
  destruct (parse_value _ _) as [[v' r]|] eqn:P; [|discriminate].
  destruct (skip_ws r); [|discriminate].
  intros [= <-]. eapply parse_value_brace, P.
Qed.


(** A successful run has called its continuation on a state that lies at
    least [minLen] further and whose captures are the old ones with
    captures of the expression's own groups put before them. *)
Lemma run_sound r : forall k st m,
  run r k st = Some m ->
  exists st', k st' = Some m
    /\ m_pos st + minLen r <= m_pos st'
    /\ exists new, m_caps st' = new ++ m_caps st
                   /\ Forall (fun kv => In (fst kv) (groupsOf r)) new.
Proof.
  induction r as [|p|a IHa b IHb|a IHa|i a IHa| | |]; intros k st m; cbn [run].
  - intros H. exists st. split; [exact H|]. split; [cbn; lia|]. now exists [].
  - destruct (m_rest st) as [|c tl]; [discriminate|].
    destruct (p c); [|discriminate]. intros H.
    eexists. split; [exact H|]. split; [cbn; lia|]. now exists [].
  - intros H. apply IHa in H as (st1 & H & P1 & new1 & C1 & F1).
    apply IHb in H as (st2 & H & P2 & new2 & C2 & F2).
    exists st2. split; [exact H|]. split; [cbn; lia|].
    exists (new2 ++ new1). split.
    + now rewrite C2, C1, app_assoc.
    + cbn. apply Forall_app. split; eapply Forall_impl; eauto; cbn;
        intros ? ?; apply in_or_app; auto.
  - generalize (S (length (m_rest st))). intros fuel. revert st.
    induction fuel as [|f IHf]; intros st H; cbn [star_loop] in H.
    + exists st. split; [exact H|]. split; [cbn; lia|]. now exists [].
    + destruct (run a _ st) as [out|] eqn:R.
      * injection H as ->. apply IHa in R as (st1 & R & P1 & new1 & C1 & F1).
        destruct (Nat.ltb (m_pos st) (m_pos st1)); [|discriminate].
        apply IHf in R as (st2 & R & P2 & new2 & C2 & F2).
        exists st2. split; [exact R|]. split; [cbn in *; lia|].
        exists (new2 ++ new1). split.
        -- now rewrite C2, C1, app_assoc.
        -- apply Forall_app. split; assumption.
      * exists st. split; [exact H|]. split; [cbn; lia|]. now exists [].
  - intros H. apply IHa in H as (st1 & H & P1 & new1 & C1 & F1).
    eexists. split; [exact H|]. split; [exact P1|].
    exists ((i, take (m_pos st1 - m_pos st) (m_rest st)) :: new1). split.
    + cbn. now rewrite C1.
    + constructor; [now left|].
      eapply Forall_impl; eauto. cbn. intros ? ?. now right.
  - destruct (xorb _ _); [|discriminate]. intros H.
    exists st. split; [exact H|]. split; [cbn; lia|]. now exists [].
  - destruct (Nat.eqb _ _); [|discriminate]. intros H.
    exists st. split; [exact H|]. split; [cbn; lia|]. now exists [].
  - destruct (m_rest st); [|discriminate]. intros H.
    exists st. split; [exact H|]. split; [cbn; lia|]. now exists [].
Qed.

Lemma run_Seq a b k st : run (Seq a b) k st = run a (run b k) st.
Proof. reflexivity. Qed.

Lemma run_Group i a k st :
  run (Group i a) k st
  = run a (fun st' =>
             k (MState (m_prev st') (m_pos st') (m_rest st')
                  ((i, take (m_pos st' - m_pos st) (m_rest st)) :: m_caps st')))
      st.
Proof. reflexivity. Qed.

Lemma cap_skip i (new l : list (nat * jstring)) :
  Forall (fun kv => fst kv <> i) new -> cap i (new ++ l) = cap i l.
Proof.
  induction new as [|[j v] tl IH]; [reflexivity|].
  intros F. inversion F as [|? ? Hj Ft]; subst. cbn in *.
  destruct (Nat.eqb_spec i j); [congruence | auto].
Qed.

(** A bare key found at an opening brace: the first capture begins with
    that brace. *)
Lemma bareKey_capture tl m :
  exec_at reBareKey None 0 (ch "{" :: tl) = Some m ->
  exists more, cap 1 (m_caps m) = ch "{" :: more.
Proof.
  unfold exec_at, reBareKey. cbn [seqs]. rewrite run_Seq, run_Group.
  intros H.
  apply run_sound in H as (st1 & H & P1 & new1 & C1 & F1).
  apply run_sound in H as (st2 & H & _ & new2 & C2 & F2).
  injection H as <-. rewrite C2. cbn [m_caps]. rewrite cap_skip.
  - cbn [cap Nat.eqb m_pos m_rest]. cbn [minLen] in P1.
    destruct (m_pos st1) as [|n]; [cbn in P1; lia|]. cbn. eauto.
  - eapply Forall_impl; [|exact F2]. cbn. intros kv [<-|[<-|[]]]; lia.
Qed.

(** A replacement whose output for a match at a leading brace begins with
    the brace keeps the brace in front. *)
Lemma replaceAll_brace r f tl :
  (forall m, exec_at r None 0 (ch "{" :: tl) = Some m ->
             exists more, f (take (m_pos m - 0) (ch "{" :: tl)) (m_caps m)
                          = ch "{" :: more) ->
  exists tl', replaceAll r f (ch "{" :: tl) = ch "{" :: tl'.
Proof.
  intros Hf. unfold replaceAll. cbn [length replaceAll_go].
  destruct (exec_at r None 0 (ch "{" :: tl)) as [m|] eqn:E; [|eauto].
  destruct (Hf m eq_refl) as [more ->].
  destruct (Nat.eqb _ 0); cbn; eauto.
Qed.

Lemma replaceAll_brace_none r f tl :
  exec_at r None 0 (ch "{" :: tl) = None ->
  exists tl', replaceAll r f (ch "{" :: tl) = ch "{" :: tl'.
Proof. intros E. apply replaceAll_brace. intros m. rewrite E. discriminate. Qed.

Lemma repair_brace tl : exists tl', repair (ch "{" :: tl) = ch "{" :: tl'.
Proof.
  unfold repair.
  destruct (replaceAll_brace_none reTrailingComma (fun _ c => cap 1 c) tl
              eq_refl) as [t1 ->].
  destruct (replaceAll_brace_none (reWord "True") (fun _ _ => js "true") t1
              eq_refl) as [t2 ->].
  destruct (replaceAll_brace_none (reWord "False") (fun _ _ => js "false") t2
              eq_refl) as [t3 ->].
  destruct (replaceAll_brace_none (reWord "None") (fun _ _ => js "null") t3
              eq_refl) as [t4 ->].
  destruct (replaceAll_brace reBareKey
              (fun _ c => cap 1 c ++ [dquote] ++ cap 2 c ++ [dquote] ++ cap 3 c)
              t4) as [t5 ->].
  { intros m [more ->]%bareKey_capture. cbn. eauto. }
  destruct (replaceAll_brace_none reSingleQuotedValue
              (fun _ c => js ": " ++ [dquote] ++ escapeQuotes (cap 1 c) ++ [dquote])
              t5 eq_refl) as [t6 ->].
  apply replaceAll_brace_none. reflexivity.
Qed.

(** A text that begins with an opening brace parses, if at all, to an
    object. *)
Lemma tryParseJsonLoose_brace tl v :
  tryParseJsonLoose (ch "{" :: tl) = Some v -> exists kv, v = JObject kv.
Proof.
  unfold tryParseJsonLoose.
  destruct (JSON_parse (ch "{" :: tl)) as [v'|] eqn:P.
  - intros [= <-]. eapply JSON_parse_brace, P.
  - destruct (repair_brace tl) as [tl' ->]. apply JSON_parse_brace.
Qed.

(** C5. The strict parse of the loose text fails, the repairs turn it into
    strict JSON, and the loose parser yields the object that the strict
    text denotes. *)
Theorem loose_text_is_repaired :
  JSON_parse Sample.looseText = None
  /\ repair Sample.looseText = jsq "{`label`: `x`, `score`: 1}"
  /\ tryParseJsonLoose Sample.looseText
     = JSON_parse (jsq "{`label`:`x`,`score`:1}")
  /\ tryParseJsonLoose Sample.looseText
     = Some (JObject [(js "label", JString (js "x"));
                      (js "score", JNumber 1 0)]).
Proof. repeat split; vm_compute; reflexivity. Qed.

(** ** The choice among the candidates *)

Lemma tryParseJsonLoose_empty : tryParseJsonLoose [] = None.
Proof. vm_compute. reflexivity. Qed.

Lemma find_snoc {A} (f : A -> bool) (l : list A) (x : A) :
  List.find f (l ++ [x])
  = match List.find f l with
    | Some y => Some y
    | None => if f x then Some x else None
    end.
Proof.
  induction l as [|y tl IH]; simpl; [reflexivity|].
  destruct (f y); [reflexivity | exact IH].
Qed.

(** One turn of the loop, in terms of what the candidate parses to. *)
Lemma parseBest_loop_step (c : jstring) (more : list jstring) anyParsed :
  parseBest_loop (c :: more) anyParsed
  = match parsesTo c with
    | None => parseBest_loop more anyParsed
    | Some v =>
        match modelResponseSchema_safeParse v with
        | Some _ => Some v
        | None => parseBest_loop more (Some v)
        end
    end.
Proof.
  cbn [parseBest_loop]. unfold parsesTo. destruct c as [|c0 c'].
  - rewrite tryParseJsonLoose_empty. reflexivity.
  - cbn [truthy negb].
    destruct (tryParseJsonLoose (c0 :: c')) as [[]|]; reflexivity.
Qed.

Lemma chosen_skip (c : jstring) more fallback :
  parsesTo c = None -> chosen (c :: more) fallback = chosen more fallback.
Proof.
  intros H.
  assert (M : parsesAndMatches c = false) by (unfold parsesAndMatches; now rewrite H).
  assert (P : parses c = false) by (unfold parses; now rewrite H).
  unfold chosen. cbn [List.find rev]. rewrite find_snoc, M, P.
  destruct (List.find parsesAndMatches more); [reflexivity|].
  destruct (List.find parses (rev more)); reflexivity.
Qed.

Lemma chosen_hit (c : jstring) more fallback v d :
  parsesTo c = Some v -> modelResponseSchema_safeParse v = Some d ->
  chosen (c :: more) fallback = Some v.
Proof.
  intros H S.
  assert (M : parsesAndMatches c = true)
    by (unfold parsesAndMatches; now rewrite H, S).
  unfold chosen. cbn [List.find]. rewrite M. exact H.
Qed.

Lemma chosen_keep (c : jstring) more fallback v :
  parsesTo c = Some v -> modelResponseSchema_safeParse v = None ->
  chosen (c :: more) fallback = chosen more (Some v).
Proof.
  intros H S.
  assert (M : parsesAndMatches c = false)
    by (unfold parsesAndMatches; now rewrite H, S).
  assert (P : parses c = true) by (unfold parses; now rewrite H).
  unfold chosen. cbn [List.find rev]. rewrite find_snoc, M, P.
  destruct (List.find parsesAndMatches more); [reflexivity|].
  destruct (List.find parses (rev more)); [reflexivity | exact H].
Qed.

Lemma parseBest_loop_chosen (visit : list jstring) (anyParsed : option json) :
  parseBest_loop visit anyParsed = chosen visit anyParsed.
Proof.
  revert anyParsed. induction visit as [|c more IH]; intros anyParsed.
  - reflexivity.
  - rewrite parseBest_loop_step.
    destruct (parsesTo c) as [v|] eqn:P.
    + destruct (modelResponseSchema_safeParse v) as [d|] eqn:S.
      * symmetry. eapply chosen_hit; eauto.
      * rewrite IH. symmetry. now apply chosen_keep.
    + rewrite IH. symmetry. now apply chosen_skip.
Qed.

(** The result of the search, with a candidate that parses to null counted
    as one that does not parse. *)
Lemma parseBest_chosen (text : jstring) :
  let candidates := extractJsonObjects (stripCodeFences text) in
  parseBestJsonFromModelText text
  = match List.find parsesAndMatches (rev candidates) with
    | Some c => parsesTo c
    | None =>
        match List.find parses candidates with
        | Some c => parsesTo c
        | None => None
        end
    end.
Proof.
  intros candidates. unfold parseBestJsonFromModelText.
  fold candidates. rewrite parseBest_loop_chosen. unfold chosen.
  rewrite rev_involutive. reflexivity.
Qed.

Lemma groupAt_brace text start p :
  groupAt text start = Some p -> exists tl, p = ch "{" :: tl.
Proof.
  intros (_ & H & _)%groupAt_shortest.
  destruct p as [|c tl]; [discriminate|]. injection H as ->. eauto.
Qed.

Lemma candidate_brace text c :
  In c (extractJsonObjects text) -> exists tl, c = ch "{" :: tl.
Proof.
  unfold extractJsonObjects. rewrite (extract_from_groups text 0 text eq_refl).
  intros H. apply list_elem_of_In, list_elem_of_omap in H as (start & _ & G).
  eapply groupAt_brace, G.
Qed.

Lemma candidate_parsesTo text c :
  In c (extractJsonObjects text) -> parsesTo c = tryParseJsonLoose c.
Proof.
  intros [tl ->]%candidate_brace. unfold parsesTo.
  destruct (tryParseJsonLoose _) as [v|] eqn:P; [|reflexivity].
  apply tryParseJsonLoose_brace in P as [kv ->]. reflexivity.
Qed.

Lemma find_ext_in {A} (f g : A -> bool) (l : list A) :
  (forall x, In x l -> f x = g x) -> List.find f l = List.find g l.
Proof.
  induction l as [|x tl IH]; [reflexivity|]. intros H. cbn.
  rewrite (H x (or_introl eq_refl)).
  destruct (g x); [reflexivity|]. apply IH. intros y Hy. apply H. now right.
Qed.

(** C6. The candidates are visited from the last to the first. The result
    is the value of the first candidate in that order that parses and has
    the expected shape; when no candidate has the shape, it is the value of
    a candidate that parses (the one visited last, which is the first in
    the text); when no candidate parses, it is null. *)
Theorem parseBest_choice (text : jstring) :
  let candidates := extractJsonObjects (stripCodeFences text) in
  parseBestJsonFromModelText text
  = match List.find matchesSchema (rev candidates) with
    | Some c => tryParseJsonLoose c
    | None =>
        match List.find parsesLoose candidates with
        | Some c => tryParseJsonLoose c
        | None => None
        end
    end.
Proof.
  intros candidates. rewrite parseBest_chosen. fold candidates.
  assert (Same : forall c, In c candidates -> parsesTo c = tryParseJsonLoose c)
    by apply candidate_parsesTo.
  rewrite (find_ext_in parsesAndMatches matchesSchema (rev candidates)).
  2:{ intros c Hc%in_rev. unfold parsesAndMatches, matchesSchema.
      now rewrite (Same c Hc). }
  rewrite (find_ext_in parses parsesLoose candidates).
  2:{ intros c Hc. unfold parses, parsesLoose. now rewrite (Same c Hc). }
  destruct (List.find matchesSchema (rev candidates)) as [c|] eqn:F1.
  - apply find_some in F1 as [Hc%in_rev _]. now apply Same.
  - destruct (List.find parsesLoose candidates) as [c|] eqn:F2; [|reflexivity].
    apply find_some in F2 as [Hc _]. now apply Same.
Qed.

(** * Properties of the selection of entries *)

Lemma compactEntryText_length e : length (compactEntryText e) <= 901.
Proof.
  unfold compactEntryText.
  destruct (Nat.ltb 900 _) eqn:L.
  - unfold slice. rewrite length_app, length_take. cbn [length]. lia.
  - apply Nat.ltb_ge in L. lia.
Qed.

Lemma entryCost_le e : entryCost e <= 941.
Proof. unfold entryCost. pose proof (compactEntryText_length e). lia. Qed.

Lemma bound_capped e : capped (bound e).
Proof.
  unfold capped, bound, slice. simpl. rewrite !length_take. lia.
Qed.

Lemma select_loop_take candidates picked used :
  exists k, select_loop candidates picked used
            = picked ++ List.map bound (take k candidates).
Proof.
  revert picked used. induction candidates as [|e more IH]; intros picked used.
  - exists 0. cbn. now rewrite app_nil_r.
  - cbn [select_loop]. destruct (Nat.leb MAX_ENTRIES (length picked)).
    { exists 0. cbn [take List.map]. now rewrite app_nil_r. }
    destruct (_ && _).
    { exists 0. cbn [take List.map]. now rewrite app_nil_r. }
    destruct (IH (picked ++ [bound e]) (used + entryCost (bound e))) as [k Hk].
    exists (S k). rewrite Hk, <- app_assoc. reflexivity.
Qed.

Lemma select_loop_length candidates picked used :
  length picked <= MAX_ENTRIES ->
  length (select_loop candidates picked used) <= MAX_ENTRIES.
Proof.
  revert picked used. induction candidates as [|e more IH]; intros picked used H.
  - exact H.
  - cbn [select_loop].
    destruct (Nat.leb MAX_ENTRIES (length picked)) eqn:L; [exact H|].
    destruct (_ && _); [exact H|].
    apply IH. apply Nat.leb_gt in L. rewrite length_app. cbn [length]. lia.
Qed.

Lemma totalCost_app l1 l2 : totalCost (l1 ++ l2) = totalCost l1 + totalCost l2.
Proof. unfold totalCost. now rewrite map_app, list_sum_app. Qed.

Lemma totalCost_rev l : totalCost (rev l) = totalCost l.
Proof.
  induction l as [|x tl IH]; [reflexivity|].
  simpl rev. rewrite totalCost_app, IH. unfold totalCost.
  change (list_sum (List.map entryCost [x])) with (entryCost x + 0).
  change (list_sum (List.map entryCost (x :: tl)))
    with (entryCost x + list_sum (List.map entryCost tl)). lia.
Qed.

Lemma totalCost_snoc l e : totalCost (l ++ [e]) = totalCost l + entryCost e.
Proof.
  rewrite totalCost_app. unfold totalCost.
  change (list_sum (List.map entryCost [e])) with (entryCost e + 0). lia.
Qed.

Lemma select_loop_cost candidates picked used :
  used = totalCost picked -> used <= MAX_CHARS_TOTAL ->
  totalCost (select_loop candidates picked used) <= MAX_CHARS_TOTAL.
Proof.
  revert picked used. induction candidates as [|e more IH];
    intros picked used Hu Hb.
  - cbn [select_loop]. lia.
  - cbn [select_loop]. destruct (Nat.leb MAX_ENTRIES (length picked)); [lia|].
    destruct (Nat.ltb 0 (length picked)) eqn:L0; cbn [andb].
    + destruct (Nat.ltb MAX_CHARS_TOTAL _) eqn:L1; [lia|].
      apply Nat.ltb_ge in L1. apply IH; [|exact L1].
      rewrite totalCost_snoc. lia.
    + apply Nat.ltb_ge in L0. destruct picked; [|cbn [length] in L0; lia].
      apply IH.
      * rewrite totalCost_snoc. lia.
      * subst used. pose proof (entryCost_le (bound e)).
        unfold MAX_CHARS_TOTAL. change (totalCost []) with 0. lia.
Qed.

Lemma ventOf_app l1 l2 : ventOf (l1 ++ l2) = ventOf l1 ++ ventOf l2.
Proof. apply List.filter_app. Qed.

Lemma ventOf_rev_length l : length (ventOf (rev l)) = length (ventOf l).
Proof.
  induction l as [|x tl IH]; [reflexivity|].
  simpl rev. rewrite ventOf_app, length_app, IH.
  unfold ventOf. simpl. destruct (ventEntry x); simpl; lia.
Qed.

Lemma ventOf_bound_length l :
  length (ventOf (List.map bound l)) = length (ventOf l).
Proof.
  induction l as [|x tl IH]; [reflexivity|].
  unfold ventOf in *. simpl. destruct (ventEntry x); simpl; lia.
Qed.

Lemma ventOf_take_length k l : length (ventOf (take k l)) <= length (ventOf l).
Proof.
  revert k. induction l as [|x tl IH]; intros [|k];
    try (cbn; apply Nat.le_0_l).
  specialize (IH k). unfold ventOf in *. cbn [take List.filter].
  destruct (ventEntry x); cbn [length]; lia.
Qed.

Lemma ventOf_length_le l : length (ventOf l) <= length l.
Proof.
  induction l as [|x tl IH]; [reflexivity|].
  unfold ventOf in *. simpl. destruct (ventEntry x); simpl; lia.
Qed.

Lemma ventOf_nonVentOf l : ventOf (nonVentOf l) = [].
Proof.
  induction l as [|x tl IH]; [reflexivity|].
  unfold ventOf, nonVentOf in *. simpl.
  destruct (ventEntry x) eqn:V; simpl; [exact IH|]. now rewrite V.
Qed.

Lemma candidates_vents entries :
  length (ventOf (candidatesNewestFirst entries)) <= 6.
Proof.
  unfold candidatesNewestFirst, slice.
  rewrite ventOf_app, length_app, ventOf_rev_length, ventOf_nonVentOf.
  simpl. etransitivity; [apply ventOf_length_le|].
  rewrite length_take. lia.
Qed.

(** X10. The bounds of the selection: at most thirty entries, at most
    eight thousand characters as the loop counts them, at most six vents,
    every field cut to its cap, and the entries are the cut copies of the
    first candidates, the newest first, in reverse. *)
Lemma selection_bounds entries :
  let selected := selectEntriesForModel entries in
  length selected <= MAX_ENTRIES
  /\ totalCost selected <= MAX_CHARS_TOTAL
  /\ length (ventOf selected) <= 6
  /\ Forall capped selected
  /\ exists k, selected
               = rev (List.map bound (take k (candidatesNewestFirst entries))).
Proof.
  unfold selectEntriesForModel. cbn zeta.
  destruct (select_loop_take (candidatesNewestFirst entries) [] 0) as [k Hk].
  simpl in Hk. repeat split.
  - rewrite length_rev. apply (select_loop_length _ [] 0). apply Nat.le_0_l.
  - rewrite totalCost_rev.
    apply (select_loop_cost (candidatesNewestFirst entries) [] 0 eq_refl).
    apply Nat.le_0_l.
  - rewrite ventOf_rev_length, Hk, ventOf_bound_length.
    etransitivity; [apply ventOf_take_length | apply candidates_vents].
  - rewrite Hk. apply Forall_forall. intros e He.
    apply in_rev, in_map_iff in He as (e0 & <- & _). apply bound_capped.
  - exists k. now rewrite Hk.
Qed.

(** C9, the entries are not always returned oldest first. Four entries
    over a week and a vent on the second day, given in the order of their
    dates, pass the gate; in the selection the vent comes first, before
    the entry of the first day, and that is the order in which the
    generator sends the entries to the provider, under a heading that
    says oldest to newest. *)
Theorem selection_puts_vents_first :
  ascendingByDate Sample.weekAndVent = true
  /\ shouldAttemptLongitudinalAnalysis
       (sortByDate codeUnitCompare Sample.weekAndVent) = true
  /\ List.map entryDate
       (selectEntriesForModel (sortByDate codeUnitCompare Sample.weekAndVent))
     = [js "2024-01-02"; js "2024-01-01"; js "2024-01-03"; js "2024-01-05";
        js "2024-01-08"]
  /\ ascendingByDate
       (selectEntriesForModel (sortByDate codeUnitCompare Sample.weekAndVent))
     = false
  /\ exists v request,
       generateJournalPatterns codeUnitCompare asciiLower Sample.noModel
         Sample.apiKey Sample.listing (Sample.answering Sample.replyNoRange)
         Sample.weekAndVent false Sample.idle
       = (Ok v, {| calls := [ListModels; GenerateContent Sample.model request];
                   cachedModelName := Some Sample.model |})
       /\ shouldSpeak v = true
       /\ userText request
          = js "Entries (oldest to newest) as JSON. Each entry has a compact text field:"
            ++ [newline]
            ++ jsq "[{`entryDate`:`2024-01-02`,`ventEntry`:true,`text`:`everything at once`},{`entryDate`:`2024-01-01`,`ventEntry`:false,`text`:`slept badly`},{`entryDate`:`2024-01-03`,`ventEntry`:false,`text`:`tired again`},{`entryDate`:`2024-01-05`,`ventEntry`:false,`text`:`long day`},{`entryDate`:`2024-01-08`,`ventEntry`:false,`text`:`a little better`}]".
Proof.
  repeat (split; [vm_compute; reflexivity|]).
  eexists _, _. split; [vm_compute; reflexivity|].
  split; vm_compute; reflexivity.
Qed.

(** * Properties of the pattern generator *)

(** ** Facts that the generator's properties rest on *)

Lemma startsWith_app (p s : jstring) : startsWith (p ++ s) p = true.
Proof.
  induction p as [|c p IH]; [now destruct s|].
  cbn. now rewrite N.eqb_refl, IH.
Qed.

Lemma indexOf_go_here (p s : jstring) i : indexOf_go (p ++ s) p i = Some i.
Proof.
  destruct (p ++ s) eqn:E; cbn [indexOf_go]; rewrite <- E, startsWith_app;
    reflexivity.
Qed.

Lemma indexOf_go_infix (pre b post : jstring) : forall i,
  exists j, indexOf_go (pre ++ b ++ post) b i = Some j.
Proof.
  induction pre as [|c pre IH]; intros i.
  - exists i. cbn [app]. apply indexOf_go_here.
  - cbn [app indexOf_go].
    destruct (startsWith (c :: pre ++ b ++ post) b); [eauto|]. apply IH.
Qed.

(** A text includes each of its parts. *)
Lemma includes_infix (pre b post : jstring) :
  includes (pre ++ b ++ post) b = true.
Proof.
  unfold includes. destruct (indexOf_go_infix pre b post 0) as [j ->].
  reflexivity.
Qed.

(** Entries that pass the gate have a span, of six days or more. *)
Lemma gate_span entries :
  shouldAttemptLongitudinalAnalysis entries = true ->
  exists d, computeSpanDays (nonVentOf entries) = Some d /\ (6 <= d)%Z.
Proof.
  unfold shouldAttemptLongitudinalAnalysis.
  destruct (Nat.ltb _ 4); [discriminate|].
  destruct (computeSpanDays (nonVentOf entries)) as [d|]; [|discriminate].
  destruct (Z.ltb_spec d 6); [discriminate|]. eauto.
Qed.

(** The time range of a known span is the phrase for it. *)
Lemma describeTimeRange_phrase d : describeTimeRange (Some d) = phraseOfSpan d.
Proof.
  unfold describeTimeRange, phraseOfSpan.
  destruct (Z.leb_spec 20 d), (Z.leb_spec 13 d), (Z.ltb_spec d 13),
    (Z.ltb_spec d 20); try lia; reflexivity.
Qed.

(** [t?.trim() || null]. *)
Lemma trimmedOrNull_spec o :
  match o with
  | Some t => if truthy (trim t) then Some (trim t) else None
  | None => None
  end = trimmedOrNull o.
Proof. destruct o as [t|]; [|reflexivity]. cbn. now destruct (trim t). Qed.

Section GeneratorFacts.

Variable localeCompare : jstring -> jstring -> Z.
Variable toLowerCase : jstring -> jstring.
Variable GEMINI_MODEL : option jstring.
Variable GEMINI_API_KEY : option jstring.
Variable listModels : ListOutcome.
Variable provider : jstring -> PromptRequest -> ProviderOutcome.

(** Case mapping leaves white space alone. *)
Hypothesis toLowerCase_blank :
  forall s, isBlank s = true -> isBlank (toLowerCase s) = true.


Lemma nonVent_insertByDate x l :
  length (nonVentOf (insertByDate localeCompare x l))
  = length (nonVentOf (x :: l)).
Proof.
  induction l as [|y tl IH]; [reflexivity|].
  simpl insertByDate. destruct (_ <? _)%Z; [|reflexivity].
  unfold nonVentOf in *. simpl in *.
  destruct (ventEntry y), (ventEntry x); simpl in *; lia.
Qed.

Lemma nonVent_sortByDate l :
  length (nonVentOf (sortByDate localeCompare l)) = length (nonVentOf l).
Proof.
  induction l as [|x tl IH]; [reflexivity|].
  simpl sortByDate. rewrite nonVent_insertByDate.
  unfold nonVentOf in *. simpl. destruct (ventEntry x); simpl; lia.
Qed.

Lemma banned_not_blank text :
  includesBannedLanguage toLowerCase text = true -> truthy (trim text) = true.
Proof.
  intros H. destruct (trim text) eqn:T; [|reflexivity]. exfalso.
  apply trim_nil_blank, toLowerCase_blank in T.
  unfold includesBannedLanguage in H.
  apply existsb_exists in H as (b & Hb & Hi).
  apply includes_blank in Hi; [|exact T].
  pose proof banned_never_blank as F.
  rewrite forallb_forall in F. specialize (F b Hb).
  rewrite Hi in F. discriminate.
Qed.

(** A banned phrase in the text in lower case is found by the check. *)
Lemma containsBanned_detected text :
  containsBanned (toLowerCase text) ->
  includesBannedLanguage toLowerCase text = true.
Proof.
  intros (b & pre & post & Hb & E). unfold includesBannedLanguage.
  apply existsb_exists. exists b. split; [exact Hb|].
  rewrite E. apply includes_infix.
Qed.

(** What passes the check is returned as it came. *)
Lemma sanitizeOutput_inv refl thms r t :
  sanitizeOutput toLowerCase refl thms = Some (r, t) -> r = refl /\ t = thms.
Proof. unfold sanitizeOutput. repeat case_match; intros [= <- <-]; auto. Qed.

Local Ltac silent_path := intros [= <- <-]; cbn; repeat split; congruence.

(** C1. When fewer than four of the entries are not vents, the generator
    succeeds with a value that does not speak, the state of the network is
    returned as it was (no call to the provider is made), and in debug mode
    the reason recorded is [not_enough_entries]. *)
Theorem gate_rejects_few_entries entriesAll dbg net0 :
  length (nonVentOf entriesAll) < 4 ->
  exists v,
    generateJournalPatterns localeCompare toLowerCase GEMINI_MODEL
      GEMINI_API_KEY listModels provider entriesAll dbg net0
    = (Ok v, net0)
    /\ shouldSpeak v = false
    /\ (dbg = true ->
        exists d, debug v = Some d /\ attempted d = false
                  /\ reason d = not_enough_entries)
    /\ (dbg = false -> debug v = None).
Proof.
  intros Hfew. unfold generateJournalPatterns, shouldAttemptLongitudinalAnalysis.
  rewrite nonVent_sortByDate.
  apply Nat.ltb_lt in Hfew. rewrite Hfew. simpl.
  eexists. split; [reflexivity|]. split; [reflexivity|].
  split; intros ->; simpl; eauto.
Qed.

(** C3, as amended. In every successful value the invitation is null, the
    reflection is null exactly when the value does not speak, and the time
    range is null whenever the value does not speak. A value that speaks
    comes from a reply of the expected shape, in one of two ways: either
    its time range is the fixed phrase for the span of the entries that
    are not vents and its reflection is that phrase followed by one of
    the two fixed sentences; or the reply asked to speak, the reflection
    is the reflection of the reply, trimmed, and the time range is the
    time range of the reply, trimmed, null when that is null or blank. *)
Theorem result_nulls entriesAll dbg net0 v net' :
  generateJournalPatterns localeCompare toLowerCase GEMINI_MODEL
    GEMINI_API_KEY listModels provider entriesAll dbg net0 = (Ok v, net') ->
  invitation v = None
  /\ (shouldSpeak v = false <-> reflection v = None)
  /\ (shouldSpeak v = false -> timeRange v = None)
  /\ (shouldSpeak v = true ->
      exists name net1 chunks parts responseText fin j data d,
        resolveModelName GEMINI_MODEL GEMINI_API_KEY listModels net0 = (name, net1)
        /\ provider name (buildGeminiRequest (sortByDate localeCompare entriesAll))
           = Responded chunks parts responseText fin
        /\ parseBestJsonFromModelText (replyText chunks parts responseText) = Some j
        /\ modelResponseSchema_safeParse j = Some data
        /\ computeSpanDays (nonVentOf (sortByDate localeCompare entriesAll)) = Some d
        /\ ((timeRange v = Some (phraseOfSpan d)
             /\ (reflection v = Some (phraseOfSpan d ++ sentenceWhenBanned)
                 \/ reflection v = Some (phraseOfSpan d ++ sentenceWhenSilent)))
            \/ (mr_shouldSpeak data = true
                /\ reflection v = Some (trim (orEmpty (mr_reflection data)))
                /\ timeRange v = trimmedOrNull (mr_timeRange data)))).
Proof.
  unfold generateJournalPatterns, runOnce, callProvider, bind, ret.
  destruct (shouldAttemptLongitudinalAnalysis _) eqn:Hg; cbn [negb]; [|silent_path].
  apply gate_span in Hg as (d & Hd & _).
  destruct (truthy (orEmpty GEMINI_API_KEY)); cbn [negb]; [|discriminate].
  destruct (resolveModelName _ _ _ net0) as [name net1] eqn:Hres.
  destruct (provider name _) as [chunks parts responseText fin|status msg rd]
    eqn:Hp; [|silent_path].
  destruct (parseBestJsonFromModelText _) as [j|] eqn:Hj; [|silent_path].
  destruct j; try silent_path;
    (destruct (modelResponseSchema_safeParse _) as [data|] eqn:Hs; [|silent_path]);
    (destruct (sanitizeOutput _ _ _) as [[sr st]|] eqn:Hsan;
     [apply sanitizeOutput_inv in Hsan as [-> ->];
      destruct (mr_shouldSpeak data) eqn:Hsp; cbn [negb];
      [destruct (truthy (trim (orEmpty (mr_reflection data)))) eqn:Hr;
       cbn [negb]; [|silent_path]|]|]);
    intros [= <- <-];
    cbn [invitation shouldSpeak reflection timeRange themes];
    (split; [reflexivity|]); (split; [split; congruence|]);
    (split; [congruence|]); intros _;
    eexists _, _, _, _, _, _, _, _, d;
    (split; [reflexivity|]); (split; [exact Hp|]); (split; [exact Hj|]);
    (split; [exact Hs|]); (split; [exact Hd|]);
    rewrite ?Hd, ?describeTimeRange_phrase;
    first [ right; split; [exact Hsp|]; split; [reflexivity|];
            apply trimmedOrNull_spec
          | left; split; [reflexivity|];
            first [left; reflexivity | right; reflexivity] ].
Qed.

(** C8, as amended. When the reply parses, has the expected shape and its
    reflection and themes, joined and in lower case, have a banned phrase
    in them, the value speaks, its themes are empty, its invitation is
    null, its time range is the fixed phrase for the span of the entries
    that are not vents and its reflection is that phrase followed by a
    fixed sentence: none of these fields has anything of the reply in it.
    Without debug there is no debug record; in debug mode the record has
    the reason [banned_language] and its preview is the first 600 code
    units of the reply, its code fences stripped. *)
Theorem banned_reply_is_replaced entriesAll dbg net0 name net1 chunks parts
    responseText fin j data :
  shouldAttemptLongitudinalAnalysis (sortByDate localeCompare entriesAll) = true ->
  truthy (orEmpty GEMINI_API_KEY) = true ->
  resolveModelName GEMINI_MODEL GEMINI_API_KEY listModels net0 = (name, net1) ->
  provider name (buildGeminiRequest (sortByDate localeCompare entriesAll))
    = Responded chunks parts responseText fin ->
  parseBestJsonFromModelText (replyText chunks parts responseText) = Some j ->
  modelResponseSchema_safeParse j = Some data ->
  containsBanned
    (toLowerCase (join [newline] (orEmpty (mr_reflection data) :: mr_themes data))) ->
  exists v net' d,
    generateJournalPatterns localeCompare toLowerCase GEMINI_MODEL
      GEMINI_API_KEY listModels provider entriesAll dbg net0
    = (Ok v, net')
    /\ shouldSpeak v = true
    /\ themes v = []
    /\ invitation v = None
    /\ computeSpanDays (nonVentOf (sortByDate localeCompare entriesAll)) = Some d
    /\ timeRange v = Some (phraseOfSpan d)
    /\ reflection v = Some (phraseOfSpan d ++ sentenceWhenBanned)
    /\ (dbg = false -> debug v = None)
    /\ (dbg = true ->
        exists r, debug v = Some r /\ reason r = banned_language
                  /\ outputPreview r
                     = Some (slice (stripCodeFences
                                      (replyText chunks parts responseText))
                               0 600)).
Proof.
  intros Hgate Hkey Hname Hprov Hparse Hshape Hban%containsBanned_detected.
  destruct (gate_span _ Hgate) as (d & Hd & _).
  unfold generateJournalPatterns, runOnce, callProvider, bind, ret.
  rewrite Hgate, Hkey. cbn [negb]. rewrite Hname, Hprov. cbn [negb].
  rewrite Hparse.
  assert (Hj : j <> JNull).
  { intros ->. simpl in Hshape. discriminate. }
  destruct j; try congruence; rewrite Hshape;
    unfold sanitizeOutput; rewrite (banned_not_blank _ Hban), Hban;
    cbn [negb]; eexists _, _, d; (split; [reflexivity|]);
    cbn [shouldSpeak themes invitation timeRange reflection debug];
    rewrite Hd, describeTimeRange_phrase;
    repeat (split; [reflexivity|]);
    (split; intros ->; cbn; [reflexivity|]);
    eexists; repeat split.
Qed.

(** C10, as amended. When the reply parses, has the expected shape, passes
    the banned-language check, asks to speak and has a reflection that is
    not blank, the themes of the value are the themes of the reply, each
    trimmed, the empty ones dropped, in their order; repeated themes stay
    and their number is not capped. *)
Theorem spoken_themes entriesAll dbg net0 name net1 chunks parts responseText
    fin j data :
  shouldAttemptLongitudinalAnalysis (sortByDate localeCompare entriesAll) = true ->
  truthy (orEmpty GEMINI_API_KEY) = true ->
  resolveModelName GEMINI_MODEL GEMINI_API_KEY listModels net0 = (name, net1) ->
  provider name (buildGeminiRequest (sortByDate localeCompare entriesAll))
    = Responded chunks parts responseText fin ->
  parseBestJsonFromModelText (replyText chunks parts responseText) = Some j ->
  modelResponseSchema_safeParse j = Some data ->
  includesBannedLanguage toLowerCase
    (join [newline] (orEmpty (mr_reflection data) :: mr_themes data)) = false ->
  mr_shouldSpeak data = true ->
  truthy (trim (orEmpty (mr_reflection data))) = true ->
  exists v net',
    generateJournalPatterns localeCompare toLowerCase GEMINI_MODEL
      GEMINI_API_KEY listModels provider entriesAll dbg net0
    = (Ok v, net')
    /\ shouldSpeak v = true
    /\ reflection v = Some (trim (orEmpty (mr_reflection data)))
    /\ themes v = List.filter truthy (List.map trim (mr_themes data)).
Proof.
  intros Hgate Hkey Hname Hprov Hparse Hshape Hban Hspeak Hrefl.
  unfold generateJournalPatterns, runOnce, callProvider, bind, ret.
  rewrite Hgate, Hkey. cbn [negb]. rewrite Hname, Hprov. cbn [negb].
  rewrite Hparse.
  assert (Hj : j <> JNull).
  { intros ->. simpl in Hshape. discriminate. }
  destruct j; try congruence; rewrite Hshape;
    unfold sanitizeOutput; rewrite Hban;
    destruct (negb (truthy (trim _))); rewrite Hspeak; simpl; rewrite Hrefl;
    simpl; eexists _, _; repeat split; reflexivity.
Qed.

End GeneratorFacts.

(** ** The generator on the sample data *)

Lemma gate_rejects_few_entries_witness :
  length (nonVentOf Sample.thin) < 4
  /\ exists v,
       generateJournalPatterns codeUnitCompare asciiLower Sample.noModel
         Sample.apiKey Sample.listing (Sample.answering Sample.replyNoRange)
         Sample.thin true Sample.idle = (Ok v, Sample.idle)
       /\ shouldSpeak v = false
       /\ (true = true ->
           exists d, debug v = Some d /\ attempted d = false
                     /\ reason d = not_enough_entries)
       /\ (true = false -> debug v = None).
Proof.
  split; [simpl; lia|].
  apply (gate_rejects_few_entries codeUnitCompare asciiLower Sample.noModel
           Sample.apiKey Sample.listing (Sample.answering Sample.replyNoRange)
           Sample.thin true Sample.idle).
  simpl. lia.
Defined.

Lemma result_nulls_witness :
  invitation Sample.spokenPadded = None
  /\ (shouldSpeak Sample.spokenPadded = false
      <-> reflection Sample.spokenPadded = None)
  /\ (shouldSpeak Sample.spokenPadded = false
      -> timeRange Sample.spokenPadded = None)
  /\ (shouldSpeak Sample.spokenPadded = true ->
      exists name net1 chunks parts responseText fin j data d,
        resolveModelName Sample.noModel Sample.apiKey Sample.listing Sample.idle
        = (name, net1)
        /\ Sample.answering Sample.replyPadded name
             (buildGeminiRequest (sortByDate codeUnitCompare Sample.week))
           = Responded chunks parts responseText fin
        /\ parseBestJsonFromModelText (replyText chunks parts responseText) = Some j
        /\ modelResponseSchema_safeParse j = Some data
        /\ computeSpanDays (nonVentOf (sortByDate codeUnitCompare Sample.week))
           = Some d
        /\ ((timeRange Sample.spokenPadded = Some (phraseOfSpan d)
             /\ (reflection Sample.spokenPadded
                 = Some (phraseOfSpan d ++ sentenceWhenBanned)
                 \/ reflection Sample.spokenPadded
                    = Some (phraseOfSpan d ++ sentenceWhenSilent)))
            \/ (mr_shouldSpeak data = true
                /\ reflection Sample.spokenPadded
                   = Some (trim (orEmpty (mr_reflection data)))
                /\ timeRange Sample.spokenPadded
                   = trimmedOrNull (mr_timeRange data)))).
Proof.
  apply (result_nulls codeUnitCompare asciiLower Sample.noModel Sample.apiKey
           Sample.listing (Sample.answering Sample.replyPadded) Sample.week
           false Sample.idle Sample.spokenPadded Sample.weekNet).
  vm_compute. reflexivity.
Defined.

(** C3, the claim as stated fails: for a reply that speaks and whose time
    range is null, the value speaks and its time range is null. *)
Lemma speaks_with_null_time_range :
  generateJournalPatterns codeUnitCompare asciiLower Sample.noModel
    Sample.apiKey Sample.listing (Sample.answering Sample.replyNoRange)
    Sample.week false Sample.idle
  = (Ok Sample.spokenNoRange, Sample.weekNet)
  /\ shouldSpeak Sample.spokenNoRange = true
  /\ timeRange Sample.spokenNoRange = None
  /\ ~ (shouldSpeak Sample.spokenNoRange = true
        -> reflection Sample.spokenNoRange <> None
           /\ timeRange Sample.spokenNoRange <> None).
Proof.
  split; [vm_compute; reflexivity|].
  split; [reflexivity|]. split; [reflexivity|].
  intros H. destruct (H eq_refl) as [_ H']. apply H'. reflexivity.
Qed.

Lemma banned_reply_is_replaced_witness :
  exists v net' d,
    generateJournalPatterns codeUnitCompare asciiLower Sample.noModel
      Sample.apiKey Sample.listing (Sample.answering Sample.replyBanned)
      Sample.week true Sample.idle
    = (Ok v, net')
    /\ shouldSpeak v = true
    /\ themes v = []
    /\ invitation v = None
    /\ computeSpanDays (nonVentOf (sortByDate codeUnitCompare Sample.week)) = Some d
    /\ timeRange v = Some (phraseOfSpan d)
    /\ reflection v = Some (phraseOfSpan d ++ sentenceWhenBanned)
    /\ (true = false -> debug v = None)
    /\ (true = true ->
        exists r, debug v = Some r /\ reason r = banned_language
                  /\ outputPreview r
                     = Some (slice (stripCodeFences
                                      (replyText [Some Sample.replyBanned] None
                                         Sample.replyBanned)) 0 600)).
Proof.
  eapply (banned_reply_is_replaced codeUnitCompare asciiLower Sample.noModel
            Sample.apiKey Sample.listing (Sample.answering Sample.replyBanned)
            asciiLower_blank Sample.week true Sample.idle Sample.model
            {| calls := [ListModels]; cachedModelName := Some Sample.model |}
            [Some Sample.replyBanned] None Sample.replyBanned
            (Some (js "STOP"))).
  - vm_compute. reflexivity.
  - vm_compute. reflexivity.
  - vm_compute. reflexivity.
  - reflexivity.
  - vm_compute. reflexivity.
  - vm_compute. reflexivity.
  - exists (js "you should"), [], (js " rest more." ++ [newline] ++ js "tired").
    split; [vm_compute; tauto | vm_compute; reflexivity].
Defined.

(** C8, the claim as stated fails in debug mode: for a reply whose
    reflection has a banned phrase in it, the preview of the debug record
    is the reply itself, the banned sentence included. *)
Lemma banned_text_in_debug_preview :
  exists v net' r,
    generateJournalPatterns codeUnitCompare asciiLower Sample.noModel
      Sample.apiKey Sample.listing (Sample.answering Sample.replyBanned)
      Sample.week true Sample.idle
    = (Ok v, net')
    /\ debug v = Some r
    /\ outputPreview r = Some Sample.replyBanned
    /\ includes Sample.replyBanned (js "You should rest more.") = true.
Proof.
  eexists _, _, _. split; [vm_compute; reflexivity|].
  split; [reflexivity|]. split; vm_compute; reflexivity.
Qed.

Lemma spoken_themes_witness :
  exists v net',
    generateJournalPatterns codeUnitCompare asciiLower Sample.noModel
      Sample.apiKey Sample.listing (Sample.answering Sample.replyFiveThemes)
      Sample.week false Sample.idle
    = (Ok v, net')
    /\ shouldSpeak v = true
    /\ reflection v = Some Sample.reflectionText
    /\ themes v = Sample.fiveThemes.
Proof.
  eapply (spoken_themes codeUnitCompare asciiLower Sample.noModel
            Sample.apiKey Sample.listing (Sample.answering Sample.replyFiveThemes)
            Sample.week false Sample.idle Sample.model _
            [Some Sample.replyFiveThemes] None Sample.replyFiveThemes
            (Some (js "STOP")) _
            {| mr_shouldSpeak := true;
               mr_timeRange := Some (js "over the past week");
               mr_reflection := Some Sample.reflectionText;
               mr_themes := [js "tired"; js "tired"; js " sleep "; js "work";
                             js "night"];
               mr_invitation := None |}).
  - vm_compute. reflexivity.
  - vm_compute. reflexivity.
  - vm_compute. reflexivity.
  - reflexivity.
  - vm_compute. reflexivity.
  - vm_compute. reflexivity.
  - vm_compute. reflexivity.
  - reflexivity.
  - vm_compute. reflexivity.
Defined.

(** C10, the claim as stated fails: a reply that passes every check with
    five themes, one of them repeated, is delivered with the five themes
    and the repetition. *)
Lemma themes_repeated_and_more_than_three :
  generateJournalPatterns codeUnitCompare asciiLower Sample.noModel
    Sample.apiKey Sample.listing (Sample.answering Sample.replyFiveThemes)
    Sample.week false Sample.idle
  = (Ok Sample.spokenFive, Sample.weekNet)
  /\ themes Sample.spokenFive = Sample.fiveThemes
  /\ ~ List.NoDup (themes Sample.spokenFive)
  /\ ~ length (themes Sample.spokenFive) <= 3.
Proof.
  split; [vm_compute; reflexivity|]. split; [reflexivity|]. split.
  - intros H. inversion H as [|x l Hn _]. apply Hn. left. reflexivity.
  - simpl. lia.
Qed.

(** * Properties of the route *)

Section HandlerFacts.

Variable localeCompare : jstring -> jstring -> Z.
Variable toLowerCase : jstring -> jstring.
Variable GEMINI_MODEL : option jstring.
Variable GEMINI_API_KEY : option jstring.
Variable listModels : ListOutcome.
Variable provider : jstring -> PromptRequest -> ProviderOutcome.
Variable production : bool.
Variable clock : nat -> Z.
Variable getUser : jstring -> AuthOutcome.
Variable selectEntries : jstring -> jstring -> DbOutcome.

Local Abbreviation handle :=
  (GET localeCompare toLowerCase GEMINI_MODEL GEMINI_API_KEY listModels
     provider production clock getUser selectEntries).

(** C4, as amended. On a request without a forced refresh, when the user
    has a cache entry whose fingerprint is that of the current rows and
    whose age is between zero and the five minutes of the TTL, the model
    client is not called and the cache is left as it is; without debug the
    body is the cached value and nothing else, with debug it is the cached
    value together with [debugMeta] and [cacheMeta]. *)
Theorem cache_hit_serves_cached req w token uid data cached :
  isOne (q_refresh req) = false ->
  getBearerToken req = Some token ->
  getUser token = AuthUser (Some uid) ->
  selectEntries token uid = DbRows data ->
  patternsCacheByUser w !! uid = Some cached ->
  fingerprint cached = computeEntriesFingerprint (default [] data) ->
  (0 <= clock (clockReads w) - atMs cached <= CACHE_TTL_MS)%Z ->
  exists response w',
    handle req w = (response, w')
    /\ net w' = net w
    /\ patternsCacheByUser w' = patternsCacheByUser w
    /\ httpStatus response = 200%Z
    /\ (negb production && isOne (q_debug req) = false ->
        payload response = PatternsBody (value cached) None None)
    /\ (negb production && isOne (q_debug req) = true ->
        payload response
        = PatternsBody (value cached) (Some (countsOf (default [] data)))
            (Some {| servedFromCache := true;
                     ageSeconds := (clock (clockReads w) - atMs cached) / 1000;
                     entriesFingerprint := Some (fingerprint cached) |})).
Proof.
  intros Hre Htok Huser Hrows Hc Hfp [Hlo Hhi].
  unfold GET, fastPath. rewrite Htok, Huser, Hrows, Hre. cbn [negb].
  rewrite Hc. cbn [Date_now]. rewrite Hfp.
  rewrite bool_decide_eq_true_2 by reflexivity.
  unfold fresh.
  apply Z.leb_le in Hlo, Hhi. rewrite Hlo, Hhi. cbn [andb].
  eexists _, _. split; [reflexivity|].
  unfold serveCached.
  destruct (negb production && isOne (q_debug req)); cbn;
    repeat split; try discriminate; now rewrite Hfp.
Qed.

(** When the generator went silent and the user has a cache entry that is
    at most five minutes old, that entry's value is served and the cache
    is left as it is. *)
Lemma silence_falls_back dbgFlag uid v dm w cached :
  isEmptySilence v = true ->
  patternsCacheByUser w !! uid = Some cached ->
  (0 <= clock (clockReads w) - atMs cached <= CACHE_TTL_MS)%Z ->
  exists response w',
    silenceFallback clock dbgFlag uid v dm w = (Some response, w')
    /\ patternsCacheByUser w' = patternsCacheByUser w
    /\ net w' = net w
    /\ (dbgFlag = false ->
        payload response = PatternsBody (value cached) None None).
Proof.
  intros Hs Hc [Hlo Hhi]. unfold silenceFallback. rewrite Hs, Hc.
  cbn [Date_now]. unfold fresh.
  apply Z.leb_le in Hlo, Hhi. rewrite Hlo, Hhi. cbn [andb].
  eexists _, _. split; [reflexivity|]. repeat split.
  intros ->. reflexivity.
Qed.

(** When there is no entry to fall back on, the route goes on and caches
    what the generator returned, silent or not. *)
Lemma silence_without_cache dbgFlag uid v dm w :
  patternsCacheByUser w !! uid = None ->
  silenceFallback clock dbgFlag uid v dm w = (None, w).
Proof.
  intros Hc. unfold silenceFallback. rewrite Hc.
  destruct (isEmptySilence v); reflexivity.
Qed.

(** For a user without a cache entry, whatever value the generator
    returns is stored under the fingerprint of the rows, a silent value
    like any other. *)
Lemma uncached_result_is_stored req w token uid data v net' :
  getBearerToken req = Some token ->
  getUser token = AuthUser (Some uid) ->
  selectEntries token uid = DbRows data ->
  patternsCacheByUser w !! uid = None ->
  generateJournalPatterns localeCompare toLowerCase GEMINI_MODEL
    GEMINI_API_KEY listModels provider
    (rev (List.map toEntry (default [] data)))
    (negb production && isOne (q_debug req)) (net w) = (Ok v, net') ->
  exists response w',
    handle req w = (response, w')
    /\ net w' = net'
    /\ patternsCacheByUser w' !! uid
       = Some {| atMs := clock (clockReads w);
                 fingerprint := computeEntriesFingerprint (default [] data);
                 value := v |}.
Proof.
  intros Htok Huser Hrows Hc Hgen.
  unfold GET, fastPath. rewrite Htok, Huser, Hrows, Hc.
  destruct (negb (isOne (q_refresh req))); rewrite Hgen;
    rewrite silence_without_cache by exact Hc;
    cbn [Date_now patternsCacheByUser net clockReads];
    eexists _, _; (split; [reflexivity|]); cbn [patternsCacheByUser net];
    (split; [reflexivity|]); apply lookup_insert_eq.
Qed.

End HandlerFacts.

Lemma cache_hit_serves_cached_witness :
  exists response w',
    GET codeUnitCompare asciiLower Sample.noModel Sample.apiKey
      Sample.listing (Sample.answering Sample.replyNoRange) true Sample.clock
      Sample.getUser Sample.selectEntries (Sample.request None)
      Sample.cachedWorld = (response, w')
    /\ net w' = net Sample.cachedWorld
    /\ patternsCacheByUser w' = patternsCacheByUser Sample.cachedWorld
    /\ httpStatus response = 200%Z
    /\ (negb true && isOne (q_debug (Sample.request None)) = false ->
        payload response = PatternsBody (value Sample.cachedEntry) None None)
    /\ (negb true && isOne (q_debug (Sample.request None)) = true ->
        payload response
        = PatternsBody (value Sample.cachedEntry)
            (Some (countsOf (default [] (Some Sample.rows))))
            (Some {| servedFromCache := true;
                     ageSeconds := (Sample.clock (clockReads Sample.cachedWorld)
                                    - atMs Sample.cachedEntry) / 1000;
                     entriesFingerprint :=
                       Some (fingerprint Sample.cachedEntry) |})).
Proof.
  eapply (cache_hit_serves_cached codeUnitCompare asciiLower Sample.noModel
            Sample.apiKey Sample.listing
            (Sample.answering Sample.replyNoRange) true
            Sample.clock Sample.getUser Sample.selectEntries
            (Sample.request None) Sample.cachedWorld (js "token-1")
            Sample.user (Some Sample.rows) Sample.cachedEntry).
  - reflexivity.
  - vm_compute. reflexivity.
  - reflexivity.
  - reflexivity.
  - vm_compute. reflexivity.
  - reflexivity.
  - vm_compute. split; discriminate.
Defined.

(** C4, the claim as stated fails: on a debug request the body served from
    the cache is not the cached value alone, two members are added. *)
Lemma debug_hit_is_not_verbatim :
  exists dm cm w',
    GET codeUnitCompare asciiLower Sample.noModel Sample.apiKey
      Sample.listing (Sample.answering Sample.replyNoRange) false Sample.clock
      Sample.getUser Sample.selectEntries (Sample.request (Some (js "1")))
      Sample.cachedWorld
    = ({| httpStatus := 200;
          payload := PatternsBody Sample.goodValue (Some dm) (Some cm) |}, w')
    /\ net w' = Sample.idle
    /\ PatternsBody Sample.goodValue (Some dm) (Some cm)
       <> PatternsBody Sample.goodValue None None.
Proof.
  eexists _, _, _. split; [vm_compute; reflexivity|].
  split; [reflexivity | discriminate].
Qed.

(** C2, the code caches a silent outcome: for a user with two entries and
    no cache entry, the generator goes silent without a call and the route
    stores that silent value in the cache. *)
Theorem silent_outcome_is_cached :
  exists response w' cached,
    GET codeUnitCompare asciiLower Sample.noModel Sample.apiKey
      Sample.listing (Sample.answering Sample.replyNoRange) true Sample.clock
      Sample.getUser Sample.selectEntries (Sample.request None)
      Sample.emptyWorld = (response, w')
    /\ net w' = Sample.idle
    /\ patternsCacheByUser w' !! Sample.user = Some cached
    /\ value cached = silent None
    /\ isEmptySilence (value cached) = true.
Proof.
  eexists _, _, _. split; [vm_compute; reflexivity|].
  split; [reflexivity|]. split; [vm_compute; reflexivity|].
  split; reflexivity.
Qed.

(** The same happens to a good entry that has expired: the silent value
    takes its place. *)
Lemma stale_entry_is_overwritten_by_silence :
  exists response w' cached,
    GET codeUnitCompare asciiLower Sample.noModel Sample.apiKey
      Sample.listing (Sample.answering Sample.replyNoRange) true Sample.clock
      Sample.getUser Sample.selectEntries (Sample.request None)
      Sample.staleWorld = (response, w')
    /\ patternsCacheByUser Sample.staleWorld !! Sample.user
       = Some Sample.staleEntry
    /\ isEmptySilence (value Sample.staleEntry) = false
    /\ patternsCacheByUser w' !! Sample.user = Some cached
    /\ isEmptySilence (value cached) = true.
Proof.
  eexists _, _, _. split; [vm_compute; reflexivity|].
  split; [vm_compute; reflexivity|]. split; [reflexivity|].
  split; [vm_compute; reflexivity | reflexivity].
Qed.

(** * Further properties of the parsing of replies *)

(** ** White space *)

Lemma trimStart_suffix (s : jstring) : exists pre, s = pre ++ trimStart s.
Proof.
  induction s as [|c tl [pre IH]]; [now exists []|].
  cbn [trimStart]. destruct (isWhite c).
  - exists (c :: pre). cbn. now rewrite <- IH.
  - now exists [].
Qed.

Lemma trimStart_fixed (s : jstring) :
  match s with c :: _ => isWhite c = false | [] => True end -> trimStart s = s.
Proof. destruct s as [|c tl]; [reflexivity|]. cbn. now intros ->. Qed.

(** Trimming a trimmed string changes nothing. *)
Lemma trim_idem (s : jstring) : trim (trim s) = trim s.
Proof.
  change (trim s) with (rev (trimStart (rev (trimStart s)))).
  destruct (trimStart_suffix (rev (trimStart s))) as [pre Hpre].
  destruct (trimStart (rev (trimStart s))) as [|c tl] eqn:Eu; [reflexivity|].
  pose proof (trimStart_head _ _ _ Eu) as Hc.
  assert (Ht : trimStart s = rev (c :: tl) ++ rev pre).
  { rewrite <- rev_app_distr, <- Hpre, rev_involutive. reflexivity. }
  unfold trim, trimEnd.
  assert (Hs : trimStart (rev (c :: tl)) = rev (c :: tl)).
  { apply trimStart_fixed.
    destruct (rev (c :: tl)) as [|h r] eqn:Er.
    - exact I.
    - cbn in Ht. exact (trimStart_head _ _ _ Ht). }
  rewrite Hs, rev_involutive. cbn [trimStart]. rewrite Hc. reflexivity.
Qed.

(** A string that trimming leaves alone has no white space at either end. *)
Lemma trim_ends (s : jstring) :
  trim s = s -> trimStart s = s /\ trimStart (rev s) = rev s.
Proof.
  intros H.
  destruct (trimStart_suffix s) as [pre1 H1].
  destruct (trimStart_suffix (rev (trimStart s))) as [pre2 H2].
  assert (E : trim s = rev (trimStart (rev (trimStart s)))) by reflexivity.
  rewrite H in E.
  assert (L1 : length s = length pre1 + length (trimStart s))
    by (rewrite H1 at 1; apply length_app).
  assert (L2 : length (trimStart s)
               = length pre2 + length (trimStart (rev (trimStart s)))).
  { rewrite <- (length_rev (trimStart s)). rewrite H2 at 1. apply length_app. }
  assert (L3 : length s = length (trimStart (rev (trimStart s)))).
  { rewrite E at 1. apply length_rev. }
  assert (P1 : pre1 = []) by (destruct pre1; [reflexivity | cbn in L1; lia]).
  assert (P2 : pre2 = []) by (destruct pre2; [reflexivity | cbn in L2; lia]).
  subst. cbn [app] in H1, H2. split; [now symmetry|].
  rewrite <- H1 in H2. now symmetry.
Qed.

Lemma trim_fixed (s : jstring) :
  trimStart s = s -> trimStart (rev s) = rev s -> trim s = s.
Proof.
  intros H1 H2. unfold trim, trimEnd. rewrite H1, H2. apply rev_involutive.
Qed.

Lemma trimStart_app_fixed (a t : jstring) :
  a <> [] -> trimStart a = a -> trimStart (a ++ t) = a ++ t.
Proof.
  destruct a as [|c a]; [congruence|]. intros _ H.
  pose proof (trimStart_head _ _ _ H) as Hc. cbn. now rewrite Hc.
Qed.

Lemma trim_app_fixed (a t : jstring) :
  a <> [] -> t <> [] -> trim a = a -> trim t = t -> trim (a ++ t) = a ++ t.
Proof.
  intros Ha Ht [A1 A2]%trim_ends [T1 T2]%trim_ends.
  apply trim_fixed.
  - now apply trimStart_app_fixed.
  - rewrite rev_app_distr. apply trimStart_app_fixed; [|exact T2].
    intros E. apply Ht. rewrite <- (rev_involutive t), E. reflexivity.
Qed.

(** The trimmed string is a part of the string. *)
Lemma trim_infix (s : jstring) : exists pre post, s = pre ++ trim s ++ post.
Proof.
  destruct (trimStart_suffix s) as [p1 H1].
  destruct (trimStart_suffix (rev (trimStart s))) as [p2 H2].
  exists p1, (rev p2). unfold trim, trimEnd.
  rewrite <- rev_app_distr, <- H2, rev_involutive. exact H1.
Qed.

Lemma In_trim x (s : jstring) : In x (trim s) -> In x s.
Proof.
  destruct (trim_infix s) as (pre & post & H). intros Hin. rewrite H.
  apply in_or_app. right. apply in_or_app. now left.
Qed.

Lemma In_slice {A} (x : A) s a b : In x (slice s a b) -> In x s.
Proof.
  unfold slice. intros H. rewrite <- (firstn_skipn a s).
  apply in_or_app. right.
  rewrite <- (firstn_skipn (b - a) (skipn a s)). apply in_or_app. now left.
Qed.

(** ** What a match consumes *)

(** A successful run has called its continuation on a state that is
    reached by taking some code units off the subject, at least [minLen]
    of them. *)
Lemma run_consumes r : forall k st m,
  run r k st = Some m ->
  exists st' consumed,
    k st' = Some m
    /\ m_rest st = consumed ++ m_rest st'
    /\ m_pos st' = m_pos st + length consumed
    /\ minLen r <= length consumed.
Proof.
  induction r as [|p|a IHa b IHb|a IHa|i a IHa| | |]; intros k st m;
    cbn [run minLen].
  - intros H. exists st, []. split; [exact H|]. cbn. split; [reflexivity|lia].
  - destruct (m_rest st) as [|c tl]; [discriminate|].
    destruct (p c); [|discriminate]. intros H.
    eexists _, [c]. split; [exact H|]. cbn. split; [reflexivity|lia].
  - intros H. apply IHa in H as (st1 & c1 & H & R1 & P1 & M1).
    apply IHb in H as (st2 & c2 & H & R2 & P2 & M2).
    exists st2, (c1 ++ c2). split; [exact H|]. split.
    + now rewrite R1, R2, app_assoc.
    + rewrite length_app. lia.
  - generalize (S (length (m_rest st))). intros fuel. revert st.
    induction fuel as [|f IHf]; intros st H; cbn [star_loop] in H.
    + exists st, []. split; [exact H|]. cbn. split; [reflexivity|lia].
    + destruct (run a _ st) as [out|] eqn:R.
      * injection H as ->. apply IHa in R as (st1 & c1 & R & R1 & P1 & _).
        destruct (Nat.ltb (m_pos st) (m_pos st1)); [|discriminate].
        apply IHf in R as (st2 & c2 & R & R2 & P2 & _).
        exists st2, (c1 ++ c2). split; [exact R|]. split.
        -- now rewrite R1, R2, app_assoc.
        -- rewrite length_app. lia.
      * exists st, []. split; [exact H|]. cbn. split; [reflexivity|lia].
  - intros H. apply IHa in H as (st1 & c1 & H & R1 & P1 & M1).
    eexists _, c1. split; [exact H|]. auto.
  - destruct (xorb _ _); [|discriminate]. intros H.
    exists st, []. split; [exact H|]. cbn. split; [reflexivity|lia].
  - destruct (Nat.eqb _ _); [|discriminate]. intros H.
    exists st, []. split; [exact H|]. cbn. split; [reflexivity|lia].
  - destruct (m_rest st) eqn:E; [|discriminate]. intros H.
    exists st, []. split; [exact H|]. cbn. split; [now rewrite E|lia].
Qed.

(** The first match is a match at some position of the subject. *)
Lemma search_exec r : forall s prev pos start m,
  search r prev pos s = Some (start, m) ->
  exists before s' prev',
    s = before ++ s' /\ start = pos + length before
    /\ exec_at r prev' start s' = Some m.
Proof.
  induction s as [|c tl IH]; intros prev pos start m; cbn [search].
  - destruct (exec_at r prev pos []) as [m'|] eqn:E; [|discriminate].
    intros [= <- <-]. exists [], [], prev. cbn. split; [reflexivity|].
    split; [lia|exact E].
  - destruct (exec_at r prev pos (c :: tl)) as [m'|] eqn:E.
    + intros [= <- <-]. exists [], (c :: tl), prev. cbn. split; [reflexivity|].
      split; [lia|exact E].
    + intros H. apply IH in H as (before & s' & prev' & -> & -> & H).
      exists (c :: before), s', prev'. cbn. split; [reflexivity|].
      split; [lia|].
      replace (pos + S (length before)) with (S pos + length before) by lia.
      exact H.
Qed.

(** Replacing the first match by nothing leaves what is before and what
    is after the match. *)
Lemma replaceFirst_erase r s :
  exists before consumed rest,
    s = before ++ consumed ++ rest
    /\ replaceFirst r (fun _ _ => []) s = before ++ rest.
Proof.
  unfold replaceFirst. destruct (search r None 0 s) as [[start m]|] eqn:E.
  - apply search_exec in E as (before & s' & prev' & -> & -> & E).
    unfold exec_at in E.
    apply run_consumes in E as (st' & cons & [= ->] & R & _). cbn [m_rest] in R.
    exists before, cons, (m_rest m). split; [now rewrite R|].
    cbn [Nat.add app]. rewrite take_app_length. reflexivity.
  - exists s, [], []. now rewrite !app_nil_r.
Qed.

(** An expression that is anchored at the start matches at the start or
    not at all. *)
Lemma search_Bol_later r : forall s prev pos,
  0 < pos -> search (Seq Bol r) prev pos s = None.
Proof.
  induction s as [|c tl IH]; intros prev pos Hp; cbn [search];
    unfold exec_at; rewrite run_Seq; cbn [run m_pos];
    destruct (Nat.eqb_spec pos 0); try lia; try reflexivity.
  apply IH. lia.
Qed.

Lemma match_Bol r s :
  match_ (Seq Bol r) s
  = match exec_at (Seq Bol r) None 0 s with
    | Some m => Some (m_caps m)
    | None => None
    end.
Proof.
  unfold match_. destruct s as [|c tl]; cbn [search];
    destruct (exec_at (Seq Bol r) None 0 _); try reflexivity.
  now rewrite search_Bol_later by lia.
Qed.

(** ** Fences *)

Lemma indexOf_go_skip (a s : jstring) b needle i :
  ~ In b a -> indexOf_go (a ++ s) (b :: needle) i
              = indexOf_go s (b :: needle) (i + length a).
Proof.
  revert i. induction a as [|c a IH]; intros i Hno.
  - cbn [app length]. now rewrite Nat.add_0_r.
  - cbn [app indexOf_go startsWith].
    destruct (N.eqb_spec b c) as [->|Hne]; [exfalso; apply Hno; now left|].
    cbn [andb]. rewrite IH by (intros H; apply Hno; now right).
    cbn [length]. f_equal. lia.
Qed.

Lemma indexOf_go_none (s : jstring) b needle i :
  ~ In b s -> indexOf_go s (b :: needle) i = None.
Proof.
  revert i. induction s as [|c s IH]; intros i Hno; [reflexivity|].
  cbn [indexOf_go startsWith].
  destruct (N.eqb_spec b c) as [->|Hne]; [exfalso; apply Hno; now left|].
  cbn [andb]. apply IH. intros H. apply Hno. now right.
Qed.

Lemma indexOf_go_skip_fence (a s : jstring) i :
  ~ In backtick a -> indexOf_go (a ++ s) fence i = indexOf_go s fence (i + length a).
Proof. exact (indexOf_go_skip a s backtick [backtick; backtick] i). Qed.

Lemma indexOf_go_no_fence (s : jstring) i :
  ~ In backtick s -> indexOf_go s fence i = None.
Proof. exact (indexOf_go_none s backtick [backtick; backtick] i). Qed.

(** A text without a backtick has no fence and is trimmed, no more. *)
Lemma text_without_fence_is_trimmed text :
  ~ In backtick text -> stripCodeFences text = trim text.
Proof.
  intros Hno. unfold stripCodeFences, indexOf.
  cbn [Nat.min skipn].
  rewrite indexOf_go_no_fence by exact Hno. reflexivity.
Qed.

(** Every code unit of the stripped text is one of the text. *)
Lemma In_stripCodeFences x text : In x (stripCodeFences text) -> In x text.
Proof.
  unfold stripCodeFences. repeat case_match; intros Hx%In_trim; try exact Hx.
  destruct (replaceFirst_erase reJsonTag
              (slice text (Z.to_nat (indexOf text fence 0 + 3))
                 (Z.to_nat (indexOf text fence (Z.to_nat (indexOf text fence 0 + 3))))))
    as (before & cons & rest & Hs & Hr).
  rewrite Hr in Hx. eapply In_slice. rewrite Hs.
  apply in_app_or in Hx as [Hx|Hx]; apply in_or_app; [now left|right].
  apply in_or_app. now right.
Qed.

(** X14. Whatever the text, what [stripCodeFences] returns has no white
    space at its start or at its end: trimming it again changes nothing. *)
Theorem stripCodeFences_is_trimmed text :
  trim (stripCodeFences text) = stripCodeFences text.
Proof. unfold stripCodeFences. repeat case_match; apply trim_idem. Qed.

(** X15. When the text has a fenced block, that is, some text without a
    backtick, a fence, an inside without a backtick, a fence, and anything
    after it, [stripCodeFences] returns the inside with a leading json tag
    removed, trimmed; what is before the first fence and after the second
    is dropped. *)
Theorem fenced_block_is_taken pre inside post :
  ~ In backtick pre -> ~ In backtick inside ->
  stripCodeFences (pre ++ fence ++ inside ++ fence ++ post)
  = trim (replaceFirst reJsonTag (fun _ _ => []) inside).
Proof.
  intros Hpre Hin. unfold stripCodeFences.
  assert (H1 : indexOf (pre ++ fence ++ inside ++ fence ++ post) fence 0
               = Z.of_nat (length pre)).
  { unfold indexOf. cbn [Nat.min]. rewrite drop_0.
    rewrite indexOf_go_skip_fence by exact Hpre.
    rewrite indexOf_go_here. reflexivity. }
  rewrite H1.
  replace (Z.to_nat (Z.of_nat (length pre) + 3)) with (length pre + 3) by lia.
  assert (Hskip : skipn (length pre + 3) (pre ++ fence ++ inside ++ fence ++ post)
                  = inside ++ fence ++ post).
  { rewrite Nat.add_comm, <- skipn_skipn, skipn_app, skipn_all, Nat.sub_diag.
    reflexivity. }
  assert (H2 : indexOf (pre ++ fence ++ inside ++ fence ++ post) fence
                 (length pre + 3)
               = Z.of_nat (length pre + 3 + length inside)).
  { unfold indexOf.
    replace (Nat.min (length pre + 3)
               (length (pre ++ fence ++ inside ++ fence ++ post)))
      with (length pre + 3).
    2:{ rewrite !length_app. change (length fence) with 3. lia. }
    rewrite Hskip.
    rewrite indexOf_go_skip_fence by exact Hin.
    rewrite indexOf_go_here. reflexivity. }
  rewrite H2.
  destruct (Z.eqb_spec (Z.of_nat (length pre)) (-1)); [lia|].
  destruct (Z.eqb_spec (Z.of_nat (length pre + 3 + length inside)) (-1)); [lia|].
  unfold slice. rewrite Nat2Z.id, Hskip.
  replace (length pre + 3 + length inside - (length pre + 3)) with (length inside)
    by lia.
  rewrite take_app_length. reflexivity.
Qed.

Lemma fenced_block_is_taken_witness :
  stripCodeFences (Sample.fencedIntro ++ fence ++ Sample.fencedInside ++ fence
                   ++ Sample.fencedOutro)
  = trim (replaceFirst reJsonTag (fun _ _ => []) Sample.fencedInside)
  /\ trim (replaceFirst reJsonTag (fun _ _ => []) Sample.fencedInside) = js "{a}".
Proof.
  split; [|vm_compute; reflexivity].
  apply (fenced_block_is_taken Sample.fencedIntro Sample.fencedInside
           Sample.fencedOutro).
  - vm_compute. intuition discriminate.
  - vm_compute. intuition discriminate.
Defined.

(** ** The shape of the candidates *)

Lemma groupAt_closed text start p :
  groupAt text start = Some p -> exists mid, p = ch "{" :: mid ++ [ch "}"].
Proof.
  unfold groupAt. destruct (drop start text) as [|c tl] eqn:Hd; [discriminate|].
  destruct (N.eqb_spec c (ch "{")) as [->|]; [|discriminate].
  rewrite firstZero_cons.
  change (snd (sstep (Normal, 0%Z) (ch "{"))) with 1%Z.
  change (sstep (Normal, 0%Z) (ch "{")) with (Normal, 1%Z).
  cbn [Z.eqb].
  destruct (firstZero (Normal, 1%Z) tl) as [k|] eqn:F; [|discriminate].
  cbn [option_map]. intros [= <-].
  destruct (firstZero_closes tl Normal 1 k ltac:(lia) F) as [pre Hpre].
  exists pre. cbn [take]. now rewrite Hpre.
Qed.

Lemma candidate_of_group text c :
  In c (extractJsonObjects text) ->
  exists start, start < length text /\ groupAt text start = Some c.
Proof.
  unfold extractJsonObjects. rewrite (extract_from_groups text 0 text eq_refl).
  intros H. apply list_elem_of_In, list_elem_of_omap in H as (i & Hi & Hg).
  exists i. split; [|exact Hg].
  apply list_elem_of_In, in_seq in Hi. lia.
Qed.

(** A group is a part of the text. *)
Lemma group_in_text text start p x :
  groupAt text start = Some p -> In x p -> In x text.
Proof.
  intros (Hp & _)%groupAt_shortest Hin. rewrite Hp in Hin.
  rewrite <- (take_drop start text). apply in_or_app. right.
  rewrite <- (take_drop (length p) (drop start text)).
  apply in_or_app. now left.
Qed.

(** X11. Every candidate that [extractJsonObjects] returns begins with an
    opening brace, ends with a closing brace, is a contiguous part of the
    text, and has its braces outside strings balanced. *)
Theorem candidates_are_braced_parts text c :
  In c (extractJsonObjects text) ->
  (exists mid, c = ch "{" :: mid ++ [ch "}"])
  /\ (exists pre post, text = pre ++ c ++ post)
  /\ depthAfter (Normal, 0%Z) c = 0%Z.
Proof.
  intros (start & Hs & Hg)%candidate_of_group.
  split; [exact (groupAt_closed _ _ _ Hg)|].
  apply groupAt_shortest in Hg as (Hp & _ & Hd & _).
  split; [|exact Hd].
  exists (take start text), (drop (length c) (drop start text)).
  rewrite Hp at 1. rewrite take_drop, take_drop. reflexivity.
Qed.

Lemma candidates_are_braced_parts_witness :
  (exists mid, Sample.nestedInner = ch "{" :: mid ++ [ch "}"])
  /\ (exists pre post, Sample.nested = pre ++ Sample.nestedInner ++ post)
  /\ depthAfter (Normal, 0%Z) Sample.nestedInner = 0%Z.
Proof.
  apply (candidates_are_braced_parts Sample.nested Sample.nestedInner).
  vm_compute. right. left. reflexivity.
Defined.

Lemma no_closing_brace_no_candidates text :
  ~ In (ch "}") text -> extractJsonObjects text = [].
Proof.
  intros Hno. destruct (extractJsonObjects text) as [|c l] eqn:E; [reflexivity|].
  exfalso. apply Hno.
  destruct (candidate_of_group text c) as (start & _ & Hg).
  { rewrite E. now left. }
  apply (group_in_text _ _ _ _ Hg).
  destruct (groupAt_closed _ _ _ Hg) as [mid ->].
  right. apply in_or_app. right. now left.
Qed.

(** X12. A reply that has no closing brace anywhere, as a reply cut off
    inside its object, gives no parsed value at all. *)
Theorem reply_without_closing_brace_does_not_parse text :
  ~ In (ch "}") text -> parseBestJsonFromModelText text = None.
Proof.
  intros Hno. unfold parseBestJsonFromModelText.
  rewrite no_closing_brace_no_candidates; [reflexivity|].
  intros H. apply Hno. exact (In_stripCodeFences _ _ H).
Qed.

Lemma reply_without_closing_brace_does_not_parse_witness :
  parseBestJsonFromModelText Sample.replyCut = None.
Proof.
  apply (reply_without_closing_brace_does_not_parse Sample.replyCut).
  vm_compute. intuition discriminate.
Defined.

(** What is returned for a reply is the parse of one of its candidates. *)
Lemma parseBest_from_candidate text v :
  parseBestJsonFromModelText text = Some v ->
  exists c, In c (extractJsonObjects (stripCodeFences text))
            /\ tryParseJsonLoose c = Some v.
Proof.
  rewrite parseBest_chosen. cbv zeta.
  set (cands := extractJsonObjects (stripCodeFences text)).
  destruct (List.find parsesAndMatches (rev cands)) as [c|] eqn:F.
  - apply find_some in F as [Hin _]. apply in_rev in Hin. intros Hp.
    exists c. split; [exact Hin|]. now rewrite <- (candidate_parsesTo _ _ Hin).
  - destruct (List.find parses cands) as [c|] eqn:F2; [|discriminate].
    apply find_some in F2 as [Hin _]. intros Hp.
    exists c. split; [exact Hin|]. now rewrite <- (candidate_parsesTo _ _ Hin).
Qed.

Lemma parseBest_object text v :
  parseBestJsonFromModelText text = Some v -> exists kv, v = JObject kv.
Proof.
  intros (c & Hin & Hp)%parseBest_from_candidate.
  destruct (candidate_brace _ _ Hin) as [tl ->].
  exact (tryParseJsonLoose_brace _ _ Hp).
Qed.

(** X13. Whatever [parseBestJsonFromModelText] returns for a reply is a
    JSON object, never an array, a string, a number, a boolean or null,
    and it is what the loose parser makes of one of the candidates of the
    stripped reply. *)
Theorem parsed_reply_is_an_object text v :
  parseBestJsonFromModelText text = Some v ->
  exists c kv,
    In c (extractJsonObjects (stripCodeFences text))
    /\ tryParseJsonLoose c = Some v
    /\ v = JObject kv.
Proof.
  intros (c & Hin & Hp)%parseBest_from_candidate.
  destruct (candidate_brace _ _ Hin) as [tl Hc].
  pose proof Hp as Hp'. rewrite Hc in Hp'.
  destruct (tryParseJsonLoose_brace _ _ Hp') as [kv Hv].
  exists c, kv. auto.
Qed.

Lemma parsed_reply_is_an_object_witness :
  exists c kv,
    In c (extractJsonObjects (stripCodeFences Sample.looseText))
    /\ tryParseJsonLoose c
       = Some (JObject [(js "label", JString (js "x"));
                        (js "score", JNumber 1 0)])
    /\ JObject [(js "label", JString (js "x")); (js "score", JNumber 1 0)]
       = JObject kv.
Proof.
  apply (parsed_reply_is_an_object Sample.looseText).
  vm_compute. reflexivity.
Defined.

(** ** Dates *)

Local Ltac settle :=
  cbn -[isDigit N.eqb ch Date_UTC digitsVal];
  repeat match goal with
         | H : _ = true |- _ => rewrite H
         | H : _ = false |- _ => rewrite H
         end;
  cbn -[isDigit N.eqb ch Date_UTC digitsVal];
  rewrite ?andb_false_r; try reflexivity.

Local Ltac decide_on b := destruct b eqn:?; [|settle].

(** X16. [parseIsoDate] accepts exactly the strings of ten code units
    made of four digits, a dash, two digits, a dash and two digits, and
    returns the time value of [Date.UTC] for the three numbers, the month
    lowered by one; it checks no range of the month or the day. *)
Theorem parseIsoDate_spec iso :
  parseIsoDate iso
  = match isoDateFields iso with
    | Some (y, m, d) => Some (Date_UTC (digitsVal y) (digitsVal m - 1) (digitsVal d))
    | None => None
    end.
Proof.
  unfold parseIsoDate.
  change reIsoDate
    with (Seq Bol (seqs [Group 1 (times 4 digit); chr "-"; Group 2 (times 2 digit);
                         chr "-"; Group 3 (times 2 digit); Eol])).
  rewrite match_Bol. unfold exec_at, isoDateFields.
  destruct iso as [|y1 [|y2 [|y3 [|y4 [|s1 [|m1 [|m2 [|s2 [|d1 [|d2 [|x tl]]]]]]]]]]];
    try (cbn -[isDigit N.eqb ch]; repeat case_match; simplify_eq; reflexivity).
  decide_on (isDigit y1). decide_on (isDigit y2). decide_on (isDigit y3).
  decide_on (isDigit y4). decide_on (N.eqb (ch "-") s1).
  decide_on (isDigit m1). decide_on (isDigit m2).
  decide_on (N.eqb (ch "-") s2).
  decide_on (isDigit d1). decide_on (isDigit d2). settle.
Qed.

(** * Further properties of the choice of the model *)

Lemma normalizeModelName_cases name :
  (trim name = [] /\ normalizeModelName name = [])
  \/ (trim name <> [] /\ startsWith (trim name) (js "models/") = true
      /\ normalizeModelName name = trim name)
  \/ (trim name <> [] /\ startsWith (trim name) (js "models/") = false
      /\ normalizeModelName name = js "models/" ++ trim name).
Proof.
  unfold normalizeModelName.
  destruct (trim name) as [|c tl] eqn:T; [left; auto|]. right.
  cbn [truthy negb].
  destruct (startsWith (c :: tl) (js "models/")) eqn:S; [left|right]; auto.
Qed.

(** X17. The normalised name of a model is empty, when the name is blank,
    or else begins with the prefix of model names; normalising it again
    changes nothing. *)
Theorem normalizeModelName_shape name :
  let n := normalizeModelName name in
  (n = [] \/ startsWith n (js "models/") = true)
  /\ (n = [] <-> trim name = [])
  /\ normalizeModelName n = n.
Proof.
  cbv zeta.
  destruct (normalizeModelName_cases name)
    as [[T ->]|[(T & S & ->)|(T & S & ->)]].
  - repeat split; auto.
  - split; [now right|]. split; [tauto|].
    destruct (normalizeModelName_cases (trim name))
      as [[T' _]|[(_ & _ & ->)|(_ & S' & _)]].
    + rewrite trim_idem in T'. contradiction.
    + apply trim_idem.
    + rewrite trim_idem in S'. congruence.
  - split; [right; apply startsWith_app|].
    split; [split; [discriminate|tauto]|].
    assert (F : trim (js "models/" ++ trim name) = js "models/" ++ trim name).
    { apply trim_app_fixed;
        [discriminate | exact T | reflexivity | apply trim_idem]. }
    destruct (normalizeModelName_cases (js "models/" ++ trim name))
      as [[T' _]|[(_ & _ & ->)|(_ & S' & _)]].
    + rewrite F in T'. discriminate.
    + exact F.
    + rewrite F, startsWith_app in S'. discriminate.
Qed.

Lemma firstPreferred_sound prefixes models name :
  firstPreferred prefixes models = Some name ->
  truthy name = true
  /\ exists m, In m models /\ lm_name m = Some name.
Proof.
  induction prefixes as [|p more IH]; [discriminate|]. cbn [firstPreferred].
  destruct (List.find _ models) as [hit|] eqn:F; [|exact IH].
  destruct (truthy (orEmpty (lm_name hit))) eqn:T; [|exact IH].
  intros [= <-]. split; [exact T|].
  apply find_some in F as [Hin _]. exists hit. split; [exact Hin|].
  destruct (lm_name hit); [reflexivity|discriminate].
Qed.

Lemma chooseModel_sound models :
  truthy (chooseModel models) = true
  /\ (chooseModel models = defaultModel
      \/ exists m, In m models /\ lm_generateContent m = true
                   /\ lm_name m = Some (chooseModel models)).
Proof.
  unfold chooseModel.
  set (sup := List.filter _ models).
  assert (Hsup : forall m, In m sup -> In m models /\ lm_generateContent m = true).
  { intros m [Hin Hc]%filter_In. split; [exact Hin|].
    now apply andb_true_iff in Hc as [Hc _]. }
  destruct (firstPreferred preferredPrefixes sup) as [name|] eqn:F.
  - apply firstPreferred_sound in F as (T & m & Hin & Hn).
    split; [exact T|]. right. exists m.
    destruct (Hsup m Hin). auto.
  - destruct sup as [|m sup'] eqn:E; cbn [head].
    + split; [reflexivity | now left].
    + destruct (truthy (orEmpty (lm_name m))) eqn:T.
      * split; [exact T|]. right. exists m.
        destruct (Hsup m (or_introl eq_refl)). repeat split; auto.
        destruct (lm_name m); [reflexivity|discriminate].
      * split; [reflexivity | now left].
Qed.

(** X18. The model chosen from a listing has a name that is not empty,
    and it is the default model or a listed model that supports the
    generation of content. *)
Theorem chosen_model_generates_content models :
  chooseModel models <> []
  /\ (chooseModel models = defaultModel
      \/ exists m, In m models /\ lm_generateContent m = true
                   /\ lm_name m = Some (chooseModel models)).
Proof.
  destruct (chooseModel_sound models) as [T H]. split; [|exact H].
  intros E. rewrite E in T. discriminate.
Qed.

Section ModelNameFacts.

Variable GEMINI_MODEL : option jstring.
Variable GEMINI_API_KEY : option jstring.
Variable listModels : ListOutcome.

(** X19. Resolving the name of the model a second time returns the same
    name and calls nothing; the first time either calls nothing or, when
    no model is configured and a key is, lists the models once and
    remembers the name. *)
Theorem model_name_is_resolved_once net0 name net1 :
  resolveModelName GEMINI_MODEL GEMINI_API_KEY listModels net0 = (name, net1) ->
  resolveModelName GEMINI_MODEL GEMINI_API_KEY listModels net1 = (name, net1)
  /\ (net1 = net0
      \/ (GEMINI_MODEL = None \/ GEMINI_MODEL = Some [])
         /\ truthy (orEmpty GEMINI_API_KEY) = true
         /\ calls net1 = calls net0 ++ [ListModels]
         /\ cachedModelName net1 = Some name).
Proof.
  unfold resolveModelName.
  destruct (truthy (orEmpty GEMINI_MODEL)) eqn:Hm.
  { intros [= <- <-]. auto. }
  destruct (truthy (orEmpty (cachedModelName net0))) eqn:Hc.
  { intros [= <- <-]. rewrite Hc. auto. }
  destruct (truthy (orEmpty GEMINI_API_KEY)) eqn:Hk; cbn [negb].
  2:{ intros [= <- <-]. rewrite Hc. auto. }
  intros [= <- <-]. cbn [cachedModelName orEmpty calls].
  assert (T : truthy (match listModels with
                      | Listed models => chooseModel models
                      | _ => defaultModel
                      end) = true).
  { destruct listModels; try reflexivity. apply chooseModel_sound. }
  rewrite T. split; [reflexivity|]. right.
  repeat split.
  destruct GEMINI_MODEL as [[|? ?]|]; auto. discriminate.
Qed.

End ModelNameFacts.

Lemma model_name_is_resolved_once_witness :
  resolveModelName Sample.noModel Sample.apiKey Sample.listing
    {| calls := [ListModels]; cachedModelName := Some Sample.model |}
  = (Sample.model, {| calls := [ListModels]; cachedModelName := Some Sample.model |})
  /\ ({| calls := [ListModels]; cachedModelName := Some Sample.model |} = Sample.idle
      \/ (Sample.noModel = None \/ Sample.noModel = Some [])
         /\ truthy (orEmpty Sample.apiKey) = true
         /\ calls {| calls := [ListModels]; cachedModelName := Some Sample.model |}
            = calls Sample.idle ++ [ListModels]
         /\ cachedModelName
              {| calls := [ListModels]; cachedModelName := Some Sample.model |}
            = Some Sample.model).
Proof.
  apply (model_name_is_resolved_once Sample.noModel Sample.apiKey Sample.listing
           Sample.idle Sample.model).
  vm_compute. reflexivity.
Defined.

(** * Further properties of the pattern generator *)

(** ** The delay that a failure asks for *)

(** The greedy run of digits takes all the digits when what follows them
    matches. *)
Lemma star_loop_digits k (Q : mstate -> Prop) ds : forall fuel prev pos rest caps,
  forallb isDigit ds = true ->
  length ds <= fuel ->
  match rest with c :: _ => isDigit c = false | [] => True end ->
  (forall p, exists out,
      k (MState p (pos + length ds) rest caps) = Some out /\ Q out) ->
  exists out,
    star_loop (run digit) k fuel (MState prev pos (ds ++ rest) caps) = Some out
    /\ Q out.
Proof.
  induction ds as [|d ds IH]; intros fuel prev pos rest caps Hd Hf Hr Hk.
  - cbn [app length] in *. rewrite Nat.add_0_r in Hk.
    destruct (Hk prev) as (out & Ho & HQ). exists out. split; [|exact HQ].
    destruct fuel as [|fuel]; cbn [star_loop]; [exact Ho|].
    unfold digit. cbn [run m_rest].
    destruct rest as [|c rest]; [now rewrite Ho|]. now rewrite Hr, Ho.
  - cbn [forallb] in Hd. apply andb_true_iff in Hd as [Hd Hds].
    destruct fuel as [|fuel]; [cbn in Hf; lia|].
    destruct (IH fuel (Some d) (S pos) rest caps Hds) as (out & Ho & HQ);
      [cbn in Hf; lia | exact Hr | | ].
    + intros p. cbn [length] in Hk. rewrite Nat.add_succ_r in Hk. apply Hk.
    + exists out. split; [|exact HQ].
      cbn [star_loop app]. unfold digit at 1. cbn [run m_rest m_pos m_caps].
      rewrite Hd. rewrite (proj2 (Nat.ltb_lt pos (S pos))) by lia.
      now rewrite Ho.
Qed.

Lemma digitsVal_decimal ds : digitsVal ds = decimal ds.
Proof.
  unfold digitsVal, decimal. rewrite <- fold_left_rev_right.
  induction (rev ds) as [|d tl IH]; [reflexivity|].
  cbn [fold_right decimalRev]. rewrite IH. lia.
Qed.

(** A run of digits and the letter s match, and the run is the capture. *)
Lemma retryDelay_digits ds :
  ds <> [] -> forallb isDigit ds = true ->
  match_ reRetryDelay (ds ++ js "s") = Some [(1, ds)].
Proof.
  intros Hne Hd. destruct ds as [|d ds]; [congruence|].
  cbn [forallb] in Hd. apply andb_true_iff in Hd as [Hd Hds].
  unfold match_.
  assert (E : exists out,
             exec_at reRetryDelay None 0 ((d :: ds) ++ js "s") = Some out
             /\ m_caps out = [(1, d :: ds)]).
  { unfold exec_at, reRetryDelay, plus. cbn [seqs run Nat.eqb m_pos].
    unfold digit at 1. cbn [run m_rest app m_pos m_caps]. rewrite Hd.
    apply (star_loop_digits _ (fun out => m_caps out = [(1, d :: ds)]) ds);
      [exact Hds | cbn [m_rest]; rewrite length_app; lia | reflexivity |].
    intros p. unfold chr. cbn [run m_rest m_pos m_caps m_prev].
    eexists. split; [vm_compute js; cbn; reflexivity|].
    cbn [m_caps].
    replace (S (0 + length ds) - 0) with (length (d :: ds)) by (cbn; lia).
    change (d :: ds ++ js "s") with ((d :: ds) ++ js "s").
    now rewrite take_app_length. }
  destruct E as (out & Ho & Hc).
  destruct ds; cbn [search app] in *; rewrite Ho, Hc; reflexivity.
Qed.

(** Below two to the 53 every whole number is a double. *)
Lemma Number_ofNat_small n : (n < 2 ^ 53)%Z -> Number_ofNat n = Some n.
Proof.
  intros H. unfold Number_ofNat. now rewrite (proj2 (Z.ltb_lt _ _) H).
Qed.

Lemma extractRetryAfterSeconds_digits ds :
  ds <> [] -> forallb isDigit ds = true -> (decimal ds < 2 ^ 53)%Z ->
  extractRetryAfterSeconds (Some (ds ++ js "s")) = Some (decimal ds).
Proof.
  intros Hne Hd Hs. unfold extractRetryAfterSeconds.
  rewrite (retryDelay_digits ds Hne Hd). cbn [cap Nat.eqb].
  rewrite digitsVal_decimal. now apply Number_ofNat_small.
Qed.

(** Leading zeros do not count; a fraction, a missing unit, a missing
    number and a missing delay give no number. *)
Example retry_delays_read :
  List.map extractRetryAfterSeconds
    [Some (js "30s"); Some (js "0s"); Some (js "007s"); Some (js "1.5s");
     Some (js "30"); Some (js "s"); Some (js "30s "); None]
  = [Some 30%Z; Some 0%Z; Some 7%Z; None; None; None; None; None].
Proof. vm_compute. reflexivity. Qed.

(** From two to the 53 on the number is rounded to the nearest double, a
    tie going to the even one. *)
Example retry_delays_rounded :
  List.map extractRetryAfterSeconds
    [Some (js "9007199254740992s"); Some (js "9007199254740993s");
     Some (js "9007199254740995s"); Some (js "18014398509481986s");
     Some (js "123456789012345678901234567890s")]
  = [Some 9007199254740992%Z; Some 9007199254740992%Z;
     Some 9007199254740996%Z; Some 18014398509481984%Z;
     Some 123456789012345677877719597056%Z].
Proof. vm_compute. reflexivity. Qed.

(** A number that rounds to [Infinity] gives no delay: the largest double
    is two to the 1024 minus two to the 971, and halfway from it to two
    to the 1024 the numbers round up. *)
Example retry_delays_not_finite :
  Number_ofNat (2 ^ 1024 - 2 ^ 970 - 1) = Some (2 ^ 1024 - 2 ^ 971)%Z
  /\ Number_ofNat (2 ^ 1024 - 2 ^ 970) = None
  /\ Number_ofNat (10 ^ 308)
     = Some (5010420900022432 * 2 ^ 971)%Z
  /\ extractRetryAfterSeconds (Some (js "1" ++ repeat (ch "0") 309 ++ js "s"))
     = None.
Proof. repeat split; vm_compute; reflexivity. Qed.

Section GeneratorPaths.

Variable localeCompare : jstring -> jstring -> Z.
Variable toLowerCase : jstring -> jstring.
Variable GEMINI_MODEL : option jstring.
Variable GEMINI_API_KEY : option jstring.
Variable listModels : ListOutcome.
Variable provider : jstring -> PromptRequest -> ProviderOutcome.

Local Ltac open_generator :=
  unfold generateJournalPatterns, runOnce, callProvider, resolveModelName,
    bind, ret.

(** X1. When four or more entries are not vents but their span is unknown
    or below six days, the generator succeeds with the silent value, the
    state of the network is returned as it was, and in debug mode the
    reason recorded is [not_enough_span], with the count and the span. *)
Theorem gate_rejects_short_span entriesAll dbg net0 :
  4 <= length (nonVentOf entriesAll) ->
  (forall d, computeSpanDays (nonVentOf (sortByDate localeCompare entriesAll)) = Some d
             -> (d < 6)%Z) ->
  exists v,
    generateJournalPatterns localeCompare toLowerCase GEMINI_MODEL
      GEMINI_API_KEY listModels provider entriesAll dbg net0
    = (Ok v, net0)
    /\ v = silent (debug v)
    /\ (dbg = true ->
        exists d, debug v = Some d /\ attempted d = false
                  /\ reason d = not_enough_span
                  /\ entriesCount d = length (nonVentOf entriesAll)
                  /\ spanDays d
                     = computeSpanDays
                         (nonVentOf (sortByDate localeCompare entriesAll)))
    /\ (dbg = false -> debug v = None).
Proof.
  intros Hn Hspan.
  unfold generateJournalPatterns, shouldAttemptLongitudinalAnalysis.
  rewrite (nonVent_sortByDate localeCompare).
  destruct (Nat.ltb_spec (length (nonVentOf entriesAll)) 4) as [Hlt|_]; [lia|].
  destruct (computeSpanDays (nonVentOf (sortByDate localeCompare entriesAll)))
    as [d|] eqn:Hd.
  - specialize (Hspan d eq_refl). apply Z.ltb_lt in Hspan. rewrite Hspan.
    cbn [negb]. unfold ret. eexists. split; [reflexivity|].
    split; [reflexivity|]. split.
    + intros ->. cbn. eexists. repeat split.
    + intros ->. reflexivity.
  - cbn [negb]. unfold ret. eexists. split; [reflexivity|].
    split; [reflexivity|]. split.
    + intros ->. cbn. eexists. repeat split.
    + intros ->. reflexivity.
Qed.

Lemma generate_Err_inv entriesAll dbg net0 message net' :
  generateJournalPatterns localeCompare toLowerCase GEMINI_MODEL
    GEMINI_API_KEY listModels provider entriesAll dbg net0
  = (Err message, net') ->
  message = js "Gemini is not configured."
  /\ truthy (orEmpty GEMINI_API_KEY) = false
  /\ shouldAttemptLongitudinalAnalysis (sortByDate localeCompare entriesAll) = true
  /\ net' = net0.
Proof.
  open_generator. intros H.
  repeat case_match; simplify_eq; repeat split;
    try (apply negb_true_iff; assumption);
    try (apply negb_false_iff; assumption).
Qed.

(** X2. The generator fails exactly when the entries pass the gate and no
    key is configured; the message is then that Gemini is not configured
    and the state of the network is returned as it was.  A failure of the
    provider or a reply that cannot be used never makes it fail. *)
Theorem error_exactly_without_key entriesAll dbg net0 :
  let result :=
    generateJournalPatterns localeCompare toLowerCase GEMINI_MODEL
      GEMINI_API_KEY listModels provider entriesAll dbg net0 in
  ((exists message, fst result = Err message)
   <-> shouldAttemptLongitudinalAnalysis (sortByDate localeCompare entriesAll) = true
       /\ truthy (orEmpty GEMINI_API_KEY) = false)
  /\ (forall message, fst result = Err message ->
        message = js "Gemini is not configured." /\ snd result = net0).
Proof.
  cbv zeta.
  destruct (generateJournalPatterns _ _ _ _ _ _ _ _ _) as [r net'] eqn:H.
  cbn [fst snd]. split; [split|].
  - intros [message ->]. apply generate_Err_inv in H. tauto.
  - intros [Hg Hk]. unfold generateJournalPatterns in H.
    rewrite Hg, Hk in H. cbn [negb] in H. unfold ret in H.
    injection H as <- _. eauto.
  - intros message ->. apply generate_Err_inv in H. tauto.
Qed.

(** X3. One run of the generator adds to the calls made so far at most
    one listing of the models and at most one request for content, and
    that request carries the prompt built from the sorted entries: there
    is no second attempt. *)
Theorem one_attempt_per_run entriesAll dbg net0 :
  exists new,
    calls (snd (generateJournalPatterns localeCompare toLowerCase GEMINI_MODEL
                  GEMINI_API_KEY listModels provider entriesAll dbg net0))
    = calls net0 ++ new
    /\ contentCalls new <= 1
    /\ listingCalls new <= 1
    /\ forall name req, In (GenerateContent name req) new ->
         req = buildGeminiRequest (sortByDate localeCompare entriesAll).
Proof.
  destruct (generateJournalPatterns _ _ _ _ _ _ _ _ _) as [r net'] eqn:H.
  revert H. open_generator. intros H.
  repeat case_match; simplify_eq; cbn [snd calls];
    rewrite <- ?app_assoc;
    (first [ exists []; split; [now rewrite app_nil_r|]
           | eexists; split; [reflexivity|] ]);
    cbn; (split; [lia|]); (split; [lia|]);
    intros name' req' Hin; intuition congruence.
Qed.

(** X4. When the request for content fails, the generator succeeds with
    the silent value after that one request; the debug record has the
    reason [rate_limited] when the status of the failure is 429 and
    [model_error] otherwise, the status, the message of the failure or a
    fixed one, and the delay that the failure asks for: none when the
    failure has none, and for a run of digits followed by the letter s
    the number that the digits denote, when that is below two to the 53
    (above, it is rounded to a double and dropped when not finite). *)
Theorem provider_failure_is_silent entriesAll dbg net0 name net1 status message
    retryDelay :
  shouldAttemptLongitudinalAnalysis (sortByDate localeCompare entriesAll) = true ->
  truthy (orEmpty GEMINI_API_KEY) = true ->
  resolveModelName GEMINI_MODEL GEMINI_API_KEY listModels net0 = (name, net1) ->
  provider name (buildGeminiRequest (sortByDate localeCompare entriesAll))
    = Threw status message retryDelay ->
  exists d,
    generateJournalPatterns localeCompare toLowerCase GEMINI_MODEL
      GEMINI_API_KEY listModels provider entriesAll dbg net0
    = (Ok (silent (whenDebug dbg d)),
       {| calls := calls net1
                   ++ [GenerateContent name
                         (buildGeminiRequest (sortByDate localeCompare entriesAll))];
          cachedModelName := cachedModelName net1 |})
    /\ attempted d = true
    /\ reason d = (if bool_decide (status = Some 429%Z) then rate_limited
                   else model_error)
    /\ errorStatus d = status
    /\ errorMessage d = Some (default (js "Gemini request failed.") message)
    /\ retryAfterSeconds d = extractRetryAfterSeconds retryDelay
    /\ (retryDelay = None -> retryAfterSeconds d = None)
    /\ (forall ds, retryDelay = Some (ds ++ js "s") -> ds <> [] ->
                   forallb isDigit ds = true -> (decimal ds < 2 ^ 53)%Z ->
                   retryAfterSeconds d = Some (decimal ds)).
Proof.
  intros Hgate Hkey Hname Hprov.
  unfold generateJournalPatterns, runOnce, callProvider, bind, ret.
  rewrite Hgate, Hkey. cbn [negb]. rewrite Hname, Hprov.
  eexists. split; [reflexivity|].
  cbn [attempted reason errorStatus errorMessage retryAfterSeconds].
  split; [reflexivity|].
  split; [repeat case_match; simplify_eq; reflexivity|].
  split; [reflexivity|]. split; [reflexivity|]. split; [reflexivity|].
  split; [intros ->; reflexivity|].
  intros ds -> Hne Hd Hs. now apply extractRetryAfterSeconds_digits.
Qed.

(** X5. When the reply holds no candidate that parses to a value of the
    expected shape, the generator succeeds with the silent value; the
    reason recorded is [invalid_json] when nothing parsed and
    [invalid_shape] when something did, with the length of the reply and
    the first 600 code units of the stripped reply. *)
Theorem reply_without_valid_object_is_silent entriesAll dbg net0 name net1
    chunks parts responseText fin :
  shouldAttemptLongitudinalAnalysis (sortByDate localeCompare entriesAll) = true ->
  truthy (orEmpty GEMINI_API_KEY) = true ->
  resolveModelName GEMINI_MODEL GEMINI_API_KEY listModels net0 = (name, net1) ->
  provider name (buildGeminiRequest (sortByDate localeCompare entriesAll))
    = Responded chunks parts responseText fin ->
  (forall j, parseBestJsonFromModelText (replyText chunks parts responseText) = Some j
             -> modelResponseSchema_safeParse j = None) ->
  exists d net',
    generateJournalPatterns localeCompare toLowerCase GEMINI_MODEL
      GEMINI_API_KEY listModels provider entriesAll dbg net0
    = (Ok (silent (whenDebug dbg d)), net')
    /\ reason d
       = match parseBestJsonFromModelText (replyText chunks parts responseText) with
         | None => invalid_json
         | Some _ => invalid_shape
         end
    /\ outputLength d = Some (length (replyText chunks parts responseText))
    /\ outputPreview d
       = Some (slice (stripCodeFences (replyText chunks parts responseText)) 0 600).
Proof.
  intros Hgate Hkey Hname Hprov Hbad.
  unfold generateJournalPatterns, runOnce, callProvider, bind, ret.
  rewrite Hgate, Hkey. cbn [negb]. rewrite Hname, Hprov.
  destruct (parseBestJsonFromModelText (replyText chunks parts responseText))
    as [j|] eqn:Hp.
  - destruct (parseBest_object _ _ Hp) as [kv ->].
    rewrite (Hbad _ eq_refl). eexists _, _. split; [reflexivity|].
    repeat split.
  - eexists _, _. split; [reflexivity|]. repeat split.
Qed.

(** X6. When the reply has the expected shape, passes the check of the
    language and declines to speak, the value speaks all the same: its
    time range is the fixed phrase for the span of the entries that are
    not vents, its reflection is that phrase followed by a fixed
    sentence, its themes are empty and its invitation is null, so none
    of these fields has anything of the reply in it, and the route does
    not take the value for silence. Without debug there is no debug
    record; in debug mode the record has the reason [model_silence] and
    its preview is the first 600 code units of the reply, its code
    fences stripped. *)
Theorem model_silence_is_spoken entriesAll dbg net0 name net1 chunks parts
    responseText fin j data :
  shouldAttemptLongitudinalAnalysis (sortByDate localeCompare entriesAll) = true ->
  truthy (orEmpty GEMINI_API_KEY) = true ->
  resolveModelName GEMINI_MODEL GEMINI_API_KEY listModels net0 = (name, net1) ->
  provider name (buildGeminiRequest (sortByDate localeCompare entriesAll))
    = Responded chunks parts responseText fin ->
  parseBestJsonFromModelText (replyText chunks parts responseText) = Some j ->
  modelResponseSchema_safeParse j = Some data ->
  includesBannedLanguage toLowerCase
    (join [newline] (orEmpty (mr_reflection data) :: mr_themes data)) = false ->
  mr_shouldSpeak data = false ->
  exists v net' d,
    generateJournalPatterns localeCompare toLowerCase GEMINI_MODEL
      GEMINI_API_KEY listModels provider entriesAll dbg net0
    = (Ok v, net')
    /\ shouldSpeak v = true
    /\ themes v = []
    /\ invitation v = None
    /\ isEmptySilence v = false
    /\ computeSpanDays (nonVentOf (sortByDate localeCompare entriesAll)) = Some d
    /\ timeRange v = Some (phraseOfSpan d)
    /\ reflection v = Some (phraseOfSpan d ++ sentenceWhenSilent)
    /\ (dbg = false -> debug v = None)
    /\ (dbg = true ->
        exists r, debug v = Some r /\ reason r = model_silence
                  /\ outputPreview r
                     = Some (slice (stripCodeFences
                                      (replyText chunks parts responseText))
                               0 600)).
Proof.
  intros Hgate Hkey Hname Hprov Hparse Hshape Hban Hspeak.
  destruct (gate_span _ Hgate) as (d & Hd & _).
  unfold generateJournalPatterns, runOnce, callProvider, bind, ret.
  rewrite Hgate, Hkey. cbn [negb]. rewrite Hname, Hprov. cbn [negb].
  rewrite Hparse.
  assert (Hj : j <> JNull).
  { intros ->. simpl in Hshape. discriminate. }
  destruct j; try congruence; rewrite Hshape;
    unfold sanitizeOutput; rewrite Hban;
    destruct (negb (truthy (trim _))); rewrite Hspeak; cbn [negb];
    eexists _, _, d; (split; [reflexivity|]);
    cbn [shouldSpeak themes invitation timeRange reflection debug isEmptySilence
         negb andb];
    rewrite Hd, describeTimeRange_phrase;
    repeat (split; [reflexivity|]);
    (split; intros ->; cbn; [reflexivity|]);
    eexists; repeat split.
Qed.

(** X7. When the reply has the expected shape, passes the check of the
    language and asks to speak, but its reflection is null or blank, the
    generator succeeds with the silent value and the reason recorded is
    [empty_reflection], whatever the themes of the reply. *)
Theorem blank_reflection_is_silent entriesAll dbg net0 name net1 chunks parts
    responseText fin j data :
  shouldAttemptLongitudinalAnalysis (sortByDate localeCompare entriesAll) = true ->
  truthy (orEmpty GEMINI_API_KEY) = true ->
  resolveModelName GEMINI_MODEL GEMINI_API_KEY listModels net0 = (name, net1) ->
  provider name (buildGeminiRequest (sortByDate localeCompare entriesAll))
    = Responded chunks parts responseText fin ->
  parseBestJsonFromModelText (replyText chunks parts responseText) = Some j ->
  modelResponseSchema_safeParse j = Some data ->
  includesBannedLanguage toLowerCase
    (join [newline] (orEmpty (mr_reflection data) :: mr_themes data)) = false ->
  mr_shouldSpeak data = true ->
  trim (orEmpty (mr_reflection data)) = [] ->
  exists d net',
    generateJournalPatterns localeCompare toLowerCase GEMINI_MODEL
      GEMINI_API_KEY listModels provider entriesAll dbg net0
    = (Ok (silent (whenDebug dbg d)), net')
    /\ reason d = empty_reflection.
Proof.
  intros Hgate Hkey Hname Hprov Hparse Hshape Hban Hspeak Hrefl.
  unfold generateJournalPatterns, runOnce, callProvider, bind, ret.
  rewrite Hgate, Hkey. cbn [negb]. rewrite Hname, Hprov. cbn [negb].
  rewrite Hparse.
  assert (Hj : j <> JNull).
  { intros ->. simpl in Hshape. discriminate. }
  destruct j; try congruence; rewrite Hshape;
    unfold sanitizeOutput; rewrite Hban;
    destruct (negb (truthy (trim _))); rewrite Hspeak; cbn [negb];
    rewrite Hrefl; cbn [truthy negb];
    eexists _, _; (split; [reflexivity|]); reflexivity.
Qed.

Lemma describeTimeRange_trimmed span :
  let range := describeTimeRange span in
  (truthy range = true /\ trim range = range)
  /\ (truthy (bannedTemplate range) = true
      /\ trim (bannedTemplate range) = bannedTemplate range)
  /\ (truthy (silenceTemplate range) = true
      /\ trim (silenceTemplate range) = silenceTemplate range).
Proof.
  unfold describeTimeRange. repeat case_match; vm_compute; repeat split.
Qed.

(** X8. In every successful value each theme is not empty and has no
    white space around it, and so are the reflection and the time range
    when they are not null. *)
Theorem delivered_text_is_trimmed entriesAll dbg net0 v net' :
  generateJournalPatterns localeCompare toLowerCase GEMINI_MODEL
    GEMINI_API_KEY listModels provider entriesAll dbg net0 = (Ok v, net') ->
  Forall (fun t => truthy t = true /\ trim t = t) (themes v)
  /\ (forall r, reflection v = Some r -> truthy r = true /\ trim r = r)
  /\ (forall t, timeRange v = Some t -> truthy t = true /\ trim t = t).
Proof.
  open_generator. intros H.
  assert (Hth : forall l, Forall (fun t => truthy t = true /\ trim t = t)
                            (List.filter truthy (List.map trim l))).
  { intros l. apply List.Forall_forall. intros t Hin.
    apply filter_In in Hin as [Hin Ht]. apply in_map_iff in Hin as [x [<- _]].
    split; [exact Ht | apply trim_idem]. }
  repeat case_match; simplify_eq; cbn [themes reflection timeRange silent];
    (split; [first [apply Hth | constructor]|]);
    (split; intros ? [= <-]);
    first [ apply describeTimeRange_trimmed
          | split; [ apply negb_false_iff; assumption | apply trim_idem ]
          | split; [ assumption | apply trim_idem ] ].
Qed.

Lemma generate_silent_inv entriesAll dbg net0 v net' :
  generateJournalPatterns localeCompare toLowerCase GEMINI_MODEL
    GEMINI_API_KEY listModels provider entriesAll dbg net0 = (Ok v, net') ->
  isEmptySilence v = negb (shouldSpeak v)
  /\ (shouldSpeak v = false -> v = silent (debug v)).
Proof.
  open_generator. intros H.
  repeat case_match; simplify_eq; split; try reflexivity; try discriminate.
Qed.

(** X9. A successful value that does not speak is the silent value, its
    debug record apart, and the route's test for empty silence holds of a
    successful value exactly when the value does not speak. *)
Theorem silent_values_are_empty entriesAll dbg net0 v net' :
  generateJournalPatterns localeCompare toLowerCase GEMINI_MODEL
    GEMINI_API_KEY listModels provider entriesAll dbg net0 = (Ok v, net') ->
  isEmptySilence v = negb (shouldSpeak v)
  /\ (shouldSpeak v = false -> v = silent (debug v)).
Proof.
  open_generator. intros H.
  repeat case_match; simplify_eq; cbn [isEmptySilence shouldSpeak negb];
    (split; [reflexivity|]); first [discriminate | reflexivity].
Qed.

Lemma generate_no_debug entriesAll net0 v net' :
  generateJournalPatterns localeCompare toLowerCase GEMINI_MODEL
    GEMINI_API_KEY listModels provider entriesAll false net0 = (Ok v, net') ->
  debug v = None.
Proof.
  open_generator. intros H.
  repeat case_match; simplify_eq; reflexivity.
Qed.

End GeneratorPaths.

(** ** The paths on the sample data *)

Lemma gate_rejects_short_span_witness :
  exists v,
    generateJournalPatterns codeUnitCompare asciiLower Sample.noModel
      Sample.apiKey Sample.listing (Sample.answering Sample.replyNoRange)
      Sample.crowded true Sample.idle
    = (Ok v, Sample.idle)
    /\ v = silent (debug v)
    /\ (true = true ->
        exists d, debug v = Some d /\ attempted d = false
                  /\ reason d = not_enough_span
                  /\ entriesCount d = length (nonVentOf Sample.crowded)
                  /\ spanDays d
                     = computeSpanDays
                         (nonVentOf (sortByDate codeUnitCompare Sample.crowded)))
    /\ (true = false -> debug v = None).
Proof.
  apply (gate_rejects_short_span codeUnitCompare asciiLower Sample.noModel
           Sample.apiKey Sample.listing (Sample.answering Sample.replyNoRange)
           Sample.crowded true Sample.idle).
  - vm_compute. lia.
  - intros d H. vm_compute in H. injection H as <-. lia.
Defined.

Lemma provider_failure_is_silent_witness :
  exists d,
    generateJournalPatterns codeUnitCompare asciiLower Sample.noModel
      Sample.apiKey Sample.listing Sample.limited Sample.week true Sample.idle
    = (Ok (silent (whenDebug true d)),
       {| calls := calls {| calls := [ListModels];
                            cachedModelName := Some Sample.model |}
                   ++ [GenerateContent Sample.model
                         (buildGeminiRequest (sortByDate codeUnitCompare Sample.week))];
          cachedModelName :=
            cachedModelName {| calls := [ListModels];
                               cachedModelName := Some Sample.model |} |})
    /\ attempted d = true
    /\ reason d = (if bool_decide (Some 429%Z = Some 429%Z) then rate_limited
                   else model_error)
    /\ errorStatus d = Some 429%Z
    /\ errorMessage d
       = Some (default (js "Gemini request failed.")
                 (Some (js "Too many requests")))
    /\ retryAfterSeconds d = extractRetryAfterSeconds (Some (js "30s"))
    /\ (Some (js "30s") = None -> retryAfterSeconds d = None)
    /\ (forall ds, Some (js "30s") = Some (ds ++ js "s") -> ds <> [] ->
                   forallb isDigit ds = true -> (decimal ds < 2 ^ 53)%Z ->
                   retryAfterSeconds d = Some (decimal ds)).
Proof.
  apply (provider_failure_is_silent codeUnitCompare asciiLower Sample.noModel
           Sample.apiKey Sample.listing Sample.limited Sample.week true
           Sample.idle Sample.model
           {| calls := [ListModels]; cachedModelName := Some Sample.model |}
           (Some 429%Z) (Some (js "Too many requests")) (Some (js "30s")));
    vm_compute; reflexivity.
Defined.

Lemma reply_without_valid_object_is_silent_witness :
  exists d net',
    generateJournalPatterns codeUnitCompare asciiLower Sample.noModel
      Sample.apiKey Sample.listing (Sample.answering Sample.replyProse)
      Sample.week true Sample.idle
    = (Ok (silent (whenDebug true d)), net')
    /\ reason d
       = match parseBestJsonFromModelText
                 (replyText [Some Sample.replyProse] None Sample.replyProse) with
         | None => invalid_json
         | Some _ => invalid_shape
         end
    /\ outputLength d
       = Some (length (replyText [Some Sample.replyProse] None Sample.replyProse))
    /\ outputPreview d
       = Some (slice (stripCodeFences
                        (replyText [Some Sample.replyProse] None Sample.replyProse))
                 0 600).
Proof.
  apply (reply_without_valid_object_is_silent codeUnitCompare asciiLower
           Sample.noModel Sample.apiKey Sample.listing
           (Sample.answering Sample.replyProse) Sample.week true Sample.idle
           Sample.model
           {| calls := [ListModels]; cachedModelName := Some Sample.model |}
           [Some Sample.replyProse] None Sample.replyProse (Some (js "STOP")));
    try (vm_compute; reflexivity).
  intros j H. vm_compute in H. discriminate.
Defined.

Lemma model_silence_is_spoken_witness :
  exists v net' d,
    generateJournalPatterns codeUnitCompare asciiLower Sample.noModel
      Sample.apiKey Sample.listing (Sample.answering Sample.replySilent)
      Sample.week true Sample.idle
    = (Ok v, net')
    /\ shouldSpeak v = true
    /\ themes v = []
    /\ invitation v = None
    /\ isEmptySilence v = false
    /\ computeSpanDays (nonVentOf (sortByDate codeUnitCompare Sample.week)) = Some d
    /\ timeRange v = Some (phraseOfSpan d)
    /\ reflection v = Some (phraseOfSpan d ++ sentenceWhenSilent)
    /\ (true = false -> debug v = None)
    /\ (true = true ->
        exists r, debug v = Some r /\ reason r = model_silence
                  /\ outputPreview r
                     = Some (slice (stripCodeFences
                                      (replyText [Some Sample.replySilent] None
                                         Sample.replySilent)) 0 600)).
Proof.
  eapply (model_silence_is_spoken codeUnitCompare asciiLower Sample.noModel
            Sample.apiKey Sample.listing (Sample.answering Sample.replySilent)
            Sample.week true Sample.idle Sample.model
            {| calls := [ListModels]; cachedModelName := Some Sample.model |}
            [Some Sample.replySilent] None Sample.replySilent
            (Some (js "STOP")));
    vm_compute; reflexivity.
Defined.

Lemma blank_reflection_is_silent_witness :
  exists d net',
    generateJournalPatterns codeUnitCompare asciiLower Sample.noModel
      Sample.apiKey Sample.listing (Sample.answering Sample.replyBlank)
      Sample.week true Sample.idle
    = (Ok (silent (whenDebug true d)), net')
    /\ reason d = empty_reflection.
Proof.
  eapply (blank_reflection_is_silent codeUnitCompare asciiLower Sample.noModel
            Sample.apiKey Sample.listing (Sample.answering Sample.replyBlank)
            Sample.week true Sample.idle Sample.model
            {| calls := [ListModels]; cachedModelName := Some Sample.model |}
            [Some Sample.replyBlank] None Sample.replyBlank
            (Some (js "STOP")));
    vm_compute; reflexivity.
Defined.

Lemma delivered_text_is_trimmed_witness :
  Forall (fun t => truthy t = true /\ trim t = t) (themes Sample.spokenFive)
  /\ (forall r, reflection Sample.spokenFive = Some r ->
                truthy r = true /\ trim r = r)
  /\ (forall t, timeRange Sample.spokenFive = Some t ->
                truthy t = true /\ trim t = t).
Proof.
  apply (delivered_text_is_trimmed codeUnitCompare asciiLower Sample.noModel
           Sample.apiKey Sample.listing (Sample.answering Sample.replyFiveThemes)
           Sample.week false Sample.idle Sample.spokenFive Sample.weekNet).
  vm_compute. reflexivity.
Defined.

Lemma silent_values_are_empty_witness :
  isEmptySilence (silent None) = negb (shouldSpeak (silent None))
  /\ (shouldSpeak (silent None) = false
      -> silent None = silent (debug (silent None))).
Proof.
  apply (silent_values_are_empty codeUnitCompare asciiLower Sample.noModel
           Sample.apiKey Sample.listing Sample.limited Sample.week false
           Sample.idle (silent None) Sample.weekNet).
  vm_compute. reflexivity.
Defined.

(** * Further properties of the route *)

(** ** The fingerprint *)

Lemma hexDigit_spec (n : N) :
  (n < 16)%N -> isHexLower (hexDigit n) = true /\ hexVal (hexDigit n) = Some n.
Proof.
  intros H. unfold hexDigit, isHexLower, hexVal.
  destruct (N.ltb_spec n 10);
    repeat match goal with
           | |- context [N.leb ?a ?b] => destruct (N.leb_spec a b)
           end; cbn; try lia; split; try reflexivity; f_equal; lia.
Qed.

Lemma hexValue_app a b :
  hexValue (a ++ b)
  = fold_left (fun acc c => (acc * 16 + Z.of_N (default 0%N (hexVal c)))%Z) b
      (hexValue a).
Proof. unfold hexValue. apply fold_left_app. Qed.

(** The digits that the loop puts before the accumulator denote the
    number, are at most as many as the fuel, and do not start with a zero
    unless the numeral is one digit long. *)
Lemma toHex_go_spec fuel : forall z acc,
  (0 <= z < 16 ^ Z.of_nat fuel)%Z -> 1 <= fuel ->
  exists ds, toHex_go fuel z acc = ds ++ acc
    /\ 1 <= length ds <= fuel
    /\ forallb isHexLower ds = true
    /\ hexValue ds = z
    /\ (length ds = 1 \/ head ds <> Some (ch "0")).
Proof.
  induction fuel as [|f IH]; intros z acc Hz Hf; [lia|].
  cbn [toHex_go].
  assert (Hd : (Z.to_N (z mod 16) < 16)%N).
  { pose proof (Z.mod_pos_bound z 16 ltac:(lia)). lia. }
  destruct (hexDigit_spec _ Hd) as [Dh Dv].
  destruct (Z.eqb_spec (z / 16) 0) as [E|E].
  - exists [hexDigit (Z.to_N (z mod 16))]. split; [reflexivity|].
    split; [cbn; lia|]. split; [cbn; now rewrite Dh|]. split; [|now left].
    unfold hexValue. cbn. rewrite Dv. cbn.
    pose proof (Z.mod_pos_bound z 16 ltac:(lia)).
    pose proof (Z.div_mod z 16 ltac:(lia)). lia.
  - assert (Hq : (0 <= z / 16 < 16 ^ Z.of_nat f)%Z).
    { split; [apply Z.div_pos; lia|].
      apply Z.div_lt_upper_bound; [lia|].
      replace (Z.of_nat (S f)) with (1 + Z.of_nat f)%Z in Hz by lia.
      rewrite Z.pow_add_r in Hz by lia. lia. }
    assert (Hf' : 1 <= f).
    { destruct f; [|lia]. cbn in Hq. lia. }
    destruct (IH (z / 16)%Z (hexDigit (Z.to_N (z mod 16)) :: acc) Hq Hf')
      as (ds & -> & L & A & V & Hh).
    exists (ds ++ [hexDigit (Z.to_N (z mod 16))]).
    split; [now rewrite <- app_assoc|].
    split; [rewrite length_app; cbn; lia|].
    split; [rewrite forallb_app, A; cbn; now rewrite Dh|].
    split.
    + rewrite hexValue_app, V. cbn. rewrite Dv. cbn.
      pose proof (Z.mod_pos_bound z 16 ltac:(lia)).
      pose proof (Z.div_mod z 16 ltac:(lia)). lia.
    + right. destruct ds as [|d ds']; [cbn in L; lia|]. cbn [app head].
      destruct Hh as [Hh|Hh]; [|exact Hh].
      destruct ds'; [|cbn in Hh; lia].
      intros Hd0. assert (Hd1 : d = ch "0") by congruence.
      rewrite Hd1 in V. change (hexValue [ch "0"]) with 0%Z in V. lia.
Qed.

(** The numeral of a number in base sixteen denotes the number wrapped
    to 32 bits. *)
Lemma toHexUint32_spec h :
  let s := toHexUint32 h in
  1 <= length s <= 8
  /\ forallb isHexLower s = true
  /\ hexValue s = (h mod 2 ^ 32)%Z
  /\ (length s = 1 \/ head s <> Some (ch "0")).
Proof.
  cbv zeta. unfold toHexUint32.
  destruct (toHex_go_spec 8 (h mod 2 ^ 32)%Z []) as (ds & -> & L & A & V & Hh).
  - change (16 ^ Z.of_nat 8)%Z with (2 ^ 32)%Z. apply Z.mod_pos_bound. lia.
  - lia.
  - rewrite app_nil_r. auto.
Qed.

(** X26. The hash of any string, and so every fingerprint, is a numeral
    of one to eight lower-case hexadecimal digits that denotes a number
    below two to the 32 and has no leading zero unless it is the single
    digit zero. *)
Theorem stableHash_is_hex input :
  let s := stableHash input in
  1 <= length s <= 8
  /\ forallb isHexLower s = true
  /\ (0 <= hexValue s < 2 ^ 32)%Z
  /\ (length s = 1 \/ head s <> Some (ch "0")).
Proof.
  cbv zeta. unfold stableHash.
  destruct (toHexUint32_spec
              (fold_left (fun h c => Z.lxor (toInt32 (h * 33)) (Z.of_N c)) input
                 5381%Z)) as (L & A & V & H).
  repeat split; try tauto; try lia; rewrite V; apply Z.mod_pos_bound; lia.
Qed.

(** ** The token *)

(** X27. A token that [getBearerToken] returns is not empty, has no white
    space around it, and is a part of the authorization header that
    starts after at least seven code units, the word and a blank. *)
Theorem bearer_token_shape req t :
  getBearerToken req = Some t ->
  t <> [] /\ trim t = t
  /\ exists auth pre post,
       authorization req = Some auth
       /\ auth = pre ++ t ++ post
       /\ 7 <= length pre.
Proof.
  unfold getBearerToken.
  destruct (authorization req) as [auth|]; [|discriminate].
  destruct (negb (truthy auth)); [discriminate|].
  unfold match_.
  destruct (search reBearer None 0 auth) as [[start m]|] eqn:S; [|discriminate].
  destruct (truthy (trim (cap 1 (m_caps m)))) eqn:T; [|discriminate].
  intros [= <-].
  split; [intros E; rewrite E in T; discriminate|].
  split; [apply trim_idem|].
  exists auth.
  apply search_exec in S as (before & s' & prev' & -> & _ & E).
  change (run Bol
            (run (litI "bearer")
               (run (plus ws)
                  (run (Group 1 (plus (Cls notLineTerminator))) (run Eol Some))))
            (MState prev' start s' []) = Some m) in E.
  apply run_consumes in E as (st1 & c1 & E & R1 & P1 & _).
  apply run_consumes in E as (st2 & c2 & E & R2 & P2 & M2).
  apply run_consumes in E as (st3 & c3 & E & R3 & P3 & M3).
  rewrite run_Group in E.
  apply run_consumes in E as (st4 & c4 & E & R4 & P4 & _).
  cbn [run m_rest] in E. destruct (m_rest st4) eqn:E4; [|discriminate].
  injection E as <-. cbn [m_caps cap Nat.eqb] in *.
  rewrite app_nil_r in R4.
  replace (m_pos st4 - m_pos st3) with (length c4) in * by lia.
  rewrite R4, firstn_all in *.
  destruct (trim_infix c4) as (p & q & Hc4).
  exists (before ++ c1 ++ c2 ++ c3 ++ p), q.
  split; [reflexivity|]. split.
  - cbn [m_rest] in R1. rewrite R1, R2, R3. rewrite <- !app_assoc.
    do 4 f_equal. exact Hc4.
  - change (minLen (litI "bearer")) with 6 in M2.
    change (minLen (plus ws)) with 1 in M3.
    rewrite !length_app. lia.
Qed.

Lemma bearer_token_shape_witness :
  js "token-1" <> [] /\ trim (js "token-1") = js "token-1"
  /\ exists auth pre post,
       authorization (Sample.request None) = Some auth
       /\ auth = pre ++ js "token-1" ++ post
       /\ 7 <= length pre.
Proof.
  apply (bearer_token_shape (Sample.request None) (js "token-1")).
  vm_compute. reflexivity.
Defined.

(** ** The handler *)

Section HandlerPaths.

Variable localeCompare : jstring -> jstring -> Z.
Variable toLowerCase : jstring -> jstring.
Variable GEMINI_MODEL : option jstring.
Variable GEMINI_API_KEY : option jstring.
Variable listModels : ListOutcome.
Variable provider : jstring -> PromptRequest -> ProviderOutcome.
Variable production : bool.
Variable clock : nat -> Z.
Variable getUser : jstring -> AuthOutcome.
Variable selectEntries : jstring -> jstring -> DbOutcome.

Local Ltac open_GET H :=
  unfold GET, fastPath, silenceFallback, Date_now, serveCached, jsonStatus,
    NextResponse_json in H.

(** X20. Every response is either a status 200 with a pattern value, or
    one of the statuses 401, 500 and 503 with an error message; with an
    error the cache and the calls to the provider are as they were. *)
Theorem responses_are_patterns_or_errors req w response w' :
  GET localeCompare toLowerCase GEMINI_MODEL GEMINI_API_KEY listModels
    provider production clock getUser selectEntries req w = (response, w') ->
  (httpStatus response = 200%Z
   /\ exists v dm cm, payload response = PatternsBody v dm cm)
  \/ ((httpStatus response = 401 \/ httpStatus response = 500
       \/ httpStatus response = 503)%Z
      /\ (exists message, payload response = ErrorBody message)
      /\ patternsCacheByUser w' = patternsCacheByUser w
      /\ net w' = net w).
Proof.
  intros H. open_GET H.
  repeat case_match; simplify_eq; cbn;
    try (left; split; [reflexivity|]; eexists _, _, _; reflexivity);
    right; (split; [tauto|]); (split; [eexists; reflexivity|]);
    try (split; reflexivity);
    match goal with
    | G : generateJournalPatterns _ _ _ _ _ _ _ _ _ = (Err _, _) |- _ =>
        apply generate_Err_inv in G as (_ & _ & _ & ->)
    end; split; reflexivity.
Qed.

(** X21. A request changes the cache entry of no user other than the one
    that its token authenticates. *)
Theorem other_users_are_untouched req w other :
  (forall token, getBearerToken req = Some token ->
                 getUser token <> AuthUser (Some other)) ->
  patternsCacheByUser
    (snd (GET localeCompare toLowerCase GEMINI_MODEL GEMINI_API_KEY listModels
            provider production clock getUser selectEntries req w)) !! other
  = patternsCacheByUser w !! other.
Proof.
  intros Hother.
  destruct (GET _ _ _ _ _ _ _ _ _ _ req w) as [response w'] eqn:H.
  cbn [snd]. open_GET H.
  repeat case_match; simplify_eq; cbn; try reflexivity;
    apply lookup_insert_ne; intros ->; eapply Hother; eauto.
Qed.

Lemma fastPath_hit dbgFlag uid fp dm w cached :
  patternsCacheByUser w !! uid = Some cached ->
  fingerprint cached = fp ->
  (0 <= clock (clockReads w) - atMs cached <= CACHE_TTL_MS)%Z ->
  fastPath clock false dbgFlag uid fp dm w
  = (Some (serveCached dbgFlag cached (clock (clockReads w) - atMs cached) dm
             (Some fp)),
     snd (Date_now clock w)).
Proof.
  intros Hc Hfp [Hlo Hhi]. unfold fastPath. cbn [negb]. rewrite Hc.
  cbn [Date_now snd]. rewrite bool_decide_eq_true_2 by exact Hfp.
  unfold fresh. apply Z.leb_le in Hlo, Hhi. rewrite Hlo, Hhi. reflexivity.
Qed.

(** X22. When a user without a cache entry asks and the generator returns
    a value, and the request comes again while the clock has moved by at
    most five minutes and the rows that the database then returns have
    the fingerprint of the rows of the first request (their number, the
    date of the newest and the first 120 code units of its body, as when
    the rows are the same), the second response carries the same value
    and is served from the cache: the generator is not run again, the
    calls to the provider and the cache stay as the first request left
    them, and without debug the two bodies are equal. *)
Theorem repeated_request_is_served_from_cache req w token uid data
    (selectEntries' : jstring -> jstring -> DbOutcome) data' v net1 :
  isOne (q_refresh req) = false ->
  getBearerToken req = Some token ->
  getUser token = AuthUser (Some uid) ->
  selectEntries token uid = DbRows data ->
  selectEntries' token uid = DbRows data' ->
  computeEntriesFingerprint (default [] data')
  = computeEntriesFingerprint (default [] data) ->
  patternsCacheByUser w !! uid = None ->
  generateJournalPatterns localeCompare toLowerCase GEMINI_MODEL
    GEMINI_API_KEY listModels provider
    (rev (List.map toEntry (default [] data)))
    (negb production && isOne (q_debug req)) (net w) = (Ok v, net1) ->
  (0 <= clock (S (clockReads w)) - clock (clockReads w) <= CACHE_TTL_MS)%Z ->
  exists r1 w1 r2 w2,
    GET localeCompare toLowerCase GEMINI_MODEL GEMINI_API_KEY listModels
      provider production clock getUser selectEntries req w = (r1, w1)
    /\ GET localeCompare toLowerCase GEMINI_MODEL GEMINI_API_KEY listModels
         provider production clock getUser selectEntries' req w1 = (r2, w2)
    /\ net w1 = net1 /\ net w2 = net1
    /\ patternsCacheByUser w2 = patternsCacheByUser w1
    /\ httpStatus r1 = 200%Z /\ httpStatus r2 = 200%Z
    /\ (exists dm1 dm2 cm, payload r1 = PatternsBody v dm1 None
                           /\ payload r2 = PatternsBody v dm2 cm)
    /\ (negb production && isOne (q_debug req) = false -> payload r2 = payload r1).
Proof.
  intros Hre Htok Huser Hrows Hrows' Hfp Hc Hgen Hage.
  eexists _, _, _, _. split.
  { unfold GET, fastPath. rewrite Htok, Huser, Hrows, Hre, Hc. cbn [negb].
    rewrite Hgen. rewrite silence_without_cache by exact Hc.
    cbn [Date_now patternsCacheByUser net clockReads]. reflexivity. }
  split.
  { unfold GET. rewrite Htok, Huser, Hrows', Hre.
    erewrite fastPath_hit;
      [ reflexivity
      | cbn [patternsCacheByUser]; apply lookup_insert_eq
      | cbn [fingerprint]; symmetry; exact Hfp
      | cbn [clockReads atMs]; exact Hage ]. }
  cbn [Date_now snd net patternsCacheByUser clockReads].
  unfold serveCached, NextResponse_json.
  destruct (negb production && isOne (q_debug req)); cbn;
    repeat split; try (eexists _, _, _; split; reflexivity); discriminate.
Qed.

(** X23. When a request forces a refresh, the generator returns a value
    that does not speak, and the user has a cache entry that is at most
    five minutes old, the response carries the value of that entry,
    whatever its fingerprint, and the cache is left as it is. *)
Theorem refresh_during_outage_serves_cached req w token uid data cached v net1 :
  isOne (q_refresh req) = true ->
  getBearerToken req = Some token ->
  getUser token = AuthUser (Some uid) ->
  selectEntries token uid = DbRows data ->
  patternsCacheByUser w !! uid = Some cached ->
  generateJournalPatterns localeCompare toLowerCase GEMINI_MODEL
    GEMINI_API_KEY listModels provider
    (rev (List.map toEntry (default [] data)))
    (negb production && isOne (q_debug req)) (net w) = (Ok v, net1) ->
  shouldSpeak v = false ->
  (0 <= clock (clockReads w) - atMs cached <= CACHE_TTL_MS)%Z ->
  exists response w',
    GET localeCompare toLowerCase GEMINI_MODEL GEMINI_API_KEY listModels
      provider production clock getUser selectEntries req w = (response, w')
    /\ patternsCacheByUser w' = patternsCacheByUser w
    /\ net w' = net1
    /\ httpStatus response = 200%Z
    /\ exists dm cm, payload response = PatternsBody (value cached) dm cm
         /\ (negb production && isOne (q_debug req) = false
             -> dm = None /\ cm = None).
Proof.
  intros Hre Htok Huser Hrows Hc Hgen Hsp [Hlo Hhi].
  apply Z.leb_le in Hlo, Hhi.
  pose proof (generate_silent_inv _ _ _ _ _ _ _ _ _ _ _ Hgen) as [Hs _].
  rewrite Hsp in Hs. cbn [negb] in Hs.
  unfold GET, fastPath, silenceFallback. rewrite Htok, Huser, Hrows, Hre.
  cbn [negb]. rewrite Hgen, Hs. cbn [patternsCacheByUser]. rewrite Hc.
  cbn [Date_now clockReads]. unfold fresh. rewrite Hlo, Hhi. cbn [andb].
  eexists _, _. split; [reflexivity|]. cbn [patternsCacheByUser net].
  unfold serveCached, NextResponse_json.
  destruct (negb production && isOne (q_debug req)); cbn;
    repeat split; eexists _, _; (split; [reflexivity|]); intros; auto;
    discriminate.
Qed.

(** X24. When the entries pass the gate, no key is configured and the
    cache does not answer (the request forces a refresh or the user has no
    entry), the response is the status 503 with the message that Gemini is
    not configured, and the state is left as it was. *)
Theorem missing_key_gives_503 req w token uid data :
  getBearerToken req = Some token ->
  getUser token = AuthUser (Some uid) ->
  selectEntries token uid = DbRows data ->
  isOne (q_refresh req) = true \/ patternsCacheByUser w !! uid = None ->
  shouldAttemptLongitudinalAnalysis
    (sortByDate localeCompare (rev (List.map toEntry (default [] data)))) = true ->
  truthy (orEmpty GEMINI_API_KEY) = false ->
  GET localeCompare toLowerCase GEMINI_MODEL GEMINI_API_KEY listModels
    provider production clock getUser selectEntries req w
  = ({| httpStatus := 503; payload := ErrorBody (js "Gemini is not configured.") |},
     w).
Proof.
  intros Htok Huser Hrows Hmiss Hgate Hkey.
  unfold GET. rewrite Htok, Huser, Hrows.
  assert (F : fastPath clock (isOne (q_refresh req))
                (negb production && isOne (q_debug req)) uid
                (computeEntriesFingerprint (default [] data))
                (countsOf (default [] data)) w = (None, w)).
  { unfold fastPath. destruct Hmiss as [-> | ->]; [reflexivity|].
    now destruct (negb _). }
  rewrite F. unfold generateJournalPatterns. rewrite Hgate, Hkey.
  cbn [negb]. unfold ret. destruct w. reflexivity.
Qed.

(** X25. In production no response carries debug information: when no
    cached value has a debug record, the value of the response has none,
    the body has neither [debugMeta] nor [cacheMeta], whatever the query
    asks for, and no cached value has a debug record afterwards. *)
Theorem production_hides_debug req w response w' :
  production = true ->
  debugFree w ->
  GET localeCompare toLowerCase GEMINI_MODEL GEMINI_API_KEY listModels
    provider production clock getUser selectEntries req w = (response, w') ->
  debugFree w'
  /\ forall v dm cm, payload response = PatternsBody v dm cm ->
       debug v = None /\ dm = None /\ cm = None.
Proof.
  intros Hprod Hfree H. open_GET H. rewrite Hprod in H. cbn [negb andb] in H.
  repeat case_match; simplify_eq; cbn;
    (split; [|intros ? ? ? [= <- <- <-]; repeat split;
              eauto using generate_no_debug]);
    try exact Hfree;
    try (intros uX cX; apply Hfree).
  all: intros uX cX; cbn [patternsCacheByUser];
    match goal with
    | |- context [<[?k := _]> _] => destruct (decide (uX = k)) as [->|Hne]
    end;
    [ rewrite lookup_insert_eq; intros [= <-]; cbn; eauto using generate_no_debug
    | rewrite lookup_insert_ne by congruence; apply Hfree ].
Qed.

End HandlerPaths.

(** ** The handler on the sample data *)

Lemma responses_are_patterns_or_errors_witness :
  exists response w',
    GET codeUnitCompare asciiLower Sample.noModel Sample.apiKey Sample.listing
      (Sample.answering Sample.replyNoRange) true Sample.clock Sample.getUser
      Sample.selectEntries Sample.anonymousRequest Sample.cachedWorld
    = (response, w')
    /\ ((httpStatus response = 200%Z
         /\ exists v dm cm, payload response = PatternsBody v dm cm)
        \/ ((httpStatus response = 401 \/ httpStatus response = 500
             \/ httpStatus response = 503)%Z
            /\ (exists message, payload response = ErrorBody message)
            /\ patternsCacheByUser w' = patternsCacheByUser Sample.cachedWorld
            /\ net w' = net Sample.cachedWorld)).
Proof.
  eexists _, _. split; [reflexivity|].
  apply (responses_are_patterns_or_errors codeUnitCompare asciiLower
           Sample.noModel Sample.apiKey Sample.listing
           (Sample.answering Sample.replyNoRange) true Sample.clock
           Sample.getUser Sample.selectEntries Sample.anonymousRequest
           Sample.cachedWorld).
  reflexivity.
Defined.

Lemma other_users_are_untouched_witness :
  patternsCacheByUser
    (snd (GET codeUnitCompare asciiLower Sample.noModel Sample.apiKey
            Sample.listing (Sample.answering Sample.replyNoRange) true
            Sample.clock Sample.getUser Sample.selectWeek
            (Sample.request None) Sample.emptyWorld)) !! Sample.otherUser
  = patternsCacheByUser Sample.emptyWorld !! Sample.otherUser.
Proof.
  apply (other_users_are_untouched codeUnitCompare asciiLower Sample.noModel
           Sample.apiKey Sample.listing (Sample.answering Sample.replyNoRange)
           true Sample.clock Sample.getUser Sample.selectWeek
           (Sample.request None) Sample.emptyWorld Sample.otherUser).
  intros token _ H. vm_compute in H. discriminate.
Defined.

Lemma repeated_request_is_served_from_cache_witness :
  exists r1 w1 r2 w2,
    GET codeUnitCompare asciiLower Sample.noModel Sample.apiKey Sample.listing
      (Sample.answering Sample.replyNoRange) true Sample.clock Sample.getUser
      Sample.selectWeek (Sample.request None) Sample.emptyWorld = (r1, w1)
    /\ GET codeUnitCompare asciiLower Sample.noModel Sample.apiKey Sample.listing
         (Sample.answering Sample.replyNoRange) true Sample.clock Sample.getUser
         Sample.selectEdited (Sample.request None) w1 = (r2, w2)
    /\ net w1 = Sample.weekNet /\ net w2 = Sample.weekNet
    /\ patternsCacheByUser w2 = patternsCacheByUser w1
    /\ httpStatus r1 = 200%Z /\ httpStatus r2 = 200%Z
    /\ (exists dm1 dm2 cm,
          payload r1 = PatternsBody Sample.spokenNoRange dm1 None
          /\ payload r2 = PatternsBody Sample.spokenNoRange dm2 cm)
    /\ (negb true && isOne (q_debug (Sample.request None)) = false ->
        payload r2 = payload r1).
Proof.
  apply (repeated_request_is_served_from_cache codeUnitCompare asciiLower
           Sample.noModel Sample.apiKey Sample.listing
           (Sample.answering Sample.replyNoRange) true Sample.clock
           Sample.getUser Sample.selectWeek (Sample.request None)
           Sample.emptyWorld (js "token-1") Sample.user (Some Sample.weekRows)
           Sample.selectEdited (Some Sample.editedRows)
           Sample.spokenNoRange Sample.weekNet).
  - reflexivity.
  - vm_compute. reflexivity.
  - reflexivity.
  - reflexivity.
  - reflexivity.
  - vm_compute. reflexivity.
  - reflexivity.
  - vm_compute. reflexivity.
  - vm_compute. split; discriminate.
Defined.

(** When a row has been added between the two requests the fingerprint
    differs, and the second request runs the generator again and replaces
    the cache entry, although the clock has moved by less than five
    minutes. *)
Example added_row_runs_generator_again :
  let first := GET codeUnitCompare asciiLower Sample.noModel Sample.apiKey
                 Sample.listing (Sample.answering Sample.replyNoRange) true
                 Sample.clock Sample.getUser Sample.selectWeek
                 (Sample.request None) Sample.emptyWorld in
  let second := GET codeUnitCompare asciiLower Sample.noModel Sample.apiKey
                  Sample.listing (Sample.answering Sample.replyNoRange) true
                  Sample.clock Sample.getUser Sample.selectLater
                  (Sample.request None) (snd first) in
  computeEntriesFingerprint Sample.laterRows
  <> computeEntriesFingerprint Sample.weekRows
  /\ contentCalls (calls (net (snd first))) = 1
  /\ contentCalls (calls (net (snd second))) = 2
  /\ patternsCacheByUser (snd second) <> patternsCacheByUser (snd first).
Proof.
  cbv zeta. split; [vm_compute; discriminate|].
  split; [vm_compute; reflexivity|]. split; [vm_compute; reflexivity|].
  intros E.
  apply (f_equal (fun m => option_map fingerprint (m !! Sample.user))) in E.
  vm_compute in E. discriminate.
Qed.

Lemma refresh_during_outage_serves_cached_witness :
  exists response w',
    GET codeUnitCompare asciiLower Sample.noModel Sample.apiKey Sample.listing
      Sample.limited true Sample.clock Sample.getUser Sample.selectWeek
      Sample.refreshRequest Sample.cachedWorld = (response, w')
    /\ patternsCacheByUser w' = patternsCacheByUser Sample.cachedWorld
    /\ net w' = Sample.weekNet
    /\ httpStatus response = 200%Z
    /\ exists dm cm,
         payload response = PatternsBody (value Sample.cachedEntry) dm cm
         /\ (negb true && isOne (q_debug Sample.refreshRequest) = false
             -> dm = None /\ cm = None).
Proof.
  apply (refresh_during_outage_serves_cached codeUnitCompare asciiLower
           Sample.noModel Sample.apiKey Sample.listing Sample.limited true
           Sample.clock Sample.getUser Sample.selectWeek Sample.refreshRequest
           Sample.cachedWorld (js "token-1") Sample.user (Some Sample.weekRows)
           Sample.cachedEntry (silent None) Sample.weekNet).
  - reflexivity.
  - vm_compute. reflexivity.
  - reflexivity.
  - reflexivity.
  - vm_compute. reflexivity.
  - vm_compute. reflexivity.
  - reflexivity.
  - vm_compute. split; discriminate.
Defined.

Lemma missing_key_gives_503_witness :
  GET codeUnitCompare asciiLower Sample.noModel Sample.noKey Sample.listing
    (Sample.answering Sample.replyNoRange) true Sample.clock Sample.getUser
    Sample.selectWeek (Sample.request None) Sample.emptyWorld
  = ({| httpStatus := 503; payload := ErrorBody (js "Gemini is not configured.") |},
     Sample.emptyWorld).
Proof.
  apply (missing_key_gives_503 codeUnitCompare asciiLower Sample.noModel
           Sample.noKey Sample.listing (Sample.answering Sample.replyNoRange)
           true Sample.clock Sample.getUser Sample.selectWeek
           (Sample.request None) Sample.emptyWorld (js "token-1") Sample.user
           (Some Sample.weekRows)).
  - vm_compute. reflexivity.
  - reflexivity.
  - reflexivity.
  - right. reflexivity.
  - vm_compute. reflexivity.
  - reflexivity.
Defined.

Lemma production_hides_debug_witness :
  exists response w',
    GET codeUnitCompare asciiLower Sample.noModel Sample.apiKey Sample.listing
      (Sample.answering Sample.replyNoRange) true Sample.clock Sample.getUser
      Sample.selectWeek (Sample.request (Some (js "1"))) Sample.emptyWorld
    = (response, w')
    /\ debugFree w'
    /\ forall v dm cm, payload response = PatternsBody v dm cm ->
         debug v = None /\ dm = None /\ cm = None.
Proof.
  eexists _, _. split; [vm_compute; reflexivity|].
  eapply (production_hides_debug codeUnitCompare asciiLower Sample.noModel
            Sample.apiKey Sample.listing (Sample.answering Sample.replyNoRange)
            true Sample.clock Sample.getUser Sample.selectWeek
            (Sample.request (Some (js "1"))) Sample.emptyWorld).
  - reflexivity.
  - intros uid c H. vm_compute in H. discriminate.
  - vm_compute. reflexivity.
Defined.

(** * The e-mail address of a user name *)

Import Username.

(** The repetition stops after a run of [lo] to [hi] code units of the
    class, and the continuation succeeds there. *)
Lemma rep_loop_sound p k : forall hi lo st m,
  rep_loop p k lo hi st = Some m ->
  exists mid st',
    m_rest st = mid ++ m_rest st'
    /\ lo <= length mid <= hi
    /\ forallb p mid = true
    /\ k st' = Some m.
Proof.
  induction hi as [|hi IH]; intros lo st m; cbn [rep_loop].
  - destruct (Nat.eqb_spec lo 0) as [->|]; [|discriminate]. intros H.
    exists [], st. cbn. repeat split; auto.
  - cbn [run]. destruct (m_rest st) as [|c tl] eqn:R.
    + destruct (Nat.eqb_spec lo 0) as [->|]; [|discriminate]. intros H.
      exists [], st. rewrite R. cbn. repeat split; auto. lia.
    + destruct (p c) eqn:Pc.
      * destruct (rep_loop p k (lo - 1) hi _) as [out|] eqn:L.
        -- intros [= <-]. apply IH in L as (mid & st' & R' & Len & A & K).
           cbn [m_rest] in R'. exists (c :: mid), st'. rewrite R'. cbn.
           rewrite Pc, A. repeat split; auto; lia.
        -- destruct (Nat.eqb_spec lo 0) as [->|]; [|discriminate]. intros H.
           exists [], st. rewrite R. cbn. repeat split; auto. lia.
      * destruct (Nat.eqb_spec lo 0) as [->|]; [|discriminate]. intros H.
        exists [], st. rewrite R. cbn. repeat split; auto. lia.
Qed.

(** When the subject begins with a run of the class of an allowed length
    after which the continuation succeeds, the repetition succeeds. *)
Lemma rep_loop_complete p k rest :
  (forall st', m_rest st' = rest -> k st' <> None) ->
  forall hi lo mid st,
    m_rest st = mid ++ rest -> forallb p mid = true ->
    lo <= length mid <= hi ->
    rep_loop p k lo hi st <> None.
Proof.
  intros Hk. induction hi as [|hi IH]; intros lo mid st R A Len; cbn [rep_loop].
  - destruct mid; [|cbn in Len; lia]. cbn in Len.
    replace lo with 0 by lia. cbn. apply Hk. exact R.
  - destruct mid as [|c mid].
    + cbn in Len. replace lo with 0 by lia. cbn [Nat.eqb Nat.sub].
      destruct (run (Cls p) _ st); [discriminate|]. apply Hk. exact R.
    + cbn [run]. rewrite R. cbn [app]. cbn in A.
      apply andb_true_iff in A as [Pc A]. rewrite Pc.
      pose proof (IH (lo - 1) mid
                    (MState (Some c) (S (m_pos st)) (mid ++ rest) (m_caps st))
                    eq_refl A ltac:(cbn in Len; lia)) as Hne.
      destruct (rep_loop p k (lo - 1) hi _); [discriminate|contradiction].
Qed.

Lemma run_Bol k st : run Bol k st = if Nat.eqb (m_pos st) 0 then k st else None.
Proof. reflexivity. Qed.

Lemma test_from_Bol k prev pos s :
  0 < pos -> test_from (run Bol k) prev pos s = false.
Proof.
  revert prev pos. induction s as [|c tl IH]; intros prev pos Hp;
    cbn [test_from]; rewrite run_Bol; cbn [m_pos];
    destruct (Nat.eqb_spec pos 0); try lia; try reflexivity.
  apply IH. lia.
Qed.

Lemma test_Bol k s :
  test (run Bol k) s
  = match k (MState None 0 s []) with Some _ => true | None => false end.
Proof.
  unfold test. destruct s as [|c tl]; cbn [test_from]; rewrite run_Bol;
    cbn [m_pos Nat.eqb].
  - now destruct (k _).
  - destruct (k _); [reflexivity|]. apply test_from_Bol. lia.
Qed.

Lemma isLowerAlnum_isNameChar c : isLowerAlnum c = true -> isNameChar c = true.
Proof. unfold isNameChar. now intros ->. Qed.

Lemma last_snoc_cons {A} (a : A) mid z : list.last (a :: mid ++ [z]) = Some z.
Proof.
  change (a :: mid ++ [z]) with ((a :: mid) ++ [z]). apply last_snoc.
Qed.

(** The expression accepts the valid user names and no other string. *)
Lemma test_reUsername s : test reUsername s = validUsername s.
Proof.
  unfold reUsername. rewrite test_Bol.
  destruct (run (Cls isLowerAlnum) _ _) as [m|] eqn:E.
  - symmetry. cbn [run m_rest] in E.
    destruct s as [|a s1]; [discriminate|].
    destruct (isLowerAlnum a) eqn:Pa; [|discriminate].
    apply rep_loop_sound in E as (mid & st' & R & Len & A & K).
    cbn [m_rest] in R. cbn [run] in K.
    destruct (m_rest st') as [|z tl] eqn:R'; [discriminate|].
    destruct (isLowerAlnum z) eqn:Pz; [|discriminate].
    cbn [m_rest] in K. destruct tl; [|discriminate].
    subst s1. unfold validUsername.
    rewrite last_snoc_cons. cbn [head length forallb].
    rewrite length_app, forallb_app, A, Pa, Pz. cbn [length forallb].
    rewrite (isLowerAlnum_isNameChar _ Pa), (isLowerAlnum_isNameChar _ Pz).
    cbn [andb].
    destruct (Nat.leb_spec 3 (S (length mid + 1))); [|lia].
    destruct (Nat.leb_spec (S (length mid + 1)) 32); [|lia]. reflexivity.
  - symmetry. apply not_true_is_false. intros V. unfold validUsername in V.
    apply andb_true_iff in V as [V Hends].
    apply andb_true_iff in V as [V A].
    apply andb_true_iff in V as [L1 L2].
    apply Nat.leb_le in L1, L2.
    destruct s as [|a s1]; [cbn in L1; lia|].
    destruct (list.last (a :: s1)) as [z|] eqn:Hl; [|discriminate].
    cbn [head] in Hends. apply andb_true_iff in Hends as [Pa Pz].
    assert (Hs1 : exists mid, s1 = mid ++ [z]).
    { destruct s1 as [|b s2] using rev_ind; [cbn in L1; lia|].
      exists s2. change (a :: s2 ++ [b]) with ((a :: s2) ++ [b]) in Hl.
      rewrite last_snoc in Hl. congruence. }
    destruct Hs1 as [mid ->].
    cbn [run m_rest] in E. rewrite Pa in E.
    cbn [forallb] in A. apply andb_true_iff in A as [_ A].
    rewrite forallb_app in A. apply andb_true_iff in A as [A _].
    cbn [length] in L1, L2. rewrite length_app in L1, L2. cbn in L1, L2.
    apply (fun Hk R Len =>
             rep_loop_complete isNameChar _ [z] Hk 30 1 mid _ R A Len E);
      [|reflexivity|lia].
    intros st' R. rewrite R, Pz. discriminate.
Qed.

Section UsernameFacts.

Variable toLowerCase : jstring -> jstring.

(** X28. [usernameToEmail] trims the name and maps it to lower case; when
    the result has three to thirty-two code units, all of them lower-case
    letters, digits, dots, underscores or dashes, the first and the last
    a letter or a digit, it returns the result followed by the domain of
    the hackathon, and otherwise it throws. *)
Theorem usernameToEmail_accepts_valid_names rawUsername :
  usernameToEmail toLowerCase rawUsername
  = if validUsername (toLowerCase (trim rawUsername))
    then Some (toLowerCase (trim rawUsername) ++ js "@hack.local")
    else None.
Proof.
  unfold usernameToEmail. rewrite test_reUsername.
  destruct (validUsername _); reflexivity.
Qed.

End UsernameFacts.

(** * The prompts of the day *)

Import PromptPicker.

Lemma ushr_range a : (0 <= ushr a 0 < 2 ^ 32)%Z.
Proof. unfold ushr. rewrite Z.shiftr_0_r. apply Z.mod_pos_bound. lia. Qed.

Lemma floorScaled_range u n :
  (0 <= u < 2 ^ 32)%Z -> (0 < n)%Z -> (0 <= floorScaled u n < n)%Z.
Proof.
  intros Hu Hn. unfold floorScaled. split.
  - apply Z.div_pos; nia.
  - apply Z.div_lt_upper_bound; nia.
Qed.

Lemma mulberry32_next_range seed :
  (0 <= snd (mulberry32_next seed) < 2 ^ 32)%Z.
Proof. unfold mulberry32_next. cbv zeta. cbn [snd]. apply ushr_range. Qed.

Lemma PROMPT_BANK_NoDup : NoDup PROMPT_BANK.
Proof. apply (bool_decide_unpack (NoDup PROMPT_BANK)). vm_compute. exact I. Qed.

(** X29. For every user and every date [pickDailyPrompts] returns two
    prompts of the bank, and the two are different. *)
Theorem daily_prompts_are_distinct userId entryDate :
  exists p1 p2,
    pickDailyPrompts userId entryDate = (Some p1, Some p2)
    /\ p1 <> p2
    /\ In p1 PROMPT_BANK /\ In p2 PROMPT_BANK.
Proof.
  unfold pickDailyPrompts.
  generalize (hashStringToUint32 (userId ++ js ":" ++ entryDate)). intros seed.
  pose proof (mulberry32_next_range seed) as Hu1.
  destruct (mulberry32_next seed) as [seed1 u1]. cbn [snd] in Hu1.
  pose proof (mulberry32_next_range seed1) as Hu2.
  destruct (mulberry32_next seed1) as [seed2 u2]. cbn [snd] in Hu2.
  change (Z.of_nat (length PROMPT_BANK)) with 20%Z. cbv zeta.
  pose proof (floorScaled_range u1 20 Hu1 ltac:(lia)) as Ha.
  pose proof (floorScaled_range u2 20 Hu2 ltac:(lia)) as Hb.
  generalize dependent (floorScaled u1 20). intros a Ha.
  generalize dependent (floorScaled u2 20). intros b Hb.
  assert (Hb' : exists b', (if Z.eqb b a then ((b + 1) mod 20)%Z else b) = b'
                           /\ (0 <= b' < 20)%Z /\ b' <> a).
  { eexists. split; [reflexivity|]. destruct (Z.eqb_spec b a) as [->|Hne].
    - pose proof (Z.mod_pos_bound (a + 1) 20 ltac:(lia)). split; [lia|].
      destruct (Z.eq_dec a 19%Z) as [->|]; [discriminate|].
      rewrite Z.mod_small; lia.
    - split; [lia|exact Hne]. }
  destruct Hb' as (b' & -> & Hr & Hne).
  destruct (lookup_lt_is_Some_2 PROMPT_BANK (Z.to_nat a)) as [p1 H1].
  { change (length PROMPT_BANK) with 20. lia. }
  destruct (lookup_lt_is_Some_2 PROMPT_BANK (Z.to_nat b')) as [p2 H2].
  { change (length PROMPT_BANK) with 20. lia. }
  exists p1, p2. rewrite H1, H2. split; [reflexivity|]. split.
  - intros ->. apply Hne.
    pose proof (NoDup_lookup _ _ _ _ PROMPT_BANK_NoDup H1 H2). lia.
  - split; apply list_elem_of_In; eapply list_elem_of_lookup_2; eauto.
Qed.
